(** * Volcanic terrain generator: the scattering core

    A shallow embedding of [volcanic_terrain_generator.py]: map-size
    validation, terrain parameters, nearest-vertex terrain sampling, the
    placement rules and the rejection-sampling scatter loop.

    Conventions.
    - Python floats are modelled by exact rationals ([Q]); [float('inf')] is
      the extra constructor [Inf] of [num].  Where the code truncates a float
      to an integer with [int], in [_calculate_asset_count], the last bit of
      the float decides the result, and every operation is rounded there as
      binary64 rounds it ([float]: 53 bits, to nearest, ties to even).
      Elsewhere (positions, angles, scales, terrain parameters) rounding
      error is outside the model, and so are NaN and the exponent range of
      binary64 throughout (no overflow to [inf], no [OverflowError], no
      subnormal numbers).
    - Python dictionaries with string keys are [gmap string _].
    - The global [random] module is a state [RandomState]; the Mersenne
      Twister itself, [math.acos], [math.pi], [x ** 0.5], the file system and
      the Blender operators belong to the host and are the fields of the class
      [Host].
    - Exceptions are the constructor [Raise] of [outcome]. *)

From Stdlib Require Import Ascii String ZArith QArith Qpower Qround Qabs Qminmax Lia Lqa.
From stdpp Require Import base option gmap strings list pretty.

(** ** Numbers *)

(** A Python float: a finite value or [float('inf')]. *)
Inductive num : Type :=
  | Fin (q : Q)
  | Inf.

Definition Qltb (a b : Q) : bool :=
  (Qnum a * Zpos (Qden b) <? Qnum b * Zpos (Qden a))%Z.

(** [a < b] on floats. *)
Definition num_lt (a b : num) : bool :=
  match a, b with
  | Fin x, Fin y => Qltb x y
  | Fin _, Inf => true
  | Inf, _ => false
  end.

(** [a > b] on floats. *)
Definition num_gt (a b : num) : bool := num_lt b a.

(** The order [a <= b] on floats, as a proposition. *)
Definition num_le (a b : num) : Prop :=
  match a, b with
  | Fin x, Fin y => (x <= y)%Q
  | _, Inf => True
  | Inf, Fin _ => False
  end.

(** [int(x)] on a float: truncation towards zero. *)
Definition int_of_float (x : Q) : Z := Z.quot (Qnum x) (Zpos (Qden x)).

(** [max(a, b)] and [min(a, b)] on floats: the first argument wins a tie. *)
Definition py_max (a b : Q) : Q := if Qltb a b then b else a.
Definition py_min (a b : Q) : Q := if Qltb b a then b else a.

(** [round(x)] on a float: to the nearest integer, ties to the even one. *)
Definition py_round (x : Q) : Z :=
  let f := Qfloor x in
  let r := (x - inject_Z f)%Q in
  if Qltb r (1 # 2) then f
  else if Qltb (1 # 2) r then (f + 1)%Z
  else if Z.even f then f else (f + 1)%Z.

(** ** Binary floating point *)

(** [floor(log2(x))] for a positive [x]. *)
Definition binade (x : Q) : Z :=
  let k := (Z.log2 (Qnum x) - Z.log2 (Zpos (Qden x)))%Z in
  if Qle_bool (2 ^ k) x then k else (k - 1)%Z.

(** The binary64 number nearest to a positive [x]: a significand of 53
    bits, the tie going to the even one. *)
Definition round_positive (x : Q) : Q :=
  let e := (binade x - 52)%Z in
  (inject_Z (py_round (x / 2 ^ e)) * 2 ^ e)%Q.

(** The float that a literal, a conversion or an operation with the exact
    result [x] gives. *)
Definition float (x : Q) : Q :=
  match (x ?= 0)%Q with
  | Eq => 0%Q
  | Gt => round_positive x
  | Lt => (- round_positive (- x))%Q
  end.

(** [a + b], [a - b] and [a * b] on floats. *)
Definition float_add (a b : Q) : Q := float (a + b).
Definition float_sub (a b : Q) : Q := float (a - b).
Definition float_mul (a b : Q) : Q := float (a * b).

(** [float(n)] for an [int], as [n * x] converts [n] for a float [x]. *)
Definition float_of_int (n : Z) : Q := float (inject_Z n).

(** [n / m] on two [int]s: the quotient, rounded once. *)
Definition int_true_div (n m : Z) : Q := float (inject_Z n / inject_Z m).

(** ** Exceptions *)

Inductive exn : Type :=
  | ValueError (msg : string)
  | KeyError (key : string)
  | TypeError.

Inductive outcome (A : Type) : Type :=
  | Return (a : A)
  | Raise (e : exn)
  | OutOfFuel.
Arguments Return {A} a.
Arguments Raise {A} e.
Arguments OutOfFuel {A}.

(** ** Vectors and matrices of [mathutils] *)

Record Vector : Type := mkVector { vx : Q; vy : Q; vz : Q }.

Definition dot (a b : Vector) : Q :=
  (vx a * vx b + vy a * vy b + vz a * vz b)%Q.

(** A 4x4 matrix, row by row. *)
Definition Row : Type := (Q * Q * Q * Q)%type.
Record Matrix : Type := mkMatrix { row0 : Row; row1 : Row; row2 : Row; row3 : Row }.

Definition identity_matrix : Matrix :=
  mkMatrix (1, 0, 0, 0)%Q (0, 1, 0, 0)%Q (0, 0, 1, 0)%Q (0, 0, 0, 1)%Q.

Definition det3 (a b c : Q * Q * Q) : Q :=
  let '(a0, a1, a2) := a in
  let '(b0, b1, b2) := b in
  let '(c0, c1, c2) := c in
  (a0 * (b1 * c2 - b2 * c1) - a1 * (b0 * c2 - b2 * c0) + a2 * (b0 * c1 - b1 * c0))%Q.

(** The determinant, expanded along the first row. *)
Definition determinant (m : Matrix) : Q :=
  let '(a0, a1, a2, a3) := row0 m in
  let '(b0, b1, b2, b3) := row1 m in
  let '(c0, c1, c2, c3) := row2 m in
  let '(d0, d1, d2, d3) := row3 m in
  (a0 * det3 (b1, b2, b3) (c1, c2, c3) (d1, d2, d3)
   - a1 * det3 (b0, b2, b3) (c0, c2, c3) (d0, d2, d3)
   + a2 * det3 (b0, b1, b3) (c0, c1, c3) (d0, d1, d3)
   - a3 * det3 (b0, b1, b2) (c0, c1, c2) (d0, d1, d2))%Q.

(** [M.inverted()] raises [ValueError] on a matrix without an inverse; the
    generator computes the inverse and never uses it, so only that matters. *)
Definition inverted (m : Matrix) : outcome unit :=
  if Qeq_bool (determinant m) 0
  then Raise (ValueError "Matrix.invert(ed): matrix does not have an inverse")
  else Return tt.

(** [M @ v] for a 4x4 matrix and a 3D vector: the vector is extended with
    [w = 1] and the first three components are returned. *)
Definition row_apply (r : Row) (v : Vector) (w : Q) : Q :=
  let '(a, b, c, d) := r in (a * vx v + b * vy v + c * vz v + d * w)%Q.

Definition mat_mul_vec (m : Matrix) (v : Vector) : Vector :=
  mkVector (row_apply (row0 m) v 1) (row_apply (row1 m) v 1) (row_apply (row2 m) v 1).

(** [M.to_3x3() @ v]: the linear part only. *)
Definition mat3_mul_vec (m : Matrix) (v : Vector) : Vector :=
  mkVector (row_apply (row0 m) v 0) (row_apply (row1 m) v 0) (row_apply (row2 m) v 0).

(** ** Blender data *)

Record MeshVertex : Type := mkVertex { co : Vector; normal : Vector }.

Record TerrainObject : Type := mkTerrain {
  matrix_world : Matrix;
  vertices : list MeshVertex
}.

(** An object of the scene as far as the generator writes to it: each field
    holds the value last assigned.  For [name] that is the string of the
    assignment; Blender keeps the names of a scene apart and stores a name
    that is taken with a numeric suffix ([.001], ...), which is outside the
    model. *)
Record BpyObject : Type := mkObject {
  location : num * num * num;
  rotation_euler : Vector;
  scale : Vector;
  name : string
}.

(** A value stored in the dictionary a terrain query returns. *)
Inductive pyval : Type :=
  | PFloat (x : num)
  | PVector (v : Vector).

(** ** Configuration *)

(** An entry of the asset catalog after [_validate_asset_catalog]: the four
    required fields are present, [height_range] and [slope_max] are read
    with [.get] and a default. *)
Record AssetInfo : Type := mkAsset {
  file_path : string;
  asset_type : string;
  scale_range : Q * Q;
  density_weight : Q;
  height_range : option (Q * Q);
  slope_max : option Q
}.

Record TerrainConfig : Type := mkConfig {
  PROJECT_NAME : string;
  OUTPUT_DIR : string;
  RNG_SEED : Z;
  RENDER_ENGINE : string;
  DENSITY_PRESET : string;
  map_size : Z * Z;
  asset_catalog : list AssetInfo
}.

(** ** The host: everything the generator calls but does not define *)

Class Host : Type := mkHost {
  (** [mt_random s n]: the [n]-th value of [random.random()] after
      [random.seed(s)]. *)
  mt_random : Z -> nat -> Q;
  (** [os.path.exists]. *)
  path_exists : string -> bool;
  (** [bpy.ops.import_scene.gltf] followed by reading
      [bpy.context.selected_objects]; the first argument counts the imports
      already made in this run, [None] is any exception of the operator. *)
  import_scene_gltf : nat -> string -> option (list BpyObject);
  math_pi : Q;
  math_acos : Q -> Q;
  (** [x ** 0.5]. *)
  pow_half : Q -> Q;
  (** [a.rotation_difference(b).to_euler()]. *)
  rotation_difference_to_euler : Vector -> Vector -> Vector
}.

(** ** Strings: what [_validate_map_size] needs of [str] and [int] *)

(** A [string] stands for a [str] whose characters are code points below
    256, one [ascii] each. *)

(** ['c' in s]. *)
Fixpoint contains_char (c : ascii) (s : string) : bool :=
  match s with
  | EmptyString => false
  | String a s' => if Ascii.eqb a c then true else contains_char c s'
  end.

(** [s.split(c)] for a one-character separator. *)
Fixpoint split_char (c : ascii) (s : string) : list string :=
  match s with
  | EmptyString => [EmptyString]
  | String a s' =>
      if Ascii.eqb a c then EmptyString :: split_char c s'
      else match split_char c s' with
           | hd :: tl => String a hd :: tl
           | [] => [String a EmptyString]
           end
  end.

(** The characters [int] skips around a number: tab, line feed, vertical
    tab, form feed, carriage return and space among the ASCII characters
    (not the separators 28 to 31, which [str.strip] would remove), and the
    two spaces beyond ASCII, next line (133) and no-break space (160). *)
Definition is_space (a : ascii) : bool :=
  let n := nat_of_ascii a in
  ((9 <=? n) && (n <=? 13) || (n =? 32) || (n =? 133) || (n =? 160))%nat.

Definition is_digit (a : ascii) : bool :=
  let n := nat_of_ascii a in ((48 <=? n) && (n <=? 57))%nat.

Definition digit_value (a : ascii) : Z := Z.of_nat (nat_of_ascii a - 48).

Fixpoint lstrip (l : list ascii) : list ascii :=
  match l with
  | a :: l' => if is_space a then lstrip l' else l
  | [] => []
  end.

Definition strip (l : list ascii) : list ascii := rev (lstrip (rev (lstrip l))).

(** Decimal digits, single underscores allowed between two digits. *)
Fixpoint parse_digits (l : list ascii) (acc : Z) (after_digit : bool) : option Z :=
  match l with
  | [] => if after_digit then Some acc else None
  | a :: l' =>
      if is_digit a then parse_digits l' (acc * 10 + digit_value a)%Z true
      else if Ascii.eqb a "_" then
        if after_digit then parse_digits l' acc false else None
      else None
  end.

(** [sys.get_int_max_str_digits()], which the generator leaves at its
    default: [int] refuses a number with more digits. *)
Definition max_str_digits : nat := 4300.

(** The digits after the sign: underscores do not count towards the limit. *)
Definition parse_number (l : list ascii) : option Z :=
  if (max_str_digits <? length (List.filter is_digit l))%nat then None
  else parse_digits l 0 false.

(** [int(s)]: surrounding white space, an optional sign, decimal digits;
    [None] stands for [ValueError]. *)
Definition int_of_str (s : string) : option Z :=
  match strip (list_ascii_of_string s) with
  | a :: l =>
      if Ascii.eqb a "-" then Z.opp <$> parse_number l
      else if Ascii.eqb a "+" then parse_number l
      else parse_number (a :: l)
  | [] => None
  end.

(** ** TerrainConfig._validate_map_size *)

Definition invalid_map_size (size_str : string) : exn :=
  ValueError ("Invalid MAP_SIZE_M format: " +:+ size_str +:+
              ". Expected 'WIDTHxHEIGHT' or single integer").

(** [MAP_SIZE_M] is a string.  Every [ValueError] of the [try] block ([int]
    on a part, or unpacking a number of parts other than two) is re-raised
    with the message above; nothing else is checked. *)
Definition _validate_map_size (size_str : string) : outcome (Z * Z) :=
  if contains_char "x" size_str then
    match int_of_str <$> split_char "x" size_str with
    | [Some x; Some y] => Return (x, y)
    | _ => Raise (invalid_map_size size_str)
    end
  else
    match int_of_str size_str with
    | Some size => Return (size, size)
    | None => Raise (invalid_map_size size_str)
    end.

(** ** Density presets and terrain parameters *)

Definition density_presets : gmap string Q :=
  <["Low" := 0.5%Q]> (<["Med" := 1.0%Q]> (<["High" := 2.0%Q]> ∅)).

(** [density_presets.get(preset, 1.0)]. *)
Definition density_multiplier (preset : string) : Q :=
  default 1.0%Q (density_presets !! preset).

Definition map_area (config : TerrainConfig) : Z :=
  (fst (map_size config) * snd (map_size config))%Z.

Definition height_scale (config : TerrainConfig) : Q :=
  py_max 10 (inject_Z (map_area config) * 0.00005
             * density_multiplier (DENSITY_PRESET config)).

Definition crater_count (config : TerrainConfig) : Z :=
  Z.max 1 (int_of_float (inject_Z (map_area config) * 0.000008
                         * density_multiplier (DENSITY_PRESET config))).

(** [if key in mod: mod[key] = value]. *)
Definition set_if_present (key : string) (value : Q) (m : gmap string Q) : gmap string Q :=
  match m !! key with
  | Some _ => <[key := value]> m
  | None => m
  end.

Definition _configure_terrain_parameters (config : TerrainConfig)
    (geo_nodes_mod : gmap string Q) : gmap string Q :=
  let m := set_if_present "Scale" 25.0%Q geo_nodes_mod in
  let m := set_if_present "Height" (height_scale config) m in
  let m := set_if_present "Crater Count" (inject_Z (crater_count config)) m in
  let m := set_if_present "Lava Flow Strength" 0.7%Q m in
  set_if_present "Erosion Amount" 0.3%Q m.

(** ** The [random] module *)

Record RandomState : Type := mkRandom { seed : Z; consumed : nat }.

(** [random.seed(s)]. *)
Definition random_seed (s : Z) : RandomState := mkRandom s 0.

(** What a draw is used for; recorded next to the index of the value drawn.
    The log is ghost state: nothing reads it. *)
Inductive Draw : Type :=
  | DrawVariation
  | DrawX
  | DrawY
  | DrawYaw
  | DrawScale.

(** The state outside the generator object that scattering changes. *)
Record World : Type := mkWorld {
  rng : RandomState;
  imports : nat;
  draw_log : list (Draw * nat)
}.

(** ** State and exception monad *)

Definition M (A : Type) : Type := World -> outcome (A * World).

Definition ret {A} (a : A) : M A := fun w => Return (a, w).

Definition bind {A B} (c : M A) (k : A -> M B) : M B := fun w =>
  match c w with
  | Return (a, w') => k a w'
  | Raise e => Raise e
  | OutOfFuel => OutOfFuel
  end.

Definition obind {A B} (c : outcome A) (k : A -> outcome B) : outcome B :=
  match c with
  | Return a => k a
  | Raise e => Raise e
  | OutOfFuel => OutOfFuel
  end.

Definition lift {A} (c : outcome A) : M A := fun w =>
  obind c (fun a => Return (a, w)).

Notation "'let*' x ':=' c 'in' k" := (bind c (fun x => k))
  (at level 10, x name, c at level 100, k at level 200).
Notation "'let?' x ':=' c 'in' k" := (obind c (fun x => k))
  (at level 10, x name, c at level 100, k at level 200).

(** The world after one more value has been drawn. *)
Definition after_draw (purpose : Draw) (w : World) : World :=
  mkWorld (mkRandom (seed (rng w)) (S (consumed (rng w)))) (imports w)
          (draw_log w ++ [(purpose, consumed (rng w))]).

(** [random.random()]. *)
Definition random_random `{Host} (purpose : Draw) : M Q := fun w =>
  Return (mt_random (seed (rng w)) (consumed (rng w)), after_draw purpose w).

(** [random.uniform(a, b)] is [a + (b - a) * random()]. *)
Definition random_uniform `{Host} (purpose : Draw) (a b : Q) : M Q :=
  let* u := random_random purpose in
  ret (a + (b - a) * u)%Q.

(** The same, with the three operations rounded. *)
Definition random_uniform_rounded `{Host} (purpose : Draw) (a b : Q) : M Q :=
  let* u := random_random purpose in
  ret (float_add a (float_mul (float_sub b a) u)).

(** ** VolcanicTerrainGenerator *)

Record VolcanicTerrainGenerator : Type := mkGenerator {
  config : TerrainConfig;
  terrain_object : option TerrainObject;
  scattered_objects : list BpyObject
}.

(** [__init__]: no terrain yet, nothing scattered, and the generator seeded. *)
Definition init (cfg : TerrainConfig) : VolcanicTerrainGenerator * World :=
  (mkGenerator cfg None [], mkWorld (random_seed (RNG_SEED cfg)) 0 []).

(** *** _calculate_asset_count *)

(** Both counts are floats truncated by [int], so the products are rounded
    one by one, from the left, as Python evaluates them. *)
Definition _calculate_asset_count `{Host} (self : VolcanicTerrainGenerator)
    (asset_info : AssetInfo) : M Z :=
  let base_density := density_multiplier (DENSITY_PRESET (config self)) in
  let area_factor := int_true_div (map_area (config self)) 10000 in
  let base_count :=
    Z.max 1 (int_of_float
               (float_mul (float_mul (float_mul (float_of_int 15) base_density)
                                     area_factor)
                          (density_weight asset_info))) in
  let* variation := random_uniform_rounded DrawVariation (float 0.8) (float 1.2) in
  ret (Z.max 1 (int_of_float (float_mul (float_of_int base_count) variation))).

(** *** _sample_terrain_properties *)

Record Closest : Type := mkClosest {
  closest_distance : num;
  closest_height : Q;
  closest_normal : Vector
}.

Definition closest_init : Closest := mkClosest Inf 0.0 (mkVector 0 0 1).

(** The distance the vertex loop compares: horizontal only. *)
Definition vertex_distance `{Host} (t : TerrainObject) (x y : Q) (vert : MeshVertex) : Q :=
  let world_vert := mat_mul_vec (matrix_world t) (co vert) in
  pow_half ((vx world_vert - x) ^ 2 + (vy world_vert - y) ^ 2).

(** One iteration of [for vert in mesh.vertices]. *)
Definition closest_step `{Host} (t : TerrainObject) (x y : Q)
    (c : Closest) (vert : MeshVertex) : Closest :=
  let world_vert := mat_mul_vec (matrix_world t) (co vert) in
  let distance := vertex_distance t x y vert in
  if num_lt (Fin distance) (closest_distance c) then
    mkClosest (Fin distance) (vz world_vert) (mat3_mul_vec (matrix_world t) (normal vert))
  else c.

Definition find_closest `{Host} (t : TerrainObject) (x y : Q) : Closest :=
  fold_left (closest_step t x y) (vertices t) closest_init.

(** [math.degrees]. *)
Definition math_degrees `{Host} (x : Q) : Q := (x * (180 / math_pi))%Q.

(** The vertex loop, the slope and the dictionary returned. *)
Definition sample_vertices `{Host} (t : TerrainObject) (x y : Q) : gmap string pyval :=
  let c := find_closest t x y in
  let slope_angle :=
    math_degrees (math_acos (py_max (-1) (py_min 1 (vz (closest_normal c))))) in
  <["height" := PFloat (Fin (closest_height c))]>
  (<["slope" := PFloat (Fin slope_angle)]>
  (<["normal" := PVector (closest_normal c)]>
  (<["distance_to_nearest" := PFloat (closest_distance c)]> ∅))).

Definition _sample_terrain_properties `{Host} (self : VolcanicTerrainGenerator)
    (x y : Q) : outcome (option (gmap string pyval)) :=
  match terrain_object self with
  | None => Return None
  | Some t =>
      let? matrix_inv := inverted (matrix_world t) in
      Return (Some (sample_vertices t x y))
  end.

(** *** _is_valid_placement *)

(** [d[key]]. *)
Definition getitem (d : gmap string pyval) (key : string) : outcome pyval :=
  match d !! key with
  | Some v => Return v
  | None => Raise (KeyError key)
  end.

(** A value used in a comparison with a number. *)
Definition as_float (v : pyval) : outcome num :=
  match v with
  | PFloat x => Return x
  | PVector _ => Raise TypeError
  end.

Definition _is_valid_placement (terrain_data : gmap string pyval)
    (asset_info : AssetInfo) : outcome bool :=
  let? height := getitem terrain_data "height" in
  let? slope := getitem terrain_data "slope" in
  let height_range := default (0, 1000)%Q (height_range asset_info) in
  let? height := as_float height in
  if num_lt height (Fin (fst height_range)) || num_gt height (Fin (snd height_range))
  then Return false
  else
    let max_slope := default 45%Q (slope_max asset_info) in
    let? slope := as_float slope in
    if num_gt slope (Fin max_slope) then Return false
    else
      let? distance := getitem terrain_data "distance_to_nearest" in
      let? distance := as_float distance in
      if num_gt distance (Fin 5.0) then Return false
      else Return true.

(** *** _import_and_place_asset *)

(** The world after one more call of the glTF importer. *)
Definition after_import (w : World) : World :=
  mkWorld (rng w) (S (imports w)) (draw_log w).

(** [f"{n:03d}"]. *)
Definition format_03d (n : nat) : string :=
  let digits := pretty n in
  match String.length digits with
  | 1%nat => "00" +:+ digits
  | 2%nat => "0" +:+ digits
  | _ => digits
  end.

Definition up : Vector := mkVector 0 0 1.

(** The statements of the [try] block that read [terrain_data]: a missing
    key or a value of the wrong type raises, and the [except] clause turns
    that into [None]. *)
Definition placement_inputs (terrain_data : gmap string pyval) : option (num * Vector) :=
  match terrain_data !! "height", terrain_data !! "normal" with
  | Some (PFloat height), Some (PVector normal) => Some (height, normal)
  | _, _ => None
  end.

(** Terrain alignment: the rotation of the imported object is replaced
    only for a normal of positive length that is not nearly (anti)parallel
    to [up]. *)
Definition orient_to_normal `{Host} (normal rotation : Vector) : Vector :=
  if Qltb 0 (pow_half (dot normal normal)) then
    if Qltb (Qabs (dot normal up)) 0.999 then rotation_difference_to_euler up normal
    else rotation
  else rotation.

Definition _import_and_place_asset `{Host} (self : VolcanicTerrainGenerator)
    (asset_path : string) (x y : Q) (terrain_data : gmap string pyval)
    (asset_info : AssetInfo) : M (option BpyObject) := fun w =>
  let w1 := after_import w in
  match import_scene_gltf (imports w) asset_path with
  | None => Return (None, w1)
  | Some [] => Return (None, w1)
  | Some (asset_obj :: _) =>
      match placement_inputs terrain_data with
      | None => Return (None, w1)
      | Some (height, normal) =>
          (let rotation := orient_to_normal normal (rotation_euler asset_obj) in
           let* yaw := random_uniform DrawYaw 0 (2 * math_pi) in
           let rotation := mkVector (vx rotation) (vy rotation) (vz rotation + yaw) in
           let* scale_factor :=
             random_uniform DrawScale (fst (scale_range asset_info))
                                      (snd (scale_range asset_info)) in
           ret (Some (mkObject (Fin x, Fin y, height) rotation
                  (mkVector scale_factor scale_factor scale_factor)
                  (asset_type asset_info +:+ "_"
                   +:+ format_03d (length (scattered_objects self)))))) w1
      end
  end.

(** *** _scatter_single_asset_type *)

Record LoopState : Type := mkLoop {
  scattered : list BpyObject;
  attempts : Z;
  placed : Z
}.

(** [placed < count and attempts < max_attempts]. *)
Definition loop_cond (count max_attempts : Z) (s : LoopState) : bool :=
  (placed s <? count)%Z && (attempts s <? max_attempts)%Z.

(** The two position draws of an attempt. *)
Definition draw_position `{Host} (self : VolcanicTerrainGenerator) : M (Q * Q) :=
  let '(size_x, size_y) := map_size (config self) in
  let* x := random_uniform DrawX (- inject_Z size_x / 2 + 5) (inject_Z size_x / 2 - 5) in
  let* y := random_uniform DrawY (- inject_Z size_y / 2 + 5) (inject_Z size_y / 2 - 5) in
  ret (x, y).

(** The body of the [while] loop. *)
Definition loop_body `{Host} (self : VolcanicTerrainGenerator)
    (asset_info : AssetInfo) (s : LoopState) : M LoopState :=
  let s := mkLoop (scattered s) (attempts s + 1) (placed s) in
  let* p := draw_position self in
  let* terrain_data := lift (_sample_terrain_properties self (fst p) (snd p)) in
  match terrain_data with
  | None => ret s
  | Some terrain_data =>
      let* valid := lift (_is_valid_placement terrain_data asset_info) in
      if negb valid then ret s
      else
        let* asset_obj :=
          _import_and_place_asset self (file_path asset_info) (fst p) (snd p)
                                  terrain_data asset_info in
        match asset_obj with
        | Some o => ret (mkLoop (scattered s ++ [o]) (attempts s) (placed s + 1))
        | None => ret s
        end
  end.

Fixpoint while_loop `{Host} (fuel : nat) (self : VolcanicTerrainGenerator)
    (asset_info : AssetInfo) (count max_attempts : Z) (s : LoopState) : M LoopState :=
  if loop_cond count max_attempts s then
    match fuel with
    | O => fun _ => OutOfFuel
    | S fuel' =>
        let* s' := loop_body self asset_info s in
        while_loop fuel' self asset_info count max_attempts s'
    end
  else ret s.

Definition scatter_loop `{Host} (self : VolcanicTerrainGenerator)
    (asset_info : AssetInfo) (count : Z) : M LoopState :=
  let max_attempts := (count * 3)%Z in
  while_loop (Z.to_nat max_attempts) self asset_info count max_attempts (mkLoop [] 0 0).

Definition _scatter_single_asset_type `{Host} (self : VolcanicTerrainGenerator)
    (asset_info : AssetInfo) (count : Z) : M (list BpyObject) :=
  if negb (path_exists (file_path asset_info)) then ret []
  else
    let* s := scatter_loop self asset_info count in
    ret (scattered s).

(** *** scatter_assets *)

(** [for asset_info in self.config.asset_catalog]. *)
Fixpoint scatter_catalog `{Host} (self : VolcanicTerrainGenerator)
    (catalog : list AssetInfo) (scattered_objects : list BpyObject) : M (list BpyObject) :=
  match catalog with
  | [] => ret scattered_objects
  | asset_info :: catalog' =>
      let* count := _calculate_asset_count self asset_info in
      let* asset_objects := _scatter_single_asset_type self asset_info count in
      scatter_catalog self catalog' (scattered_objects ++ asset_objects)
  end.

Definition scatter_assets `{Host} (self : VolcanicTerrainGenerator)
    : M (list BpyObject * VolcanicTerrainGenerator) :=
  match terrain_object self with
  | None => ret ([], self)
  | Some _ =>
      let* scattered_objects := scatter_catalog self (asset_catalog (config self)) [] in
      ret (scattered_objects,
           mkGenerator (config self) (terrain_object self) scattered_objects)
  end.

(** A complete run as far as scattering goes: the generator is built (and
    seeded) from the configuration, [generate_terrain] leaves the terrain
    object the host computed, and the assets are scattered. *)
Definition run `{Host} (cfg : TerrainConfig) (terrain : TerrainObject)
    : outcome (list BpyObject * World) :=
  let '(self, w) := init cfg in
  let self := mkGenerator (config self) (Some terrain) (scattered_objects self) in
  match scatter_assets self w with
  | Return (r, w') => Return (fst r, w')
  | Raise e => Raise e
  | OutOfFuel => OutOfFuel
  end.

(** ** What the specification says, for comparison with the code *)

(** The specification's target count:
    [max(1, round(15 * density_multiplier * area_factor * density_weight * variation))]. *)
Definition spec_target_count (cfg : TerrainConfig) (asset_info : AssetInfo)
    (variation : Q) : Z :=
  Z.max 1 (py_round (15 * density_multiplier (DENSITY_PRESET cfg)
                     * (inject_Z (map_area cfg) / 10000)
                     * density_weight asset_info * variation)).

(** The specification's density presets. *)
Inductive DensityPreset : Type := Low | Med | High.

Definition preset_name (p : DensityPreset) : string :=
  match p with Low => "Low" | Med => "Med" | High => "High" end.

Definition preset_multiplier (p : DensityPreset) : Q :=
  match p with Low => 0.5 | Med => 1.0 | High => 2.0 end.

(** The specification's terrain sample carries an [elevation_fraction] in
    [0, 1]. *)
Definition has_elevation_fraction (terrain_data : gmap string pyval) : Prop :=
  exists e : Q,
    terrain_data !! "elevation_fraction" = Some (PFloat (Fin e)) /\ (0 <= e <= 1)%Q.

(** ** A small concrete host, terrain and catalog *)

Module Example.

(** A stand-in generator with values in [0, 1). *)
Definition random_stream (s : Z) (n : nat) : Q :=
  Qmake ((s * 31 + Z.of_nat n * 17) mod 40) 40.

(** [sqrt (n / d)] to within [1 / d], through the integer square root. *)
Definition approx_sqrt (x : Q) : Q :=
  Qmake (Z.sqrt (Qnum x * Zpos (Qden x))) (Qden x).

Definition imported : BpyObject :=
  mkObject (Fin 0, Fin 0, Fin 0) (mkVector 0 0 0) (mkVector 1 1 1) "imported".

Definition host : Host := {|
  mt_random := random_stream;
  path_exists := fun p => negb (String.eqb p "missing.glb");
  import_scene_gltf := fun _ p =>
    if String.eqb p "broken.glb" then None else Some [imported];
  math_pi := 355 # 113;
  math_acos := fun z => ((1 - z) * (355 # 226))%Q;
  pow_half := approx_sqrt;
  rotation_difference_to_euler := fun a b => mkVector (- vy b) (vx b) 0
|}.

Definition flat (x y z : Q) : MeshVertex := mkVertex (mkVector x y z) (mkVector 0 0 1).

Definition terrain : TerrainObject :=
  mkTerrain identity_matrix
    [flat (-40) (-40) 3; flat (-40) 0 4; flat (-40) 40 5;
     flat 0 (-40) 6; flat 0 0 8; flat 0 40 7;
     flat 40 (-40) 9; flat 40 0 10;
     mkVertex (mkVector 40 40 11) (mkVector (3 # 5) 0 (4 # 5))].

Definition bush : AssetInfo :=
  mkAsset "latt-bush.glb" "vegetation" (0.8, 1.2)%Q 1.0%Q (Some (2, 12)%Q) (Some 30%Q).

Definition missing : AssetInfo :=
  mkAsset "missing.glb" "tree" (0.9, 1.1)%Q 0.7%Q (Some (5, 15)%Q) (Some 20%Q).

Definition stump : AssetInfo :=
  mkAsset "latt-tree-stump.glb" "rock_formation" (0.7, 1.3)%Q 0.8%Q None None.

Definition cfg (s : Z) (size : Z * Z) (catalog : list AssetInfo) : TerrainConfig :=
  mkConfig "Firagle_Volcanic_Terrain" "out" s "Eevee-Next" "Med" size catalog.

Definition generator (s : Z) (size : Z * Z) (catalog : list AssetInfo)
    : VolcanicTerrainGenerator :=
  mkGenerator (cfg s size catalog) (Some terrain) [].

Definition world (s : Z) : World := mkWorld (random_seed s) 0 [].

End Example.

(** ** Predicates used in the statements *)

(** [s.count(c)] for a one-character [c]. *)
Fixpoint count_char (c : ascii) (s : string) : nat :=
  match s with
  | EmptyString => 0
  | String a s' => (if Ascii.eqb a c then 1 else 0) + count_char c s'
  end.

(** A malformed map-size specification: one of the parts between the
    ['x'] is not an integer for [int], or there are more than two parts. *)
Definition malformed (size_str : string) : Prop :=
  (exists part, part ∈ split_char "x" size_str /\ int_of_str part = None) \/
  (2 < length (split_char "x" size_str))%nat.

(** [c] is the record the vertex loop keeps for [vert]. *)
Definition chosen `{Host} (t : TerrainObject) (x y : Q) (c : Closest)
    (vert : MeshVertex) : Prop :=
  c = mkClosest (Fin (vertex_distance t x y vert))
                (vz (mat_mul_vec (matrix_world t) (co vert)))
                (mat3_mul_vec (matrix_world t) (normal vert)).

(** Loop invariant of the vertex loop after the vertices [seen]. *)
Definition closest_inv `{Host} (t : TerrainObject) (x y : Q)
    (seen : list MeshVertex) (c : Closest) : Prop :=
  (seen = [] /\ c = closest_init) \/
  (exists vert, vert ∈ seen /\ chosen t x y c vert /\
     forall vert', vert' ∈ seen ->
       (vertex_distance t x y vert <= vertex_distance t x y vert')%Q).

(** The world matrix of the terrain object, if there is one, has an
    inverse, as it has for the plane [generate_terrain] adds at the origin. *)
Definition invertible_terrain (self : VolcanicTerrainGenerator) : Prop :=
  forall t, terrain_object self = Some t -> ~ (determinant (matrix_world t) == 0)%Q.

(** The three placement rules on a terrain sample. *)
Definition placement_rules (terrain_data : gmap string pyval)
    (asset_info : AssetInfo) : Prop :=
  exists height slope distance : num,
    terrain_data !! "height" = Some (PFloat height) /\
    terrain_data !! "slope" = Some (PFloat slope) /\
    terrain_data !! "distance_to_nearest" = Some (PFloat distance) /\
    num_le (Fin (fst (default (0, 1000)%Q (height_range asset_info)))) height /\
    num_le height (Fin (snd (default (0, 1000)%Q (height_range asset_info)))) /\
    num_le slope (Fin (default 45%Q (slope_max asset_info))) /\
    num_le distance (Fin 5.0).

(** The candidate position an attempt draws in the world [w]. *)
Definition margin_lo (size : Z) : Q := (- inject_Z size / 2 + 5)%Q.
Definition margin_hi (size : Z) : Q := (inject_Z size / 2 - 5)%Q.

Definition candidate_x `{Host} (self : VolcanicTerrainGenerator) (w : World) : Q :=
  let size_x := fst (map_size (config self)) in
  (margin_lo size_x + (margin_hi size_x - margin_lo size_x)
                      * mt_random (seed (rng w)) (consumed (rng w)))%Q.

Definition candidate_y `{Host} (self : VolcanicTerrainGenerator) (w : World) : Q :=
  let size_y := snd (map_size (config self)) in
  (margin_lo size_y + (margin_hi size_y - margin_lo size_y)
                      * mt_random (seed (rng w)) (S (consumed (rng w))))%Q.

Definition after_position (w : World) : World :=
  after_draw DrawY (after_draw DrawX w).

(** The object an accepted attempt returns: [imported] moved to the sampled
    position, oriented, turned by the yaw drawn in the world [w1] and scaled
    by the value drawn next. *)
Definition placed_object `{Host} (self : VolcanicTerrainGenerator)
    (asset_info : AssetInfo) (x y : Q) (height : num) (normal : Vector)
    (imported : BpyObject) (w1 : World) : BpyObject :=
  let rotation := orient_to_normal normal (rotation_euler imported) in
  let yaw := (0 + (2 * math_pi - 0) * mt_random (seed (rng w1)) (consumed (rng w1)))%Q in
  let scale_factor :=
    (fst (scale_range asset_info)
     + (snd (scale_range asset_info) - fst (scale_range asset_info))
       * mt_random (seed (rng w1)) (S (consumed (rng w1))))%Q in
  mkObject (Fin x, Fin y, height)
    (mkVector (vx rotation) (vy rotation) (vz rotation + yaw))
    (mkVector scale_factor scale_factor scale_factor)
    (asset_type asset_info +:+ "_" +:+ format_03d (length (scattered_objects self))).

(** One attempt of the rejection loop, case by case: from the loop state
    [s] and world [w] to the next ones. *)
Inductive attempt `{Host} (self : VolcanicTerrainGenerator) (asset_info : AssetInfo)
    (s : LoopState) (w : World) : LoopState -> World -> Prop :=
  | attempt_no_terrain :
      _sample_terrain_properties self (candidate_x self w) (candidate_y self w) = Return None ->
      attempt self asset_info s w
        (mkLoop (scattered s) (attempts s + 1) (placed s)) (after_position w)
  | attempt_invalid terrain_data :
      _sample_terrain_properties self (candidate_x self w) (candidate_y self w)
        = Return (Some terrain_data) ->
      _is_valid_placement terrain_data asset_info = Return false ->
      attempt self asset_info s w
        (mkLoop (scattered s) (attempts s + 1) (placed s)) (after_position w)
  | attempt_import_failed terrain_data :
      _sample_terrain_properties self (candidate_x self w) (candidate_y self w)
        = Return (Some terrain_data) ->
      _is_valid_placement terrain_data asset_info = Return true ->
      _import_and_place_asset self (file_path asset_info)
          (candidate_x self w) (candidate_y self w) terrain_data asset_info
          (after_position w)
        = Return (None, after_import (after_position w)) ->
      attempt self asset_info s w
        (mkLoop (scattered s) (attempts s + 1) (placed s))
        (after_import (after_position w))
  | attempt_placed terrain_data asset_obj :
      _sample_terrain_properties self (candidate_x self w) (candidate_y self w)
        = Return (Some terrain_data) ->
      _is_valid_placement terrain_data asset_info = Return true ->
      _import_and_place_asset self (file_path asset_info)
          (candidate_x self w) (candidate_y self w) terrain_data asset_info
          (after_position w)
        = Return (Some asset_obj,
                  after_draw DrawScale
                    (after_draw DrawYaw (after_import (after_position w)))) ->
      attempt self asset_info s w
        (mkLoop (scattered s ++ [asset_obj]) (attempts s + 1) (placed s + 1))
        (after_draw DrawScale (after_draw DrawYaw (after_import (after_position w)))).

(** [random.random()] returns values of [0, 1]. *)
Definition unit_random `{Host} : Prop :=
  forall s n, (0 <= mt_random s n <= 1)%Q.

(** Every candidate inside the margins of the map passes the rules, and
    every import yields an object. *)
Definition accepts_candidates `{Host} (self : VolcanicTerrainGenerator)
    (asset_info : AssetInfo) : Prop :=
  (forall x y,
      (margin_lo (fst (map_size (config self))) <= x
       <= margin_hi (fst (map_size (config self))))%Q ->
      (margin_lo (snd (map_size (config self))) <= y
       <= margin_hi (snd (map_size (config self))))%Q ->
      exists terrain_data,
        _sample_terrain_properties self x y = Return (Some terrain_data) /\
        _is_valid_placement terrain_data asset_info = Return true) /\
  (forall n, exists asset_obj others,
      import_scene_gltf n (file_path asset_info) = Some (asset_obj :: others)).

(** The states the rejection loop goes through from [s0] and [w0]: every
    attempt is made under the loop condition. *)
Inductive attempts_from `{Host} (self : VolcanicTerrainGenerator)
    (asset_info : AssetInfo) (count : Z) (s0 : LoopState) (w0 : World)
    : LoopState -> World -> Prop :=
  | attempts_none : attempts_from self asset_info count s0 w0 s0 w0
  | attempts_more s w s' w' :
      attempts_from self asset_info count s0 w0 s w ->
      loop_cond count (count * 3) s = true ->
      attempt self asset_info s w s' w' ->
      attempts_from self asset_info count s0 w0 s' w'.

(** A generator for a 16x16 map over a mesh of one flat vertex in the
    middle: every candidate is within 5 units of it. *)
Definition covered_generator : VolcanicTerrainGenerator :=
  mkGenerator (Example.cfg 42 (16, 16)%Z [Example.stump])
              (Some (mkTerrain identity_matrix [Example.flat 0 0 5])) [].

(** Invariant of the rejection loop started in the world [w0]: the
    counters stay within the budget, [placed] counts the objects kept, every
    attempt costs two draws and every placement two more, and the loop has
    not run on after reaching the target. *)
Definition budget_inv `{Host} (self : VolcanicTerrainGenerator)
    (asset_info : AssetInfo) (count : Z) (w0 : World)
    (s : LoopState) (w : World) : Prop :=
  (0 <= placed s <= attempts s)%Z /\
  (attempts s <= Z.max 0 (count * 3))%Z /\
  (placed s <= Z.max 0 count)%Z /\
  placed s = Z.of_nat (length (scattered s)) /\
  (Z.of_nat (consumed (rng w))
   = Z.of_nat (consumed (rng w0)) + 2 * attempts s + 2 * placed s)%Z /\
  (placed s = count -> (0 < count)%Z ->
   exists l n, draw_log w = l ++ [(DrawScale, n)]).

(** The object [o] stands at a candidate position drawn from the generator
    seeded with [s0], at the sampled height, and the sample there satisfies
    the rules of [asset_info]. *)
Definition placed_validly `{Host} (self : VolcanicTerrainGenerator)
    (asset_info : AssetInfo) (s0 : Z) (o : BpyObject) : Prop :=
  exists (wa : World) (terrain_data : gmap string pyval) (height : num),
    seed (rng wa) = s0 /\
    _sample_terrain_properties self (candidate_x self wa) (candidate_y self wa)
      = Return (Some terrain_data) /\
    placement_rules terrain_data asset_info /\
    terrain_data !! "height" = Some (PFloat height) /\
    location o = (Fin (candidate_x self wa), Fin (candidate_y self wa), height).

(** The order of the draws of the attempts of one asset type. *)
Inductive attempts_order : list Draw -> Prop :=
  | order_done : attempts_order []
  | order_rejected l :
      attempts_order l -> attempts_order (DrawX :: DrawY :: l)
  | order_placed l :
      attempts_order l -> attempts_order (DrawX :: DrawY :: DrawYaw :: DrawScale :: l).

(** The order of the draws of a run over a catalog. *)
Inductive catalog_order : list AssetInfo -> list Draw -> Prop :=
  | order_nil : catalog_order [] []
  | order_asset asset_info catalog la l :
      attempts_order la ->
      catalog_order catalog l ->
      catalog_order (asset_info :: catalog) (DrawVariation :: la ++ l).

(** The draws logged so far took the values of the generator one after the
    other, from the first. *)
Definition log_inv (w : World) : Prop :=
  map snd (draw_log w) = seq 0 (consumed (rng w)).

(** Two generators that agree on what scattering reads. *)
Definition same_inputs (self1 self2 : VolcanicTerrainGenerator) : Prop :=
  DENSITY_PRESET (config self1) = DENSITY_PRESET (config self2) /\
  map_size (config self1) = map_size (config self2) /\
  terrain_object self1 = terrain_object self2 /\
  scattered_objects self1 = scattered_objects self2.

(** * More of the generator *)

(** ** _position_material_nodes *)

(** A node of the material as far as the layout touches it. *)
Record ShaderNode : Type := mkNode { node_type : string; node_location : Z * Z }.

Definition x_start : Z := -1000.
Definition y_current : Z := 0.
Definition x_step : Z := 200.
Definition y_step : Z := 300.

Definition is_output (node : ShaderNode) : bool :=
  String.eqb (node_type node) "OUTPUT_MATERIAL".

(** [(x_start + (i % 5) * x_step, y_current - (i // 5) * y_step)]. *)
Definition grid_location (i : nat) : Z * Z :=
  (x_start + (Z.of_nat i mod 5) * x_step, y_current - (Z.of_nat i / 5) * y_step)%Z.

(** The body of [for i, node in enumerate(nodes)]. *)
Definition place_node (i : nat) (node : ShaderNode) : ShaderNode :=
  if is_output node then node else mkNode (node_type node) (grid_location i).

(** [next((n for n in nodes if n.type == 'OUTPUT_MATERIAL'), None)] and the
    assignment to its location: only the first output node moves. *)
Fixpoint move_first_output (nodes : list ShaderNode) : list ShaderNode :=
  match nodes with
  | [] => []
  | node :: rest =>
      if is_output node
      then mkNode (node_type node) (x_start + 6 * x_step, 0)%Z :: rest
      else node :: move_first_output rest
  end.

Definition _position_material_nodes (nodes : list ShaderNode) : list ShaderNode :=
  move_first_output (imap place_node nodes).

(** ** export_scene *)

(** [str.upper] on ASCII letters. *)
Definition upper_ascii (a : ascii) : ascii :=
  let n := nat_of_ascii a in
  if ((97 <=? n) && (n <=? 122))%nat then ascii_of_nat (n - 32) else a.

Fixpoint str_upper (s : string) : string :=
  match s with
  | EmptyString => EmptyString
  | String a s' => String (upper_ascii a) (str_upper s')
  end.

Inductive ExportFormat : Type := GLB | FBX | OBJ.

(** The branch of the [if]/[elif] chain an entry of [EXPORT_FORMATS] takes. *)
Definition recognise (format_type : string) : option ExportFormat :=
  if String.eqb (str_upper format_type) "GLB" then Some GLB
  else if String.eqb (str_upper format_type) "FBX" then Some FBX
  else if String.eqb (str_upper format_type) "OBJ" then Some OBJ
  else None.

Definition extension (f : ExportFormat) : string :=
  match f with GLB => ".glb" | FBX => ".fbx" | OBJ => ".obj" end.

(** The file system and the Blender export operators. *)
Class Exporter : Type := mkExporter {
  (** [str(output_dir / name)]. *)
  path_join : string -> string -> string;
  (** [_export_glb], [_export_fbx], [_export_obj]: [false] when the operator
      raises. *)
  export_op : ExportFormat -> string -> bool
}.

(** [for format_type in export_formats]: the files exported so far and the
    operator calls made, in order; [None] when an operator raised. *)
Fixpoint export_loop `{Exporter} (output_dir project_name : string)
    (export_formats : list string) (exported_files : list string)
    (calls : list (ExportFormat * string))
    : option (list string) * list (ExportFormat * string) :=
  match export_formats with
  | [] => (Some exported_files, calls)
  | format_type :: rest =>
      match recognise format_type with
      | Some f =>
          let output_path := path_join output_dir (project_name +:+ extension f) in
          if export_op f output_path
          then export_loop output_dir project_name rest
                           (exported_files ++ [output_path]) (calls ++ [(f, output_path)])
          else (None, calls ++ [(f, output_path)])
      | None => export_loop output_dir project_name rest exported_files calls
      end
  end.

Definition export_scene `{Exporter} (output_dir project_name : string)
    (export_formats : list string)
    : option (list string) * list (ExportFormat * string) :=
  export_loop output_dir project_name export_formats [] [].

(** What [for format_type in export_formats] goes through when
    [EXPORT_FORMATS] is a [str] and not a list: its characters. *)
Fixpoint characters (s : string) : list string :=
  match s with
  | EmptyString => []
  | String a s' => String a EmptyString :: characters s'
  end.

(** The paths of the recognised entries, in order. *)
Definition recognised_paths `{Exporter} (output_dir project_name : string)
    (export_formats : list string) : list (ExportFormat * string) :=
  (fun f => (f, path_join output_dir (project_name +:+ extension f)))
    <$> omap recognise export_formats.

(** ** Python values of the configuration dictionary *)

(** What JSON and the configuration literal of [main] can hold; tuples are
    lists, dictionaries have string keys. *)
#[warnings="-register-all"]
Inductive pyobj : Type :=
  | ONone
  | OBool (b : bool)
  | OInt (z : Z)
  | OFloat (q : Q)
  | OStr (s : string)
  | OList (l : list pyobj)
  | ODict (d : gmap string pyobj).

(** How a call of the configuration layer can end other than by returning:
    [sys.exit], an exception of [exn], or one of the further exceptions. *)
Inductive pyerr : Type :=
  | SystemExit (code : Z)
  | Uncaught (e : exn)
  | KeyErrorInt (key : nat)
  | IndexError
  | AttributeError
  | OSError
  | JSONDecodeError
  | BlenderError
  | Diverged.

Inductive pyresult (A : Type) : Type :=
  | Ok (a : A)
  | Err (e : pyerr).
Arguments Ok {A} a.
Arguments Err {A} e.

Definition rbind {A B} (c : pyresult A) (k : A -> pyresult B) : pyresult B :=
  match c with
  | Ok a => k a
  | Err e => Err e
  end.

Notation "'let!' x ':=' c 'in' k" := (rbind c (fun x => k))
  (at level 10, x name, c at level 100, k at level 200).

Definition of_outcome {A} (c : outcome A) : pyresult A :=
  match c with
  | Return a => Ok a
  | Raise e => Err (Uncaught e)
  | OutOfFuel => Err Diverged
  end.

(** What [with open(path) as f: json.load(f)] gives. *)
Inductive load_result : Type :=
  | Loaded (v : pyobj)
  | CannotOpen
  | CannotDecode.

(** The interpreter and the file system under the configuration layer. *)
Class Runtime : Type := mkRuntime {
  (** [str(v)], as an f-string formats a value. *)
  py_str : pyobj -> string;
  json_load_file : string -> load_result;
  (** [Path(p).mkdir(parents=True, exist_ok=True)]: [false] when it raises. *)
  mkdir_parents : string -> bool
}.

(** [v == s] for a string [s]. *)
Definition is_str (s : string) (v : pyobj) : bool :=
  match v with
  | OStr s' => String.eqb s s'
  | _ => false
  end.

(** [needle in s] on strings. *)
Fixpoint is_substring (needle s : string) : bool :=
  if String.prefix needle s then true
  else match s with
       | EmptyString => false
       | String _ s' => is_substring needle s'
       end.

(** [needle in container] for a string [needle]. *)
Definition py_in (needle : string) (container : pyobj) : pyresult bool :=
  match container with
  | OStr s => Ok (is_substring needle s)
  | OList l => Ok (existsb (is_str needle) l)
  | ODict d => Ok (bool_decide (is_Some (d !! needle)))
  | _ => Err (Uncaught TypeError)
  end.

(** [o[key]] for a string [key]. *)
Definition py_getitem (o : pyobj) (key : string) : pyresult pyobj :=
  match o with
  | ODict d =>
      match d !! key with
      | Some v => Ok v
      | None => Err (Uncaught (KeyError key))
      end
  | _ => Err (Uncaught TypeError)
  end.

(** [o[i]] for a non-negative integer [i]. *)
Definition py_index (o : pyobj) (i : nat) : pyresult pyobj :=
  match o with
  | OList l =>
      match l !! i with
      | Some v => Ok v
      | None => Err IndexError
      end
  | OStr s =>
      match String.get i s with
      | Some a => Ok (OStr (String a EmptyString))
      | None => Err IndexError
      end
  | ODict _ => Err (KeyErrorInt i)
  | _ => Err (Uncaught TypeError)
  end.

(** The value of a number ([bool] included). *)
Definition as_number (o : pyobj) : option Q :=
  match o with
  | OBool b => Some (if b then 1 else 0)%Q
  | OInt z => Some (inject_Z z)
  | OFloat q => Some q
  | _ => None
  end.

(** ** TerrainConfig *)

Definition required_inputs : list string :=
  ["PROJECT_NAME"; "OUTPUT_DIR"; "RNG_SEED"; "MAP_SIZE_M";
   "RENDER_ENGINE"; "SKY_MODE"; "ASSET_CATALOG"; "STYLE_PROFILE";
   "DENSITY_PRESET"; "MASK_SOURCES"; "EXPORT_FORMATS"].

(** [input_name not in self.config or self.config[input_name] is None]. *)
Definition is_missing (config : gmap string pyobj) (input_name : string) : bool :=
  match config !! input_name with
  | None | Some ONone => true
  | Some _ => false
  end.

Definition missing_inputs (config : gmap string pyobj) : list string :=
  List.filter (is_missing config) required_inputs.

(** [_validate_map_size] on whatever [MAP_SIZE_M] holds: ['x' in size_str]
    raises [TypeError] on a value that is no container; on a list or a
    dictionary that contains ['x'], [split] raises [AttributeError], which
    the [except] clause turns into the [ValueError]; on one that does not,
    [int] raises [TypeError], which nothing catches. *)
Definition validate_map_size `{Runtime} (size_str : pyobj) : pyresult (Z * Z) :=
  match size_str with
  | OStr s => of_outcome (_validate_map_size s)
  | OList _ | ODict _ =>
      let! found := py_in "x" size_str in
      if found then Err (Uncaught (invalid_map_size (py_str size_str)))
      else Err (Uncaught TypeError)
  | _ => Err (Uncaught TypeError)
  end.

Definition required_fields : list string :=
  ["file_path"; "type"; "scale_range"; "density_weight"].

Definition missing_field (i : nat) (field : string) : pyerr :=
  Uncaught (ValueError ("Asset " +:+ pretty i +:+ " missing required field: " +:+ field)).

(** [for field in required_fields: if field not in asset: raise]. *)
Fixpoint check_fields (i : nat) (asset : pyobj) (fields : list string) : pyresult unit :=
  match fields with
  | [] => Ok tt
  | field :: rest =>
      let! present := py_in field asset in
      if present then check_fields i asset rest else Err (missing_field i field)
  end.

(** [for i, asset in enumerate(catalog)]. *)
Fixpoint check_assets (i : nat) (catalog : list pyobj) : pyresult unit :=
  match catalog with
  | [] => Ok tt
  | asset :: rest =>
      let! checked := check_fields i asset required_fields in
      check_assets (S i) rest
  end.

Definition _validate_asset_catalog `{Runtime} (config : gmap string pyobj)
    : pyresult (list pyobj) :=
  let! catalog := py_getitem (ODict config) "ASSET_CATALOG" in
  let! catalog :=
    match catalog with
    | OStr path =>
        match json_load_file path with
        | Loaded v => Ok v
        | CannotOpen => Err OSError
        | CannotDecode => Err JSONDecodeError
        end
    | _ => Ok catalog
    end in
  match catalog with
  | OList l =>
      let! checked := check_assets 0 l in
      Ok l
  | _ => Err (Uncaught (ValueError "ASSET_CATALOG must be a list of asset definitions"))
  end.

Definition rgba (r g b a : Q) : pyobj := OList [OFloat r; OFloat g; OFloat b; OFloat a].
Definition pair_of (a b : Q) : pyobj := OList [OFloat a; OFloat b].
Definition dict_of (l : list (string * pyobj)) : pyobj := ODict (list_to_map l).

Definition volcanic_ashfall : pyobj :=
  dict_of
    [("base_colors", dict_of [("lava_rock", rgba 0.15 0.1 0.08 1.0);
                              ("weathered_rock", rgba 0.25 0.18 0.15 1.0);
                              ("ash_deposits", rgba 0.35 0.30 0.25 1.0);
                              ("fresh_lava", rgba 0.8 0.2 0.1 1.0)]);
     ("roughness_ranges", dict_of [("smooth_lava", pair_of 0.1 0.3);
                                   ("rough_rock", pair_of 0.8 0.95);
                                   ("ash_surface", pair_of 0.6 0.8)]);
     ("wetness_logic", dict_of [("low_areas", OFloat 0.4);
                                ("slopes", OFloat 0.1);
                                ("peaks", OFloat 0.0)]);
     ("emission_strength", OFloat 0.02);
     ("height_zones", dict_of [("lava_flow", pair_of 0.0 0.3);
                               ("rocky_slopes", pair_of 0.3 0.7);
                               ("ash_peaks", pair_of 0.7 1.0)])].

Definition realistic_volcanic : pyobj :=
  dict_of
    [("base_colors", dict_of [("basalt", rgba 0.12 0.08 0.06 1.0);
                              ("scoria", rgba 0.3 0.15 0.1 1.0);
                              ("weathered", rgba 0.4 0.35 0.25 1.0)]);
     ("roughness_ranges", dict_of [("polished_rock", pair_of 0.2 0.4);
                                   ("rough_basalt", pair_of 0.85 0.95)]);
     ("wetness_logic", dict_of [("uniform", OFloat 0.1)]);
     ("emission_strength", OFloat 0.0);
     ("height_zones", dict_of [("flows", pair_of 0.0 0.4);
                               ("slopes", pair_of 0.4 1.0)])].

Definition presets : gmap string pyobj :=
  <["volcanic_ashfall" := volcanic_ashfall]>
  (<["realistic_volcanic" := realistic_volcanic]> ∅).

Definition _get_style_preset (preset_name : string) : pyresult pyobj :=
  match presets !! preset_name with
  | Some preset => Ok preset
  | None =>
      Err (Uncaught (ValueError
        ("Unknown style preset: " +:+ preset_name
         +:+ ". Available: ['volcanic_ashfall', 'realistic_volcanic']")))
  end.

Definition _validate_style_profile (config : gmap string pyobj) : pyresult pyobj :=
  let! profile := py_getitem (ODict config) "STYLE_PROFILE" in
  match profile with
  | OStr preset_name => _get_style_preset preset_name
  | _ => Ok profile
  end.

(** [Path(...)] raises [TypeError] on a value that is no path. *)
Definition _validate_paths `{Runtime} (config : gmap string pyobj) : pyresult string :=
  let! output_dir := py_getitem (ODict config) "OUTPUT_DIR" in
  match output_dir with
  | OStr p => if mkdir_parents p then Ok p else Err OSError
  | _ => Err (Uncaught TypeError)
  end.

(** The attributes a [TerrainConfig] object carries after [__init__]. *)
Record ConfigObject : Type := mkConfigObject {
  config_dict : gmap string pyobj;
  validated_map_size : Z * Z;
  validated_catalog : list pyobj;
  style_profile : pyobj;
  output_dir : string
}.

(** [TerrainConfig.__init__] with [validate_inputs]. *)
Definition validate_inputs `{Runtime} (config : gmap string pyobj)
    : pyresult ConfigObject :=
  match missing_inputs config with
  | _ :: _ => Err (SystemExit 1)
  | [] =>
      let! size_str := py_getitem (ODict config) "MAP_SIZE_M" in
      let! map_size := validate_map_size size_str in
      let! catalog := _validate_asset_catalog config in
      let! profile := _validate_style_profile config in
      let! dir := _validate_paths config in
      Ok (mkConfigObject config map_size catalog profile dir)
  end.

(** ** _create_volcanic_materials: what it reads from the style profile *)

(** Blender's checks when a value is assigned to a colour or to a float
    input; the node graph itself is Blender's. *)
Class Blender : Type := mkBlender {
  accepts_color : pyobj -> bool;
  accepts_float : pyobj -> bool
}.

Definition assign_color `{Blender} (v : pyobj) : pyresult pyobj :=
  if accepts_color v then Ok v else Err BlenderError.

Definition assign_float `{Blender} (v : pyobj) : pyresult pyobj :=
  if accepts_float v then Ok v else Err BlenderError.

(** [d.get(key, default)] on a dictionary. *)
Definition py_get (o : pyobj) (key : string) (fallback : pyobj) : pyresult pyobj :=
  match o with
  | ODict d => Ok (default fallback (d !! key))
  | _ => Err AttributeError
  end.

(** The values written into the nodes. *)
Record MaterialSettings : Type := mkSettings {
  ramp_colors : list pyobj;
  roughness_colors : list pyobj;
  wetness_colors : list pyobj;
  emission : option (pyobj * pyobj)
}.

Definition red_channel (v : pyobj) : pyobj := OList [v; OInt 0; OInt 0; OInt 1].

Definition _create_volcanic_materials `{Blender} (style : pyobj)
    : pyresult MaterialSettings :=
  let! height_zones := py_getitem style "height_zones" in
  let! colors := py_getitem style "base_colors" in
  let! lava_rock := py_getitem colors "lava_rock" in
  let! c0 := assign_color lava_rock in
  let! weathered_rock := py_getitem colors "weathered_rock" in
  let! c1 := assign_color weathered_rock in
  let! ash_deposits := py_getitem colors "ash_deposits" in
  let! c2 := assign_color ash_deposits in
  let! fallback := py_getitem colors "lava_rock" in
  let! fresh := py_get colors "fresh_lava" fallback in
  let! c3 := assign_color fresh in
  let! roughness_ranges := py_getitem style "roughness_ranges" in
  let! rough_rock := py_getitem roughness_ranges "rough_rock" in
  let! rough_lo := py_index rough_rock 0 in
  let! rough_rock' := py_getitem roughness_ranges "rough_rock" in
  let! rough_hi := py_index rough_rock' 1 in
  let! base_roughness :=
    match as_number rough_lo, as_number rough_hi with
    | Some a, Some b => Ok ((a + b) / 2)%Q
    | _, _ => Err (Uncaught TypeError)
    end in
  let! smooth_lava := py_getitem roughness_ranges "smooth_lava" in
  let! smooth_hi := py_index smooth_lava 1 in
  let! r0 := assign_color (red_channel smooth_hi) in
  let! rough_rock'' := py_getitem roughness_ranges "rough_rock" in
  let! rough_hi' := py_index rough_rock'' 1 in
  let! r1 := assign_color (red_channel rough_hi') in
  let! wetness_logic := py_getitem style "wetness_logic" in
  let! has_low := py_in "low_areas" wetness_logic in
  let! wetness :=
    if has_low then
      let! low := py_getitem wetness_logic "low_areas" in
      let! w0 := assign_color (red_channel low) in
      let! peaks := py_getitem wetness_logic "peaks" in
      let! w1 := assign_color (red_channel peaks) in
      Ok [w0; w1]
    else Ok [] in
  let! emission_strength := py_get style "emission_strength" (OFloat 0.0) in
  let! glows :=
    match as_number emission_strength with
    | Some e => Ok (Qltb 0 e)
    | None => Err (Uncaught TypeError)
    end in
  let! emission :=
    if glows then
      let! strength := assign_float emission_strength in
      let! color := py_get colors "fresh_lava" (OList [OInt 1; OFloat 0.3; OFloat 0.1; OInt 1]) in
      let! color := assign_color color in
      Ok (Some (strength, color))
    else Ok None in
  Ok (mkSettings [c0; c1; c2; c3] [r0; r1] wetness emission).

(** ** Further definitions used in the statements *)

(** The value [_configure_terrain_parameters] gives to the input [key], if
    it is one of the five it sets. *)
Definition configured_value (config : TerrainConfig) (key : string) : option Q :=
  if decide (key = "Scale") then Some 25.0%Q
  else if decide (key = "Height") then Some (height_scale config)
  else if decide (key = "Crater Count") then Some (inject_Z (crater_count config))
  else if decide (key = "Lava Flow Strength") then Some 0.7%Q
  else if decide (key = "Erosion Amount") then Some 0.3%Q
  else None.

(** Invariant of the vertex loop that also records which vertex is kept:
    the one at index [i], strictly nearer than every earlier vertex. *)
Definition closest_first_inv `{Host} (t : TerrainObject) (x y : Q)
    (seen : list MeshVertex) (c : Closest) : Prop :=
  (seen = [] /\ c = closest_init) \/
  (exists (i : nat) (vert : MeshVertex),
     seen !! i = Some vert /\ chosen t x y c vert /\
     (forall j vert', seen !! j = Some vert' ->
        (vertex_distance t x y vert <= vertex_distance t x y vert')%Q) /\
     (forall j vert', (j < i)%nat -> seen !! j = Some vert' ->
        (vertex_distance t x y vert < vertex_distance t x y vert')%Q)).

(** An asset whose ranges are at least as wide as those of another. *)
Definition wider_rules (narrow wide : AssetInfo) : Prop :=
  (fst (default (0, 1000)%Q (height_range wide))
   <= fst (default (0, 1000)%Q (height_range narrow)))%Q /\
  (snd (default (0, 1000)%Q (height_range narrow))
   <= snd (default (0, 1000)%Q (height_range wide)))%Q /\
  (default 45%Q (slope_max narrow) <= default 45%Q (slope_max wide))%Q.

(** No sample the terrain can return passes the rules of [asset_info]. *)
Definition never_valid `{Host} (self : VolcanicTerrainGenerator)
    (asset_info : AssetInfo) : Prop :=
  forall x y terrain_data,
    _sample_terrain_properties self x y = Return (Some terrain_data) ->
    _is_valid_placement terrain_data asset_info = Return false.

(** [o] is the object some accepted attempt for [asset_info] built, with the
    generator seeded as in [w]. *)
Definition built_for `{Host} (self : VolcanicTerrainGenerator)
    (asset_info : AssetInfo) (w : World) (o : BpyObject) : Prop :=
  exists x y height normal imported w1,
    seed (rng w1) = seed (rng w) /\
    o = placed_object self asset_info x y height normal imported w1.

(** The call does not end in [sys.exit]. *)
Definition no_exit {A} (r : pyresult A) : Prop :=
  forall code, r <> Err (SystemExit code).

(** An asset dictionary with the four required fields. *)
Definition complete_asset (d : gmap string pyobj) : Prop :=
  forall field, field ∈ required_fields -> is_Some (d !! field).

(** A configuration with the eleven required inputs, after the one [main]
    builds, with the map size and the style left open. *)
Definition example_config (size style : pyobj) : gmap string pyobj :=
  list_to_map
    [("PROJECT_NAME", OStr "FiragleVolcanicTerrain");
     ("OUTPUT_DIR", OStr "out");
     ("RNG_SEED", OInt 42);
     ("MAP_SIZE_M", size);
     ("RENDER_ENGINE", OStr "Cycles");
     ("SKY_MODE", OStr "Procedural");
     ("ASSET_CATALOG",
        OList [dict_of [("file_path", OStr "latt-tree-stump.glb");
                        ("type", OStr "rock_formation");
                        ("scale_range", OList [OFloat 0.7; OFloat 1.3]);
                        ("density_weight", OFloat 0.8);
                        ("height_range", OList [OInt 0; OInt 20]);
                        ("slope_max", OInt 45)]]);
     ("STYLE_PROFILE", style);
     ("DENSITY_PRESET", OStr "Med");
     ("MASK_SOURCES", OStr "Heightfield");
     ("EXPORT_FORMATS", OList [OStr "GLB"; OStr "FBX"])].

Definition example_runtime : Runtime :=
  mkRuntime (fun _ => "") (fun _ => CannotOpen) (fun _ => true).

Definition example_blender : Blender :=
  mkBlender (fun _ => true) (fun _ => true).

(** * Properties *)

(** ** Numbers *)

Lemma Qltb_lt (a b : Q) : Qltb a b = true <-> (a < b)%Q.
Proof. unfold Qltb, Qlt. apply Z.ltb_lt. Qed.

Lemma Qltb_ge (a b : Q) : Qltb a b = false <-> (b <= a)%Q.
Proof. unfold Qltb, Qle. rewrite Z.ltb_ge. reflexivity. Qed.

Lemma num_lt_false (a b : num) : num_lt a b = false <-> num_le b a.
Proof.
  destruct a as [x|], b as [y|]; simpl; try rewrite Qltb_ge; intuition congruence.
Qed.

Lemma py_max_Qmax (a b : Q) : (py_max a b == Qmax a b)%Q.
Proof.
  unfold py_max. destruct (Qltb a b) eqn:E.
  - apply Qltb_lt in E. symmetry. apply Q.max_r. lra.
  - apply Qltb_ge in E. symmetry. apply Q.max_l. exact E.
Qed.

Lemma int_of_float_floor (x : Q) : (0 <= x)%Q -> int_of_float x = Qfloor x.
Proof.
  destruct x as [n d]. unfold Qle, int_of_float, Qfloor. simpl. intros Hn.
  apply Z.quot_div_nonneg; lia.
Qed.

(** ** Rounding to binary64 *)

Ltac order_of_tests :=
  repeat match goal with
         | H : Qltb _ _ = true |- _ => apply Qltb_lt in H
         | H : Qltb _ _ = false |- _ => apply Qltb_ge in H
         end.

Lemma py_round_bounds (x : Q) : (Qfloor x <= py_round x <= Qfloor x + 1)%Z.
Proof.
  unfold py_round.
  destruct (Qltb _ _); [lia|]. destruct (Qltb _ _); [lia|].
  destruct (Z.even _); lia.
Qed.

Lemma py_round_le (x y : Q) : (x <= y)%Q -> (py_round x <= py_round y)%Z.
Proof.
  intros Hxy. pose proof (Qfloor_resp_le _ _ Hxy) as Hf.
  destruct (Z.eq_dec (Qfloor x) (Qfloor y)) as [E|E].
  - unfold py_round. rewrite <- E. set (f := Qfloor x) in *.
    destruct (Qltb (x - inject_Z f) (1 # 2)) eqn:A;
      destruct (Qltb (y - inject_Z f) (1 # 2)) eqn:B;
      destruct (Qltb (1 # 2) (x - inject_Z f)) eqn:C;
      destruct (Qltb (1 # 2) (y - inject_Z f)) eqn:D;
      destruct (Z.even f); order_of_tests; try lia; exfalso; lra.
  - pose proof (py_round_bounds x). pose proof (py_round_bounds y). lia.
Qed.

Lemma py_round_Z (n : Z) : py_round (inject_Z n) = n.
Proof.
  unfold py_round. rewrite Qfloor_Z.
  assert (E : Qltb (inject_Z n - inject_Z n) (1 # 2) = true).
  { apply Qltb_lt. lra. }
  rewrite E. reflexivity.
Qed.

Lemma pow2_pos (e : Z) : (0 < 2 ^ e)%Q.
Proof. apply Qpower_0_lt. reflexivity. Qed.

Lemma pow2_plus (a b : Z) : (2 ^ (a + b) == 2 ^ a * 2 ^ b)%Q.
Proof. apply Qpower_plus. discriminate. Qed.

Lemma pow2_le (a b : Z) : (a <= b)%Z -> (2 ^ a <= 2 ^ b)%Q.
Proof. intros H. apply Qpower_le_compat_l; [exact H | discriminate]. Qed.

Lemma pow2_Z (a : Z) : (0 <= a)%Z -> (inject_Z (2 ^ a) == 2 ^ a)%Q.
Proof. intros H. apply (Zpower_Qpower 2 a H). Qed.

Lemma binade_spec (x : Q) :
  (0 < x)%Q -> (2 ^ binade x <= x)%Q /\ (x < 2 ^ (binade x + 1))%Q.
Proof.
  intros Hx. unfold binade.
  set (a := Z.log2 (Qnum x)). set (b := Z.log2 (Zpos (Qden x))).
  assert (Hn : (0 < Qnum x)%Z).
  { unfold Qlt in Hx. simpl in Hx. lia. }
  destruct (Z.log2_spec (Qnum x) Hn) as [Ha1 Ha2]. fold a in Ha1, Ha2.
  destruct (Z.log2_spec (Zpos (Qden x)) eq_refl) as [Hb1 Hb2]. fold b in Hb1, Hb2.
  assert (Ha0 : (0 <= a)%Z) by apply Z.log2_nonneg.
  assert (Hb0 : (0 <= b)%Z) by apply Z.log2_nonneg.
  assert (Ex : (x == inject_Z (Qnum x) / inject_Z (Zpos (Qden x)))%Q).
  { destruct x as [n d]. apply Qmake_Qdiv. }
  assert (Hd : (0 < inject_Z (Zpos (Qden x)))%Q) by reflexivity.
  rewrite Zle_Qle, pow2_Z in Ha1, Hb1 by assumption.
  rewrite Zlt_Qlt, pow2_Z in Ha2, Hb2 by lia.
  assert (Hup : (x < 2 ^ (a - b + 1))%Q).
  { rewrite Ex. apply Qlt_shift_div_r; [exact Hd|].
    eapply Qlt_le_trans; [exact Ha2|].
    replace (Z.succ a) with ((a - b + 1) + b)%Z by lia.
    rewrite pow2_plus. apply Qmult_le_l; [apply pow2_pos | exact Hb1]. }
  assert (Hlo : (2 ^ (a - b - 1) <= x)%Q).
  { rewrite Ex. apply Qle_shift_div_l; [exact Hd|].
    eapply Qle_trans; [|exact Ha1].
    replace a with ((a - b - 1) + Z.succ b)%Z at 2 by lia.
    rewrite pow2_plus. apply Qmult_le_l; [apply pow2_pos | apply Qlt_le_weak, Hb2]. }
  destruct (Qle_bool (2 ^ (a - b)) x) eqn:E.
  - apply Qle_bool_iff in E. split; [exact E | exact Hup].
  - split; [exact Hlo|].
    replace (a - b - 1 + 1)%Z with (a - b)%Z by lia.
    apply Qnot_le_lt. intros Hle. apply Qle_bool_iff in Hle. congruence.
Qed.

Lemma binade_le (x y : Q) : (0 < x)%Q -> (x <= y)%Q -> (binade x <= binade y)%Z.
Proof.
  intros Hx Hxy.
  destruct (binade_spec x Hx) as [Hx1 _].
  destruct (binade_spec y (Qlt_le_trans _ _ _ Hx Hxy)) as [_ Hy2].
  destruct (Z_le_gt_dec (binade x) (binade y)) as [H|H]; [exact H|].
  exfalso. assert (Hp : (2 ^ (binade y + 1) <= 2 ^ binade x)%Q) by (apply pow2_le; lia).
  lra.
Qed.

Lemma round_positive_bounds (x : Q) :
  (0 < x)%Q ->
  (2 ^ binade x <= round_positive x)%Q /\ (round_positive x <= 2 ^ (binade x + 1))%Q.
Proof.
  intros Hx. destruct (binade_spec x Hx) as [H1 H2]. unfold round_positive.
  set (e := (binade x - 52)%Z).
  assert (Hlo : (inject_Z (2 ^ 52) <= x / 2 ^ e)%Q).
  { apply Qle_shift_div_l; [apply pow2_pos|].
    rewrite pow2_Z by lia. rewrite <- pow2_plus.
    replace (52 + e)%Z with (binade x) by (subst e; lia). exact H1. }
  assert (Hhi : (x / 2 ^ e <= inject_Z (2 ^ 53))%Q).
  { apply Qle_shift_div_r; [apply pow2_pos|].
    rewrite pow2_Z by lia. rewrite <- pow2_plus.
    replace (53 + e)%Z with (binade x + 1)%Z by (subst e; lia).
    apply Qlt_le_weak, H2. }
  apply py_round_le in Hlo, Hhi. rewrite py_round_Z in Hlo, Hhi.
  rewrite Zle_Qle in Hlo, Hhi. rewrite pow2_Z in Hlo, Hhi by lia.
  split.
  - replace (binade x) with (52 + e)%Z at 1 by (subst e; lia).
    rewrite pow2_plus. apply Qmult_le_compat_r; [exact Hlo | apply Qlt_le_weak, pow2_pos].
  - replace (binade x + 1)%Z with (53 + e)%Z by (subst e; lia).
    rewrite pow2_plus. apply Qmult_le_compat_r; [exact Hhi | apply Qlt_le_weak, pow2_pos].
Qed.

Lemma round_positive_le (x y : Q) :
  (0 < x)%Q -> (x <= y)%Q -> (round_positive x <= round_positive y)%Q.
Proof.
  intros Hx Hxy. pose proof (binade_le x y Hx Hxy) as He.
  destruct (Z.eq_dec (binade x) (binade y)) as [E|E].
  - unfold round_positive. rewrite E.
    apply Qmult_le_compat_r; [|apply Qlt_le_weak, pow2_pos].
    rewrite <- Zle_Qle. apply py_round_le.
    apply Qmult_le_compat_r; [exact Hxy|].
    apply Qlt_le_weak, Qinv_lt_0_compat, pow2_pos.
  - destruct (round_positive_bounds x Hx) as [_ H1].
    destruct (round_positive_bounds y (Qlt_le_trans _ _ _ Hx Hxy)) as [H2 _].
    assert (Hp : (2 ^ (binade x + 1) <= 2 ^ binade y)%Q) by (apply pow2_le; lia).
    lra.
Qed.

Lemma round_positive_pos (x : Q) : (0 < x)%Q -> (0 < round_positive x)%Q.
Proof.
  intros Hx. destruct (round_positive_bounds x Hx) as [H _].
  pose proof (pow2_pos (binade x)). lra.
Qed.

(** Rounding is monotone. *)
Lemma float_le (x y : Q) : (x <= y)%Q -> (float x <= float y)%Q.
Proof.
  intros Hxy. unfold float.
  destruct (Qcompare_spec x 0) as [Hx|Hx|Hx];
    destruct (Qcompare_spec y 0) as [Hy|Hy|Hy]; try (exfalso; lra); try lra.
  - pose proof (round_positive_pos y Hy). lra.
  - assert (H : (0 < - x)%Q) by lra. pose proof (round_positive_pos _ H). lra.
  - assert (H : (0 < - y)%Q) by lra.
    assert (H' : (- y <= - x)%Q) by lra.
    pose proof (round_positive_le _ _ H H'). lra.
  - assert (H : (0 < - x)%Q) by lra. pose proof (round_positive_pos _ H).
    pose proof (round_positive_pos y Hy). lra.
  - apply round_positive_le; assumption.
Qed.

Lemma Qmult_le_compat_l_nonneg (x y z : Q) :
  (0 <= z)%Q -> (x <= y)%Q -> (z * x <= z * y)%Q.
Proof.
  intros Hz Hxy. rewrite (Qmult_comm z x), (Qmult_comm z y).
  apply Qmult_le_compat_r; assumption.
Qed.

Lemma float_eq (x y : Q) : (x == y)%Q -> (float x == float y)%Q.
Proof.
  intros E. apply Qle_antisym; apply float_le; rewrite E; apply Qle_refl.
Qed.

Lemma float_nonneg (x : Q) : (0 <= x)%Q -> (0 <= float x)%Q.
Proof. intros Hx. exact (float_le 0 x Hx). Qed.

Lemma float_nonpos (x : Q) : (x <= 0)%Q -> (float x <= 0)%Q.
Proof. intros Hx. exact (float_le x 0 Hx). Qed.

(** What the two literals of [random.uniform(0.8, 1.2)] and the endpoints
    of the draw evaluate to. *)
Lemma span_nonneg : (0 <= float (float 1.2 - float 0.8))%Q.
Proof. apply Qle_bool_iff. vm_compute. reflexivity. Qed.

Lemma variation_at_0 : (float 0.8 <= float (float 0.8 + 0))%Q.
Proof. apply Qle_bool_iff. vm_compute. reflexivity. Qed.

Lemma variation_at_1 :
  (float (float 0.8 + float (float (float 1.2 - float 0.8) * 1)) <= float 1.2)%Q.
Proof. apply Qle_bool_iff. vm_compute. reflexivity. Qed.

(** The value [random.uniform(0.8, 1.2)] returns lies between the two
    literals, rounding included. *)
Lemma variation_range (u : Q) :
  (0 <= u <= 1)%Q ->
  (float 0.8 <= float (float 0.8 + float (float (float 1.2 - float 0.8) * u))
   <= float 1.2)%Q.
Proof.
  intros [Hu0 Hu1]. pose proof span_nonneg as Hd.
  set (d := float (float 1.2 - float 0.8)) in *.
  assert (Ht0 : (0 <= float (d * u))%Q).
  { apply float_nonneg. apply Qmult_le_0_compat; assumption. }
  assert (Ht1 : (float (d * u) <= float (d * 1))%Q).
  { apply float_le. apply Qmult_le_compat_l_nonneg; assumption. }
  split.
  - eapply Qle_trans; [exact variation_at_0|]. apply float_le. lra.
  - eapply Qle_trans; [|exact variation_at_1]. apply float_le. fold d. lra.
Qed.

(** ** Strings *)

Lemma split_char_no_sep (c : ascii) (s : string) :
  contains_char c s = false -> split_char c s = [s].
Proof.
  induction s as [|a s IH]; simpl; [reflexivity|].
  destruct (Ascii.eqb a c); [discriminate|].
  intros Hs. rewrite (IH Hs). reflexivity.
Qed.

Lemma split_char_app (c : ascii) (a b : string) :
  contains_char c a = false ->
  split_char c (a +:+ String c b) = a :: split_char c b.
Proof.
  induction a as [|x a IH]; simpl.
  - intros _. rewrite Ascii.eqb_refl. reflexivity.
  - destruct (Ascii.eqb x c); [discriminate|].
    intros Ha. rewrite (IH Ha). reflexivity.
Qed.

Lemma contains_char_app (c : ascii) (a b : string) :
  contains_char c (a +:+ String c b) = true.
Proof.
  induction a as [|x a IH]; simpl.
  - rewrite Ascii.eqb_refl. reflexivity.
  - destruct (Ascii.eqb x c); [reflexivity | exact IH].
Qed.

Lemma split_char_length (c : ascii) (s : string) :
  length (split_char c s) = S (count_char c s).
Proof.
  induction s as [|a s IH]; simpl; [reflexivity|].
  destruct (Ascii.eqb a c); simpl; [rewrite IH; reflexivity|].
  destruct (split_char c s); simpl in *; congruence.
Qed.

Lemma count_char_absent (c : ascii) (s : string) :
  contains_char c s = false -> count_char c s = 0%nat.
Proof.
  induction s as [|a s IH]; simpl; [reflexivity|].
  destruct (Ascii.eqb a c); [discriminate | exact IH].
Qed.

Lemma count_char_present (c : ascii) (s : string) :
  contains_char c s = true -> (1 <= count_char c s)%nat.
Proof.
  induction s as [|a s IH]; simpl; [discriminate|].
  destruct (Ascii.eqb a c); [lia | exact IH].
Qed.

(** A failed validation raises the [ValueError] of the [except] clause, and
    nothing else. *)
Lemma validate_map_size_failure (size_str : string) :
  _validate_map_size size_str <> OutOfFuel /\
  forall e, _validate_map_size size_str = Raise e -> e = invalid_map_size size_str.
Proof.
  unfold _validate_map_size.
  destruct (contains_char "x" size_str).
  - destruct (int_of_str <$> split_char "x" size_str) as [|[x|] [|[y|] [|? ?]]];
      split; try discriminate; intros e He; congruence.
  - destruct (int_of_str size_str); split; try discriminate; intros e He; congruence.
Qed.

(** ** Map size validation (C5) *)

(** C5, as stated, fails: the specifications ["-5x0"] and ["0"] pass
    validation, and the generator is configured with a negative and a zero
    dimension. *)
Lemma nonpositive_map_size_is_accepted :
  _validate_map_size "-5x0" = Return (-5, 0)%Z /\
  _validate_map_size "0" = Return (0, 0)%Z.
Proof. split; reflexivity. Qed.

Lemma malformed_is_rejected (size_str : string) :
  malformed size_str ->
  _validate_map_size size_str = Raise (invalid_map_size size_str).
Proof.
  intros Hbad. unfold _validate_map_size, malformed in *.
  destruct (contains_char "x" size_str) eqn:Hx.
  - destruct (split_char "x" size_str) as [|a [|b [|c l]]]; cbn [fmap list_fmap];
      try reflexivity.
    + destruct (int_of_str a); reflexivity.
    + destruct (int_of_str a) eqn:Ha; [|reflexivity].
      destruct (int_of_str b) eqn:Hb; [|reflexivity].
      exfalso. destruct Hbad as [(part & Hin & Hnone)|Hlen]; [|simpl in Hlen; lia].
      apply elem_of_cons in Hin as [->|Hin]; [congruence|].
      apply list_elem_of_singleton in Hin as ->. congruence.
    + destruct (int_of_str a); [|reflexivity]. destruct (int_of_str b); reflexivity.
  - rewrite (split_char_no_sep _ _ Hx) in Hbad.
    destruct (int_of_str size_str) eqn:Hs; [|reflexivity].
    exfalso. destruct Hbad as [(part & Hin & Hnone)|Hlen]; [|simpl in Hlen; lia].
    apply list_elem_of_singleton in Hin as ->. congruence.
Qed.

Lemma well_formed_is_accepted (size_str : string) :
  ~ malformed size_str ->
  (exists w, split_char "x" size_str = [size_str] /\
             int_of_str size_str = Some w /\
             _validate_map_size size_str = Return (w, w)) \/
  (exists a b w h, split_char "x" size_str = [a; b] /\
                   int_of_str a = Some w /\ int_of_str b = Some h /\
                   _validate_map_size size_str = Return (w, h)).
Proof.
  intros Hgood. unfold _validate_map_size, malformed in *.
  destruct (contains_char "x" size_str) eqn:Hx.
  - right. pose proof (split_char_length "x" size_str) as Hlen.
    pose proof (count_char_present _ _ Hx) as Hc.
    destruct (split_char "x" size_str) as [|a [|b [|c l]]]; simpl in Hlen; try lia.
    + destruct (int_of_str a) as [w|] eqn:Ha.
      * destruct (int_of_str b) as [h|] eqn:Hb.
        -- exists a, b, w, h. cbn [fmap list_fmap]. rewrite Ha, Hb. auto.
        -- exfalso. apply Hgood. left. exists b. split; [|exact Hb].
           apply list_elem_of_further, list_elem_of_here.
      * exfalso. apply Hgood. left. exists a. split; [apply list_elem_of_here | exact Ha].
    + exfalso. apply Hgood. right. simpl. lia.
  - left. rewrite (split_char_no_sep _ _ Hx) in *.
    destruct (int_of_str size_str) as [w|] eqn:Hs; [exists w; auto|].
    exfalso. apply Hgood. left. exists size_str. split; [apply list_elem_of_here | exact Hs].
Qed.

(** C5, amended: a malformed map-size specification (a part that is not an
    integer, or more than two parts) is rejected with the [ValueError] for a
    malformed specification; every other specification passes validation
    with the dimensions exactly as [int] parses them, whatever their sign
    (no positivity check and no clamping): a single integer gives a square
    map, two integers around an ['x'] the width and the height. *)
Theorem validate_map_size_keeps_parsed_dimensions (a b : string) (w h : Z) :
  contains_char "x" a = false ->
  contains_char "x" b = false ->
  int_of_str a = Some w ->
  int_of_str b = Some h ->
  _validate_map_size (a +:+ "x" +:+ b) = Return (w, h) /\
  _validate_map_size a = Return (w, w) /\
  (forall s, malformed s -> _validate_map_size s = Raise (invalid_map_size s)) /\
  (forall s, ~ malformed s ->
     (exists w', split_char "x" s = [s] /\ int_of_str s = Some w' /\
                 _validate_map_size s = Return (w', w')) \/
     (exists a' b' w' h', split_char "x" s = [a'; b'] /\
                 int_of_str a' = Some w' /\ int_of_str b' = Some h' /\
                 _validate_map_size s = Return (w', h'))).
Proof.
  intros Ha Hb Hw Hh. split; [|split; [|split]].
  - unfold _validate_map_size.
    change (a +:+ "x" +:+ b) with (a +:+ String "x" b).
    rewrite contains_char_app, (split_char_app _ _ _ Ha), (split_char_no_sep _ _ Hb).
    simpl. rewrite Hw, Hh. reflexivity.
  - unfold _validate_map_size. rewrite Ha, Hw. reflexivity.
  - exact malformed_is_rejected.
  - exact well_formed_is_accepted.
Qed.

Lemma validate_map_size_keeps_parsed_dimensions_witness :
  _validate_map_size "-5x0" = Return (-5, 0)%Z /\
  _validate_map_size "-5" = Return (-5, -5)%Z /\
  _validate_map_size "banana" = Raise (invalid_map_size "banana") /\
  _validate_map_size "4x5x6" = Raise (invalid_map_size "4x5x6").
Proof.
  destruct (validate_map_size_keeps_parsed_dimensions "-5" "0" (-5) 0)
    as (Hwh & Hw & Hbad & _); try reflexivity.
  split; [exact Hwh|]. split; [exact Hw|]. split; apply Hbad.
  - left. exists "banana". split; [apply list_elem_of_here | reflexivity].
  - right. simpl. lia.
Defined.

(** ** Terrain parameters (C7) *)

Lemma density_multiplier_preset (p : DensityPreset) :
  density_multiplier (preset_name p) = preset_multiplier p.
Proof. destruct p; reflexivity. Qed.

Lemma set_if_present_lookup_ne (k k' : string) (v : Q) (m : gmap string Q) :
  k <> k' -> set_if_present k v m !! k' = m !! k'.
Proof.
  intros Hne. unfold set_if_present.
  destruct (m !! k); [apply lookup_insert_ne; exact Hne | reflexivity].
Qed.

Lemma set_if_present_lookup_eq (k : string) (v : Q) (m : gmap string Q) :
  is_Some (m !! k) -> set_if_present k v m !! k = Some v.
Proof.
  intros [v0 Hv0]. unfold set_if_present. rewrite Hv0. apply lookup_insert_eq.
Qed.

(** C7: the height scale is [max(10, area * 0.00005 * density_multiplier)]
    with multiplier 0.5, 1.0 and 2.0 for Low, Med and High, and it is the
    value written to the "Height" input of the terrain modifier. *)
Theorem height_scale_formula (cfg : TerrainConfig) (p : DensityPreset)
    (geo_nodes_mod : gmap string Q) :
  DENSITY_PRESET cfg = preset_name p ->
  (height_scale cfg ==
     Qmax 10 (inject_Z (fst (map_size cfg) * snd (map_size cfg)) * 0.00005
              * preset_multiplier p))%Q /\
  (is_Some (geo_nodes_mod !! "Height") ->
   _configure_terrain_parameters cfg geo_nodes_mod !! "Height"
     = Some (height_scale cfg)).
Proof.
  intros Hp. split.
  - unfold height_scale, map_area. rewrite Hp, density_multiplier_preset.
    apply py_max_Qmax.
  - intros Hin. unfold _configure_terrain_parameters.
    rewrite !set_if_present_lookup_ne by discriminate.
    apply set_if_present_lookup_eq.
    rewrite set_if_present_lookup_ne by discriminate. exact Hin.
Qed.

Lemma height_scale_formula_witness :
  (height_scale (Example.cfg 42 (1000, 1000)%Z []) ==
     Qmax 10 (inject_Z (1000 * 1000) * 0.00005 * 1.0))%Q /\
  (is_Some ((<["Height" := 20%Q]> ∅ : gmap string Q) !! "Height") ->
   _configure_terrain_parameters (Example.cfg 42 (1000, 1000)%Z [])
     (<["Height" := 20%Q]> ∅) !! "Height"
     = Some (height_scale (Example.cfg 42 (1000, 1000)%Z []))).
Proof.
  apply (height_scale_formula (Example.cfg 42 (1000, 1000)%Z []) Med). reflexivity.
Defined.

(** ** Target count (C3) *)

Lemma random_uniform_eq `{Host} (purpose : Draw) (a b : Q) (w : World) :
  random_uniform purpose a b w =
  Return ((a + (b - a) * mt_random (seed (rng w)) (consumed (rng w)))%Q,
          after_draw purpose w).
Proof. reflexivity. Qed.

(** C3, as stated, fails: on a 100x100 map, density Med, weight 1.0 and the
    draw 39/40 (variation 1.19) the code truncates 17.85 to 17, where the
    rounded formula of the specification gives 18. *)
Lemma target_count_truncates_not_rounds :
  _calculate_asset_count (H := Example.host)
      (Example.generator 9 (100, 100)%Z []) Example.bush (Example.world 9)
    = Return (17%Z, after_draw DrawVariation (Example.world 9)) /\
  Example.random_stream 9 0 = (39 # 40)%Q /\
  spec_target_count (Example.cfg 9 (100, 100)%Z []) Example.bush
    (0.8 + (1.2 - 0.8) * Example.random_stream 9 0) = 18%Z.
Proof. repeat split; vm_compute; reflexivity. Qed.

Lemma Qfloor_between (x : Q) (lo hi : Z) :
  (inject_Z lo <= x)%Q -> (x <= inject_Z hi)%Q -> (lo <= Qfloor x <= hi)%Z.
Proof.
  intros Hlo Hhi. split.
  - assert (Hlt : (inject_Z lo < inject_Z (Qfloor x + 1))%Q).
    { eapply Qle_lt_trans; [exact Hlo | apply Qlt_floor]. }
    rewrite <- Zlt_Qlt in Hlt. lia.
  - rewrite Zle_Qle. eapply Qle_trans; [apply Qfloor_le | exact Hhi].
Qed.

Lemma int_of_float_eq (x : Q) (n : Z) :
  (0 <= n)%Z -> (x == inject_Z n)%Q -> int_of_float x = n.
Proof.
  intros Hn E. rewrite int_of_float_floor.
  - rewrite E. apply Qfloor_Z.
  - rewrite E. change 0%Q with (inject_Z 0). rewrite <- Zle_Qle. exact Hn.
Qed.

(** The base count of the reference scenario. *)
Lemma reference_base_count (density_weight : Q) :
  (density_weight == 1)%Q ->
  (float (float (float (float (inject_Z 15) * 1.0)
                  * float (inject_Z (100 * 100) / inject_Z 10000))
            * density_weight) == inject_Z 15)%Q.
Proof.
  intros E.
  set (x := float (float (float (inject_Z 15) * 1.0)
                   * float (inject_Z (100 * 100) / inject_Z 10000))).
  assert (Ex : (float (x * density_weight) == float (x * 1))%Q).
  { apply float_eq. rewrite E. reflexivity. }
  rewrite Ex. apply Qeq_bool_iff. vm_compute. reflexivity.
Qed.

Lemma reference_count_lo : (inject_Z 12 <= float (float (inject_Z 15) * float 0.8))%Q.
Proof. apply Qle_bool_iff. vm_compute. reflexivity. Qed.

Lemma reference_count_hi : (float (float (inject_Z 15) * float 1.2) <= inject_Z 18)%Q.
Proof. apply Qle_bool_iff. vm_compute. reflexivity. Qed.

Lemma fifteen_nonneg : (0 <= float (inject_Z 15))%Q.
Proof. apply Qle_bool_iff. vm_compute. reflexivity. Qed.

(** C3, amended: the target count is
    [max(1, int(max(1, int(15 * density_multiplier * area_factor * density_weight)) * variation))]
    with both conversions truncating and every operation a float operation
    (evaluated from the left and rounded to binary64),
    [area_factor = map_area / 10000], the multiplier 0.5, 1.0 or 2.0 for Low,
    Med or High, and [variation] one draw [0.8 + (1.2 - 0.8) * random()]
    taken once per asset type, which lies between the floats 0.8 and 1.2;
    on a 100x100 map with density Med and weight 1.0 the count lies in
    12..18. *)
Theorem calculate_asset_count_formula `{Host} (self : VolcanicTerrainGenerator)
    (asset_info : AssetInfo) (w : World) :
  let u := mt_random (seed (rng w)) (consumed (rng w)) in
  let variation := float (float 0.8 + float (float (float 1.2 - float 0.8) * u)) in
  let area_factor := float (inject_Z (map_area (config self)) / inject_Z 10000) in
  let base_count :=
    Z.max 1 (int_of_float
               (float (float (float (float (inject_Z 15)
                                     * density_multiplier (DENSITY_PRESET (config self)))
                              * area_factor)
                       * density_weight asset_info))) in
  let count := Z.max 1 (int_of_float (float (float (inject_Z base_count) * variation))) in
  _calculate_asset_count self asset_info w
    = Return (count, after_draw DrawVariation w) /\
  (1 <= count)%Z /\
  (forall p, DENSITY_PRESET (config self) = preset_name p ->
             density_multiplier (DENSITY_PRESET (config self)) = preset_multiplier p) /\
  ((0 <= u <= 1)%Q -> (float 0.8 <= variation <= float 1.2)%Q) /\
  (map_size (config self) = (100, 100)%Z ->
   DENSITY_PRESET (config self) = "Med" ->
   (density_weight asset_info == 1)%Q ->
   (0 <= u <= 1)%Q ->
   (12 <= count <= 18)%Z).
Proof.
  intros u variation area_factor base_count count.
  split; [reflexivity|]. split; [lia|].
  split; [intros p ->; apply density_multiplier_preset|].
  split; [apply variation_range|].
  intros Hsize Hpreset Hweight Hu.
  assert (Hbase : base_count = 15%Z).
  { subst base_count area_factor. unfold map_area. rewrite Hsize, Hpreset.
    cbn [fst snd]. change (density_multiplier "Med") with 1.0%Q.
    rewrite (int_of_float_eq _ 15); [reflexivity | lia|].
    apply reference_base_count. exact Hweight. }
  subst count. rewrite Hbase.
  destruct (variation_range u Hu) as [Hv0 Hv1]. fold variation in Hv0, Hv1.
  pose proof fifteen_nonneg as H15.
  assert (Hlo : (inject_Z 12 <= float (float (inject_Z 15) * variation))%Q).
  { eapply Qle_trans; [exact reference_count_lo|].
    apply float_le, Qmult_le_compat_l_nonneg; assumption. }
  assert (Hhi : (float (float (inject_Z 15) * variation) <= inject_Z 18)%Q).
  { eapply Qle_trans; [|exact reference_count_hi].
    apply float_le, Qmult_le_compat_l_nonneg; assumption. }
  rewrite int_of_float_floor
    by (eapply Qle_trans; [|exact Hlo]; discriminate).
  pose proof (Qfloor_between _ _ _ Hlo Hhi). lia.
Qed.

Lemma calculate_asset_count_formula_witness :
  exists count : Z,
  _calculate_asset_count (H := Example.host)
      (Example.generator 42 (100, 100)%Z []) Example.bush (Example.world 42)
    = Return (count, after_draw DrawVariation (Example.world 42)) /\
  (12 <= count <= 18)%Z.
Proof.
  pose proof (calculate_asset_count_formula (H := Example.host)
                (Example.generator 42 (100, 100)%Z []) Example.bush (Example.world 42))
    as (Hrun & _ & _ & _ & Hrange).
  eexists. split; [exact Hrun|].
  apply Hrange; [reflexivity | reflexivity | reflexivity | split; discriminate].
Defined.

(** ** Terrain sampling (C10, C6) *)

Lemma closest_step_inv `{Host} (t : TerrainObject) (x y : Q)
    (seen : list MeshVertex) (c : Closest) (vert : MeshVertex) :
  closest_inv t x y seen c ->
  closest_inv t x y (seen ++ [vert]) (closest_step t x y c vert).
Proof.
  intros Hinv. right. unfold closest_step.
  destruct (num_lt (Fin (vertex_distance t x y vert)) (closest_distance c)) eqn:Hlt.
  - exists vert. split; [apply elem_of_app; right; apply list_elem_of_here|].
    split; [reflexivity|].
    intros vert' Hin. apply elem_of_app in Hin as [Hin|Hin].
    + destruct Hinv as [[-> _]|(v0 & _ & Hc & Hmin)]; [by apply elem_of_nil in Hin|].
      unfold chosen in Hc. subst c. simpl in Hlt. apply Qltb_lt in Hlt.
      apply Qlt_le_weak. eapply Qlt_le_trans; [exact Hlt | apply Hmin, Hin].
    + apply list_elem_of_singleton in Hin as ->. apply Qle_refl.
  - destruct Hinv as [[_ ->]|(v0 & Hv0 & Hc & Hmin)]; [discriminate|].
    unfold chosen in Hc. subst c. simpl in Hlt. apply Qltb_ge in Hlt.
    exists v0. split; [apply elem_of_app; left; exact Hv0|].
    split; [reflexivity|].
    intros vert' Hin. apply elem_of_app in Hin as [Hin|Hin]; [apply Hmin, Hin|].
    apply list_elem_of_singleton in Hin as ->. exact Hlt.
Qed.

Lemma fold_closest_inv `{Host} (t : TerrainObject) (x y : Q) (l : list MeshVertex) :
  forall (seen : list MeshVertex) (c : Closest),
    closest_inv t x y seen c ->
    closest_inv t x y (seen ++ l) (fold_left (closest_step t x y) l c).
Proof.
  induction l as [|vert l IH]; intros seen c Hinv; simpl.
  - rewrite app_nil_r. exact Hinv.
  - replace (seen ++ vert :: l) with ((seen ++ [vert]) ++ l)
      by (rewrite <- app_assoc; reflexivity).
    apply IH, closest_step_inv, Hinv.
Qed.

Lemma find_closest_inv `{Host} (t : TerrainObject) (x y : Q) :
  closest_inv t x y (vertices t) (find_closest t x y).
Proof.
  apply (fold_closest_inv t x y (vertices t) [] closest_init). left. split; reflexivity.
Qed.

(** The dictionary a query returns, entry by entry. *)
Lemma sample_vertices_entries `{Host} (t : TerrainObject) (x y : Q) :
  exists slope,
    sample_vertices t x y !! "height"
      = Some (PFloat (Fin (closest_height (find_closest t x y)))) /\
    sample_vertices t x y !! "slope" = Some (PFloat (Fin slope)) /\
    sample_vertices t x y !! "normal"
      = Some (PVector (closest_normal (find_closest t x y))) /\
    sample_vertices t x y !! "distance_to_nearest"
      = Some (PFloat (closest_distance (find_closest t x y))) /\
    dom (sample_vertices t x y)
      = ({["height"; "slope"; "normal"; "distance_to_nearest"]} : gset string).
Proof.
  eexists. do 4 (split; [reflexivity|]).
  unfold sample_vertices. rewrite !dom_insert_L, dom_empty_L. set_solver.
Qed.

(** A query on a terrain with an invertible world matrix returns the
    dictionary of the vertex loop, and a query returns no other one. *)
Lemma sample_terrain_properties_eq `{Host} (self : VolcanicTerrainGenerator)
    (t : TerrainObject) (x y : Q) :
  terrain_object self = Some t ->
  ~ (determinant (matrix_world t) == 0)%Q ->
  _sample_terrain_properties self x y = Return (Some (sample_vertices t x y)).
Proof.
  intros Ht Hdet. unfold _sample_terrain_properties, inverted. rewrite Ht.
  destruct (Qeq_bool (determinant (matrix_world t)) 0) eqn:E; [|reflexivity].
  apply Qeq_bool_iff in E. contradiction.
Qed.

Lemma sample_terrain_properties_inv `{Host} (self : VolcanicTerrainGenerator)
    (x y : Q) (terrain_data : gmap string pyval) :
  _sample_terrain_properties self x y = Return (Some terrain_data) ->
  exists t, terrain_object self = Some t /\ terrain_data = sample_vertices t x y.
Proof.
  unfold _sample_terrain_properties, inverted.
  destruct (terrain_object self) as [t|]; [|discriminate].
  destruct (Qeq_bool (determinant (matrix_world t)) 0); [discriminate|].
  cbn [obind]. intros Hs. injection Hs as <-. exists t. split; reflexivity.
Qed.

Lemma sample_terrain_properties_returns `{Host} (self : VolcanicTerrainGenerator)
    (x y : Q) :
  invertible_terrain self ->
  exists terrain_data, _sample_terrain_properties self x y = Return terrain_data.
Proof.
  intros Hinv. destruct (terrain_object self) as [t|] eqn:Ht.
  - rewrite (sample_terrain_properties_eq self t x y Ht (Hinv t Ht)). eauto.
  - unfold _sample_terrain_properties. rewrite Ht. eauto.
Qed.

(** C10: the reported [distance_to_nearest] is the horizontal distance
    [((vx - x)^2 + (vy - y)^2) ** 0.5] between the query point and one mesh
    vertex, in which the vertical coordinate does not occur; that vertex
    also supplies the reported height, and no mesh vertex has a smaller
    horizontal distance. *)
Theorem nearest_vertex_is_horizontal `{Host} (self : VolcanicTerrainGenerator)
    (t : TerrainObject) (x y : Q) (terrain_data : gmap string pyval) :
  terrain_object self = Some t ->
  vertices t <> [] ->
  _sample_terrain_properties self x y = Return (Some terrain_data) ->
  exists vert,
    vert ∈ vertices t /\
    let horizontal (v : MeshVertex) :=
      let world_vert := mat_mul_vec (matrix_world t) (co v) in
      pow_half ((vx world_vert - x) ^ 2 + (vy world_vert - y) ^ 2) in
    terrain_data !! "distance_to_nearest" = Some (PFloat (Fin (horizontal vert))) /\
    terrain_data !! "height"
      = Some (PFloat (Fin (vz (mat_mul_vec (matrix_world t) (co vert))))) /\
    forall vert', vert' ∈ vertices t -> (horizontal vert <= horizontal vert')%Q.
Proof.
  intros Ht Hne Hs.
  destruct (sample_terrain_properties_inv self x y terrain_data Hs) as (t' & Ht' & ->).
  rewrite Ht in Ht'. injection Ht' as <-.
  destruct (sample_vertices_entries t x y) as (slope & Hh & _ & _ & Hd & _).
  destruct (find_closest_inv t x y) as [[Hnil _]|(vert & Hin & Hc & Hmin)];
    [contradiction|].
  exists vert. split; [exact Hin|].
  unfold chosen in Hc. rewrite Hc in Hd, Hh. simpl in Hd, Hh.
  split; [exact Hd|]. split; [exact Hh|]. exact Hmin.
Qed.

Lemma nearest_vertex_is_horizontal_witness :
  exists terrain_data vert,
    _sample_terrain_properties (H := Example.host)
      (Example.generator 42 (100, 100)%Z []) 30 (-35) = Return (Some terrain_data) /\
    vert ∈ vertices Example.terrain /\
    terrain_data !! "distance_to_nearest"
      = Some (PFloat (Fin (Example.approx_sqrt
           ((vx (mat_mul_vec identity_matrix (co vert)) - 30) ^ 2
            + (vy (mat_mul_vec identity_matrix (co vert)) - (-35)) ^ 2)))).
Proof.
  eexists. 
  destruct (nearest_vertex_is_horizontal (H := Example.host)
              (Example.generator 42 (100, 100)%Z []) Example.terrain 30 (-35)
              (sample_vertices (H := Example.host) Example.terrain 30 (-35)))
    as (vert & Hin & Hd & _); [reflexivity | discriminate | reflexivity |].
  exists vert. split; [reflexivity|]. split; [exact Hin | exact Hd].
Defined.

(** C6, as stated, fails: the dictionary returned for the query (0, 0) on
    the example terrain has no [elevation_fraction] entry. *)
Lemma query_has_no_elevation_fraction :
  exists terrain_data,
    _sample_terrain_properties (H := Example.host)
      (Example.generator 42 (100, 100)%Z []) 0 0 = Return (Some terrain_data) /\
    ~ has_elevation_fraction terrain_data.
Proof.
  eexists. split; [reflexivity|].
  intros [e [He _]]. vm_compute in He. discriminate.
Qed.

(** C6, amended: the dictionary a terrain query returns has exactly the
    entries [height], [slope], [normal] and [distance_to_nearest], so no
    [elevation_fraction]; the height is the world height of the nearest
    vertex, the one at the smallest horizontal distance, as it is and not
    normalised (0.0 without any vertex). *)
Theorem query_reports_raw_height_only `{Host} (self : VolcanicTerrainGenerator)
    (x y : Q) (terrain_data : gmap string pyval) :
  _sample_terrain_properties self x y = Return (Some terrain_data) ->
  dom terrain_data
    = ({["height"; "slope"; "normal"; "distance_to_nearest"]} : gset string) /\
  terrain_data !! "elevation_fraction" = None /\
  ~ has_elevation_fraction terrain_data /\
  exists t height,
    terrain_object self = Some t /\
    terrain_data !! "height" = Some (PFloat (Fin height)) /\
    ((vertices t = [] /\ height = 0.0%Q) \/
     exists vert, vert ∈ vertices t /\
       height = vz (mat_mul_vec (matrix_world t) (co vert)) /\
       terrain_data !! "distance_to_nearest"
         = Some (PFloat (Fin (vertex_distance t x y vert))) /\
       forall vert', vert' ∈ vertices t ->
         (vertex_distance t x y vert <= vertex_distance t x y vert')%Q).
Proof.
  intros Hs.
  destruct (sample_terrain_properties_inv self x y terrain_data Hs) as (t & Ht & ->).
  destruct (sample_vertices_entries t x y) as (slope & Hh & _ & _ & Hd & Hdom).
  split; [exact Hdom|]. split; [reflexivity|]. split.
  - intros (e & He & _). discriminate He.
  - exists t, (closest_height (find_closest t x y)).
    split; [exact Ht|]. split; [exact Hh|].
    destruct (find_closest_inv t x y) as [[Hnil Hc]|(vert & Hin & Hc & Hmin)].
    + left. rewrite Hc. split; [exact Hnil | reflexivity].
    + right. exists vert. split; [exact Hin|].
      unfold chosen in Hc. rewrite Hc in Hd |- *.
      split; [reflexivity|]. split; [exact Hd | exact Hmin].
Qed.

Lemma query_reports_raw_height_only_witness :
  sample_vertices (H := Example.host) Example.terrain 0 0 !! "elevation_fraction" = None /\
  exists vert,
    vert ∈ vertices Example.terrain /\
    sample_vertices (H := Example.host) Example.terrain 0 0 !! "height"
      = Some (PFloat (Fin (vz (mat_mul_vec identity_matrix (co vert))))) /\
    forall vert', vert' ∈ vertices Example.terrain ->
      (vertex_distance (H := Example.host) Example.terrain 0 0 vert
       <= vertex_distance (H := Example.host) Example.terrain 0 0 vert')%Q.
Proof.
  destruct (query_reports_raw_height_only (H := Example.host)
              (Example.generator 42 (100, 100)%Z []) 0 0
              (sample_vertices (H := Example.host) Example.terrain 0 0))
    as (_ & He & _ & t & height & Ht & Hh & Hnearest); [reflexivity|].
  split; [exact He|]. injection Ht as <-.
  destruct Hnearest as [[Hnil _]|(vert & Hin & -> & _ & Hmin)]; [discriminate Hnil|].
  exists vert. split; [exact Hin|]. split; [exact Hh | exact Hmin].
Defined.

(** ** Placement rules (C2) *)

Lemma num_lt_true (a b : num) : num_lt a b = true -> ~ num_le b a.
Proof.
  intros Hlt Hle. apply num_lt_false in Hle. congruence.
Qed.

Lemma is_valid_placement_spec (terrain_data : gmap string pyval)
    (asset_info : AssetInfo) (height slope distance : num) :
  terrain_data !! "height" = Some (PFloat height) ->
  terrain_data !! "slope" = Some (PFloat slope) ->
  terrain_data !! "distance_to_nearest" = Some (PFloat distance) ->
  exists valid : bool,
    _is_valid_placement terrain_data asset_info = Return valid /\
    (valid = true <-> placement_rules terrain_data asset_info).
Proof.
  intros Hh Hs Hd. unfold _is_valid_placement, getitem, placement_rules, num_gt.
  rewrite Hh, Hs, Hd. cbn [obind as_float].
  set (range := default (0, 1000)%Q (height_range asset_info)).
  set (max_slope := default 45%Q (slope_max asset_info)).
  destruct (num_lt height (Fin (fst range))) eqn:E1; cbn [orb].
  { exists false. split; [reflexivity|]. split; [discriminate|].
    intros (h & s & d & Eh & _ & _ & Hle & _). injection Eh as <-.
    exfalso. exact (num_lt_true _ _ E1 Hle). }
  destruct (num_lt (Fin (snd range)) height) eqn:E2.
  { exists false. split; [reflexivity|]. split; [discriminate|].
    intros (h & s & d & Eh & _ & _ & _ & Hle & _). injection Eh as <-.
    exfalso. exact (num_lt_true _ _ E2 Hle). }
  destruct (num_lt (Fin max_slope) slope) eqn:E3.
  { exists false. split; [reflexivity|]. split; [discriminate|].
    intros (h & s & d & _ & Es & _ & _ & _ & Hle & _). injection Es as <-.
    exfalso. exact (num_lt_true _ _ E3 Hle). }
  destruct (num_lt (Fin 5.0) distance) eqn:E4.
  { exists false. split; [reflexivity|]. split; [discriminate|].
    intros (h & s & d & _ & _ & Ed & _ & _ & _ & Hle). injection Ed as <-.
    exfalso. exact (num_lt_true _ _ E4 Hle). }
  exists true. split; [reflexivity|]. split; [|reflexivity]. intros _.
  exists height, slope, distance.
  apply num_lt_false in E1, E2, E3, E4. repeat split; assumption.
Qed.

(** On the dictionary of a terrain query the rules are always decided. *)
Lemma is_valid_placement_sampled `{Host} (self : VolcanicTerrainGenerator)
    (asset_info : AssetInfo) (x y : Q) (terrain_data : gmap string pyval) :
  _sample_terrain_properties self x y = Return (Some terrain_data) ->
  exists valid : bool,
    _is_valid_placement terrain_data asset_info = Return valid /\
    (valid = true <-> placement_rules terrain_data asset_info).
Proof.
  intros Hs.
  destruct (sample_terrain_properties_inv self x y terrain_data Hs) as (t & _ & ->).
  destruct (sample_vertices_entries t x y) as (slope & Hh & Hsl & _ & Hd & _).
  eapply is_valid_placement_spec; eassumption.
Qed.

(** ** Import and placement (C9) *)

Lemma import_and_place_spec `{Host} (self : VolcanicTerrainGenerator)
    (asset_path : string) (x y : Q) (terrain_data : gmap string pyval)
    (asset_info : AssetInfo) (w : World) :
  _import_and_place_asset self asset_path x y terrain_data asset_info w
    = Return (None, after_import w) \/
  exists imported others height normal,
    import_scene_gltf (imports w) asset_path = Some (imported :: others) /\
    terrain_data !! "height" = Some (PFloat height) /\
    terrain_data !! "normal" = Some (PVector normal) /\
    _import_and_place_asset self asset_path x y terrain_data asset_info w
      = Return (Some (placed_object self asset_info x y height normal imported
                                    (after_import w)),
                after_draw DrawScale (after_draw DrawYaw (after_import w))).
Proof.
  unfold _import_and_place_asset, placement_inputs.
  destruct (import_scene_gltf (imports w) asset_path) as [[|imported others]|];
    [left; reflexivity | | left; reflexivity].
  destruct (terrain_data !! "height") as [[height|?]|]; try (left; reflexivity).
  destruct (terrain_data !! "normal") as [[?|normal]|]; try (left; reflexivity).
  right. exists imported, others, height, normal. repeat split; reflexivity.
Qed.

Lemma draw_position_eq `{Host} (self : VolcanicTerrainGenerator) (w : World) :
  draw_position self w
    = Return ((candidate_x self w, candidate_y self w), after_position w).
Proof.
  unfold draw_position, candidate_x, candidate_y.
  destruct (map_size (config self)) as [size_x size_y]. reflexivity.
Qed.

(** ** One attempt *)

Lemma loop_body_spec `{Host} (self : VolcanicTerrainGenerator)
    (asset_info : AssetInfo) (s : LoopState) (w : World) :
  invertible_terrain self ->
  exists s' w',
    loop_body self asset_info s w = Return (s', w') /\
    attempt self asset_info s w s' w'.
Proof.
  intros Hinv.
  unfold loop_body, bind. rewrite draw_position_eq. cbn [fst snd scattered attempts placed].
  destruct (sample_terrain_properties_returns self (candidate_x self w)
              (candidate_y self w) Hinv) as (sampled & Hs).
  unfold lift at 1. rewrite Hs. cbn [obind].
  destruct sampled as [terrain_data|].
  - destruct (is_valid_placement_sampled self asset_info _ _ _ Hs) as (valid & Hv & _).
    unfold lift. rewrite Hv. cbn [obind].
    destruct valid; cbn [negb].
    + destruct (import_and_place_spec self (file_path asset_info) (candidate_x self w)
                  (candidate_y self w) terrain_data asset_info (after_position w))
        as [Hi|(imported & others & height & normal & _ & _ & _ & Hi)];
        rewrite Hi; eexists _, _; (split; [reflexivity|]).
      * eapply attempt_import_failed; eassumption.
      * eapply attempt_placed; eassumption.
    + eexists _, _. split; [reflexivity|]. eapply attempt_invalid; eassumption.
  - eexists _, _. split; [reflexivity|]. apply attempt_no_terrain. exact Hs.
Qed.

(** The rule of the [while] loop: an invariant kept by every attempt made
    under the loop condition holds at the exit, and the loop does exit when
    the fuel covers the attempts left. *)
Lemma while_loop_rule `{Host} (self : VolcanicTerrainGenerator)
    (asset_info : AssetInfo) (count max_attempts : Z)
    (P : LoopState -> World -> Prop) :
  invertible_terrain self ->
  (forall s w s' w',
      P s w -> loop_cond count max_attempts s = true ->
      attempt self asset_info s w s' w' -> P s' w') ->
  forall (fuel : nat) (s : LoopState) (w : World),
    (max_attempts - attempts s <= Z.of_nat fuel)%Z ->
    P s w ->
    exists s' w',
      while_loop fuel self asset_info count max_attempts s w = Return (s', w') /\
      P s' w' /\
      loop_cond count max_attempts s' = false.
Proof.
  intros Hinv Hstep. induction fuel as [|fuel IH]; intros s w Hfuel HP; simpl;
    destruct (loop_cond count max_attempts s) eqn:Hc.
  - unfold loop_cond in Hc. apply andb_true_iff in Hc as [_ Hc]. lia.
  - exists s, w. repeat split; assumption.
  - destruct (loop_body_spec self asset_info s w Hinv) as (s1 & w1 & Hb & Ha).
    unfold bind. rewrite Hb.
    apply IH.
    + inversion Ha; subst; simpl; lia.
    + eapply Hstep; eassumption.
  - exists s, w. repeat split; assumption.
Qed.

Lemma dot_up (normal : Vector) : (dot normal up == vz normal)%Q.
Proof. unfold dot, up. simpl. ring. Qed.

Lemma nearly_vertical_abs (z : Q) :
  (0.999 <= z \/ z <= - 0.999)%Q -> (0.999 <= Qabs z)%Q.
Proof.
  intros [Hz|Hz].
  - eapply Qle_trans; [exact Hz | apply Qle_Qabs].
  - rewrite <- Qabs_opp. eapply Qle_trans; [|apply Qle_Qabs]. lra.
Qed.

Lemma orient_to_normal_degenerate `{Host} (normal rotation : Vector) :
  (0.999 <= vz normal \/ vz normal <= - 0.999)%Q ->
  orient_to_normal normal rotation = rotation.
Proof.
  intros Hz. unfold orient_to_normal.
  destruct (Qltb 0 (pow_half (dot normal normal))); [|reflexivity].
  replace (Qltb (Qabs (dot normal up)) 0.999) with false; [reflexivity|].
  symmetry. apply Qltb_ge. rewrite dot_up. apply nearly_vertical_abs, Hz.
Qed.

Lemma orient_to_normal_aligned `{Host} (normal rotation : Vector) :
  (0 < pow_half (dot normal normal))%Q ->
  (- 0.999 < vz normal < 0.999)%Q ->
  orient_to_normal normal rotation = rotation_difference_to_euler up normal.
Proof.
  intros Hlen [Hlo Hhi]. unfold orient_to_normal.
  apply Qltb_lt in Hlen. rewrite Hlen.
  replace (Qltb (Qabs (dot normal up)) 0.999) with true; [reflexivity|].
  symmetry. apply Qltb_lt. rewrite dot_up. apply Qabs_case; intros _; lra.
Qed.

(** C9: an accepted placement draws the yaw and then the scale whatever the
    normal is; the terrain alignment is skipped, leaving the orientation of
    the freshly imported object (the identity for an untransformed asset)
    under the yaw, when the normal is nearly parallel ([normal.z >= 0.999])
    and also when it is nearly anti-parallel ([normal.z <= -0.999]) to the up
    vector; a normal of positive length strictly between is aligned. *)
Theorem alignment_skipped_when_nearly_vertical `{Host}
    (self : VolcanicTerrainGenerator) (asset_path : string) (x y : Q)
    (terrain_data : gmap string pyval) (asset_info : AssetInfo) (w : World)
    (imported : BpyObject) (others : list BpyObject) (height : num) (normal : Vector) :
  import_scene_gltf (imports w) asset_path = Some (imported :: others) ->
  terrain_data !! "height" = Some (PFloat height) ->
  terrain_data !! "normal" = Some (PVector normal) ->
  let yaw := (0 + (2 * math_pi - 0) * mt_random (seed (rng w)) (consumed (rng w)))%Q in
  let scale_factor :=
    (fst (scale_range asset_info)
     + (snd (scale_range asset_info) - fst (scale_range asset_info))
       * mt_random (seed (rng w)) (S (consumed (rng w))))%Q in
  exists asset_obj,
    _import_and_place_asset self asset_path x y terrain_data asset_info w
      = Return (Some asset_obj,
                after_draw DrawScale (after_draw DrawYaw (after_import w))) /\
    scale asset_obj = mkVector scale_factor scale_factor scale_factor /\
    ((0.999 <= vz normal \/ vz normal <= - 0.999)%Q ->
     rotation_euler asset_obj
       = mkVector (vx (rotation_euler imported)) (vy (rotation_euler imported))
                  (vz (rotation_euler imported) + yaw) /\
     (rotation_euler imported = mkVector 0 0 0 ->
      rotation_euler asset_obj = mkVector 0 0 (0 + yaw))) /\
    ((0 < pow_half (dot normal normal))%Q -> (- 0.999 < vz normal < 0.999)%Q ->
     rotation_euler asset_obj
       = mkVector (vx (rotation_difference_to_euler up normal))
                  (vy (rotation_difference_to_euler up normal))
                  (vz (rotation_difference_to_euler up normal) + yaw)).
Proof.
  intros Hi Hh Hn yaw scale_factor.
  destruct (import_and_place_spec self asset_path x y terrain_data asset_info w)
    as [Hnone|(imported' & others' & height' & normal' & Hi' & Hh' & Hn' & Hrun)].
  - unfold _import_and_place_asset, placement_inputs in Hnone.
    rewrite Hi, Hh, Hn in Hnone. discriminate.
  - rewrite Hi in Hi'. rewrite Hh in Hh'. rewrite Hn in Hn'.
    injection Hi' as <- <-. injection Hh' as <-. injection Hn' as <-.
    eexists. split; [exact Hrun|]. split; [reflexivity|]. split.
    + intros Hz. unfold placed_object. cbn [rotation_euler].
      rewrite (orient_to_normal_degenerate _ _ Hz).
      split; [reflexivity|]. intros ->. reflexivity.
    + intros Hlen Hz. unfold placed_object. cbn [rotation_euler].
      rewrite (orient_to_normal_aligned _ _ Hlen Hz). reflexivity.
Qed.

Lemma alignment_skipped_when_nearly_vertical_witness :
  exists asset_obj w',
    _import_and_place_asset (H := Example.host)
        (Example.generator 42 (100, 100)%Z []) "latt-bush.glb" 1 2
        (<["height" := PFloat (Fin 7)]> (<["normal" := PVector (mkVector 0 0 (-1))]> ∅))
        Example.bush (Example.world 42)
      = Return (Some asset_obj, w') /\
    rotation_euler asset_obj
      = mkVector 0 0 (0 + (0 + (2 * (355 # 113) - 0) * Example.random_stream 42 0)).
Proof.
  destruct (alignment_skipped_when_nearly_vertical (H := Example.host)
              (Example.generator 42 (100, 100)%Z []) "latt-bush.glb" 1 2
              (<["height" := PFloat (Fin 7)]> (<["normal" := PVector (mkVector 0 0 (-1))]> ∅))
              Example.bush (Example.world 42)
              Example.imported [] (Fin 7) (mkVector 0 0 (-1)))
    as (asset_obj & Hrun & _ & Hskip & _); [reflexivity | reflexivity | reflexivity |].
  eexists asset_obj, _. split; [exact Hrun|].
  apply Hskip; [right; discriminate | reflexivity].
Defined.

(** ** The rejection loop (C4) *)

Lemma import_and_place_placed `{Host} (self : VolcanicTerrainGenerator)
    (asset_path : string) (x y : Q) (terrain_data : gmap string pyval)
    (asset_info : AssetInfo) (w : World)
    (imported : BpyObject) (others : list BpyObject) (height : num) (normal : Vector) :
  import_scene_gltf (imports w) asset_path = Some (imported :: others) ->
  terrain_data !! "height" = Some (PFloat height) ->
  terrain_data !! "normal" = Some (PVector normal) ->
  _import_and_place_asset self asset_path x y terrain_data asset_info w
    = Return (Some (placed_object self asset_info x y height normal imported
                                  (after_import w)),
              after_draw DrawScale (after_draw DrawYaw (after_import w))).
Proof.
  intros Hi Hh Hn. unfold _import_and_place_asset, placement_inputs.
  rewrite Hi, Hh, Hn. reflexivity.
Qed.

Lemma sample_lookups `{Host} (self : VolcanicTerrainGenerator) (x y : Q)
    (terrain_data : gmap string pyval) :
  _sample_terrain_properties self x y = Return (Some terrain_data) ->
  exists height normal,
    terrain_data !! "height" = Some (PFloat (Fin height)) /\
    terrain_data !! "normal" = Some (PVector normal).
Proof.
  intros Hs.
  destruct (sample_terrain_properties_inv self x y terrain_data Hs) as (t & _ & ->).
  destruct (sample_vertices_entries t x y) as (slope & Hh & _ & Hn & _). eauto.
Qed.

Lemma budget_inv_step `{Host} (self : VolcanicTerrainGenerator)
    (asset_info : AssetInfo) (count : Z) (w0 : World)
    (s : LoopState) (w : World) (s' : LoopState) (w' : World) :
  budget_inv self asset_info count w0 s w ->
  loop_cond count (count * 3) s = true ->
  attempt self asset_info s w s' w' ->
  budget_inv self asset_info count w0 s' w'.
Proof.
  intros (Hp & Ha & Hc & Hlen & Hdraws & Hlast) Hcond Hatt.
  unfold loop_cond in Hcond. apply andb_true_iff in Hcond as [Hc1 Hc2].
  apply Z.ltb_lt in Hc1, Hc2.
  inversion Hatt as [Hs | td Hs Hv | td Hs Hv Hi | td o Hs Hv Hi]; subst s' w';
    unfold budget_inv; cbn [placed attempts scattered].
  - repeat split; try (simpl; lia).
  - repeat split; try (simpl; lia).
  - repeat split; try (simpl; lia).
  - repeat split; try (simpl; lia).
    + rewrite length_app. simpl. lia.
    + intros _ _. simpl. eauto.
Qed.

Lemma uniform_in_margin (size : Z) (u : Q) :
  (0 <= u <= 1)%Q -> (10 <= size)%Z ->
  (margin_lo size <= margin_lo size + (margin_hi size - margin_lo size) * u
   <= margin_hi size)%Q.
Proof.
  intros [Hu0 Hu1] Hsize. unfold margin_lo, margin_hi.
  rewrite Zle_Qle in Hsize. change (inject_Z 10) with 10%Q in Hsize.
  set (z := inject_Z size) in *.
  assert (Hw : (0 <= (z - 10) * u)%Q) by (apply Qmult_le_0_compat; lra).
  assert (Hw' : (0 <= (z - 10) * (1 - u))%Q) by (apply Qmult_le_0_compat; lra).
  unfold Qdiv. change (/ 2)%Q with (1 # 2)%Q.
  split; lra.
Qed.

(** Where every candidate inside the margins is accepted, an attempt is a
    placement. *)
Lemma accepted_attempt_places `{Host} (self : VolcanicTerrainGenerator)
    (asset_info : AssetInfo) (s : LoopState) (w : World) (s' : LoopState) (w' : World) :
  unit_random ->
  (10 <= fst (map_size (config self)))%Z ->
  (10 <= snd (map_size (config self)))%Z ->
  accepts_candidates self asset_info ->
  attempt self asset_info s w s' w' ->
  placed s' = (placed s + 1)%Z /\ attempts s' = (attempts s + 1)%Z.
Proof.
  intros Hunit Hx Hy [Hacc Himp] Hatt.
  destruct (Hacc (candidate_x self w) (candidate_y self w)) as (td' & Hs' & Hv').
  { apply uniform_in_margin; [apply Hunit | exact Hx]. }
  { apply uniform_in_margin; [apply Hunit | exact Hy]. }
  inversion Hatt as [Hs | td Hs Hv | td Hs Hv Hi | td o Hs Hv Hi]; subst s' w';
    cbn [placed attempts]; try congruence.
  - exfalso.
    destruct (Himp (imports (after_position w))) as (imported & others & Himported).
    destruct (sample_lookups self _ _ _ Hs) as (height & normal & Hh & Hn).
    rewrite (import_and_place_placed self _ _ _ _ _ _ _ _ _ _ Himported Hh Hn) in Hi.
    discriminate.
  - split; reflexivity.
Qed.

(** C4: the rejection loop always terminates and returns normally; it goes
    through attempts made under the loop condition, each of which places an
    object exactly when the candidate passes the rules and the import yields
    one; at the exit [0 <= placed <= target_count] and at most
    [3 * target_count] attempts were made; the loop stops with the placement
    that reaches the target; fewer placements than the target are returned
    only after the whole budget was used, that is after more than
    [2 * target_count] attempts failed, and without an error; and when
    every candidate inside the margins is accepted the target is reached
    exactly, in as many attempts. *)
Theorem rejection_loop_terminates_within_budget `{Host}
    (self : VolcanicTerrainGenerator) (asset_info : AssetInfo) (count : Z) (w : World) :
  invertible_terrain self ->
  exists s w',
    scatter_loop self asset_info count w = Return (s, w') /\
    (path_exists (file_path asset_info) = true ->
     _scatter_single_asset_type self asset_info count w = Return (scattered s, w')) /\
    attempts_from self asset_info count (mkLoop [] 0 0) w s w' /\
    loop_cond count (count * 3) s = false /\
    (0 <= placed s <= Z.max 0 count)%Z /\
    (placed s <= attempts s <= Z.max 0 (count * 3))%Z /\
    placed s = Z.of_nat (length (scattered s)) /\
    (Z.of_nat (consumed (rng w'))
     = Z.of_nat (consumed (rng w)) + 2 * attempts s + 2 * placed s)%Z /\
    ((placed s < count)%Z -> attempts s = (count * 3)%Z) /\
    ((attempts s - placed s <= 2 * count)%Z -> placed s = Z.max 0 count) /\
    (placed s = count -> (0 < count)%Z ->
     exists l n, draw_log w' = l ++ [(DrawScale, n)]) /\
    (unit_random ->
     (10 <= fst (map_size (config self)))%Z ->
     (10 <= snd (map_size (config self)))%Z ->
     accepts_candidates self asset_info ->
     placed s = Z.max 0 count /\ attempts s = placed s).
Proof.
  intros Hinv.
  destruct (while_loop_rule self asset_info count (count * 3)
              (fun s w1 =>
                 budget_inv self asset_info count w s w1 /\
                 attempts_from self asset_info count (mkLoop [] 0 0) w s w1 /\
                 (unit_random ->
                  (10 <= fst (map_size (config self)))%Z ->
                  (10 <= snd (map_size (config self)))%Z ->
                  accepts_candidates self asset_info -> attempts s = placed s))
              Hinv)
    with (fuel := Z.to_nat (count * 3)) (s := mkLoop [] 0 0) (w := w)
    as (s & w' & Hrun & ((Hp & Ha & Hc & Hlen & Hdraws & Hlast) & Hfrom & Hall) & Hexit).
  { intros s1 w1 s2 w2 (Hb & Hf & Hacc) Hcond Hatt. split; [|split].
    - eapply budget_inv_step; eassumption.
    - eapply attempts_more; eassumption.
    - intros Hunit Hx Hy Hcand. specialize (Hacc Hunit Hx Hy Hcand).
      destruct (accepted_attempt_places self asset_info s1 w1 s2 w2 Hunit Hx Hy Hcand Hatt).
      lia. }
  { simpl. lia. }
  { split; [|split].
    - unfold budget_inv. simpl. repeat split; try lia.
    - constructor.
    - intros _ _ _ _. reflexivity. }
  change (scatter_loop self asset_info count w = Return (s, w')) in Hrun.
  exists s, w'. split; [exact Hrun|].
  split.
  { intros Hex. unfold _scatter_single_asset_type, bind. rewrite Hex. cbn [negb].
    rewrite Hrun. reflexivity. }
  split; [exact Hfrom|].
  split; [exact Hexit|].
  unfold loop_cond in Hexit. apply andb_false_iff in Hexit.
  rewrite !Z.ltb_ge in Hexit.
  do 7 (split; [first [lia | assumption]|]).
  intros Hunit Hx Hy Hcand. specialize (Hall Hunit Hx Hy Hcand). lia.
Qed.

Lemma example_random_range (s : Z) (n : nat) :
  (0 <= Example.random_stream s n <= 1)%Q.
Proof.
  unfold Example.random_stream, Qle. simpl.
  pose proof (Z.mod_pos_bound (s * 31 + Z.of_nat n * 17) 40 eq_refl). lia.
Qed.

(** The integer square root of the example host stays below the root. *)
Lemma approx_sqrt_le_5 (q : Q) : (q <= 25)%Q -> (Example.approx_sqrt q <= 5)%Q.
Proof.
  destruct q as [n d]. unfold Example.approx_sqrt, Qle. cbn [Qnum Qden].
  intros Hq.
  destruct (Z_lt_le_dec (n * Zpos d) 0) as [Hneg|Hpos].
  - rewrite Z.sqrt_neg by exact Hneg. lia.
  - pose proof (Z.sqrt_spec _ Hpos) as [Hs _].
    pose proof (Z.sqrt_nonneg (n * Zpos d)) as Hs0.
    set (r := Z.sqrt (n * Zpos d)) in *.
    assert (Hsq : (r * r <= (5 * Zpos d) * (5 * Zpos d))%Z) by nia.
    nia.
Qed.

Lemma covered_accepts :
  accepts_candidates (H := Example.host) covered_generator Example.stump.
Proof.
  split.
  - intros x y Hx Hy. eexists. split; [reflexivity|].
    assert (Hbx : (-3 <= x <= 3)%Q).
    { revert Hx. unfold margin_lo, margin_hi. cbn [covered_generator config map_size
        Example.cfg fst]. unfold Qdiv. change (/ 2)%Q with (1 # 2)%Q.
      change (inject_Z 16) with 16%Q. intros Hx. split; lra. }
    assert (Hby : (-3 <= y <= 3)%Q).
    { revert Hy. unfold margin_lo, margin_hi. cbn [covered_generator config map_size
        Example.cfg snd]. unfold Qdiv. change (/ 2)%Q with (1 # 2)%Q.
      change (inject_Z 16) with 16%Q. intros Hy. split; lra. }
    set (t := mkTerrain identity_matrix [Example.flat 0 0 5]).
    destruct (is_valid_placement_spec (sample_vertices (H := Example.host) t x y)
                Example.stump
                (Fin (closest_height (find_closest (H := Example.host) t x y)))
                (Fin (math_degrees (H := Example.host)
                        (@math_acos Example.host
                           (py_max (-1) (py_min 1
                              (vz (closest_normal (find_closest (H := Example.host) t x y))))))))
                (closest_distance (find_closest (H := Example.host) t x y)))
      as (valid & Hv & Hiff); try reflexivity.
    rewrite Hv. f_equal. apply Hiff.
    eexists _, _, _. do 3 (split; [reflexivity|]).
    assert (Hd : (Example.approx_sqrt
                    ((vx (mat_mul_vec identity_matrix (mkVector 0 0 5)) - x) ^ 2
                     + (vy (mat_mul_vec identity_matrix (mkVector 0 0 5)) - y) ^ 2) <= 5)%Q).
    { apply approx_sqrt_le_5. cbn.
      assert (H1 : (0 <= (3 - x) * (3 + x))%Q) by (apply Qmult_le_0_compat; lra).
      assert (H2 : (0 <= (3 - y) * (3 + y))%Q) by (apply Qmult_le_0_compat; lra).
      lra. }
    repeat split; try (vm_compute; discriminate).
    change (vertex_distance (H := Example.host) t x y (Example.flat 0 0 5) <= 5.0)%Q.
    eapply Qle_trans; [exact Hd | discriminate].
  - intros n. eexists _, _. reflexivity.
Qed.

Lemma rejection_loop_terminates_within_budget_witness :
  (exists s w',
     scatter_loop (H := Example.host) covered_generator Example.stump 12 (Example.world 42)
       = Return (s, w') /\
     placed s = 12%Z /\ attempts s = placed s) /\
  (exists s w',
     scatter_loop (H := Example.host) (Example.generator 4 (100, 100)%Z [Example.bush])
                  Example.bush 3 (Example.world 4) = Return (s, w') /\
     attempts s = 6%Z /\ placed s = 3%Z).
Proof.
  split.
  - destruct (rejection_loop_terminates_within_budget (H := Example.host)
                covered_generator Example.stump 12 (Example.world 42))
      as (s & w' & Hrun & _ & _ & _ & _ & _ & _ & _ & _ & _ & _ & Hall).
    { intros t Ht. injection Ht as <-. discriminate. }
    exists s, w'. split; [exact Hrun|].
    apply Hall; [intros seed n; apply example_random_range | discriminate | discriminate
                | exact covered_accepts].
  - destruct (rejection_loop_terminates_within_budget (H := Example.host)
                (Example.generator 4 (100, 100)%Z [Example.bush]) Example.bush 3
                (Example.world 4))
      as (s & w' & Hrun & _ & _ & _ & _ & _ & _ & _ & _ & Hsuffice & _).
    { intros t Ht. injection Ht as <-. discriminate. }
    exists s, w'. split; [exact Hrun|].
    assert (Ha : attempts s = 6%Z).
    { vm_compute in Hrun. injection Hrun as <- _. reflexivity. }
    split; [exact Ha|]. rewrite Hsuffice; [reflexivity|].
    vm_compute in Hrun. injection Hrun as <- _. vm_compute. discriminate.
Defined.

(** ** Emitted placements (C2) *)

Lemma placed_validly_step `{Host} (self : VolcanicTerrainGenerator)
    (asset_info : AssetInfo) (w0 : World)
    (s : LoopState) (w : World) (s' : LoopState) (w' : World) :
  seed (rng w) = seed (rng w0) /\
    Forall (placed_validly self asset_info (seed (rng w0))) (scattered s) ->
  attempt self asset_info s w s' w' ->
  seed (rng w') = seed (rng w0) /\
    Forall (placed_validly self asset_info (seed (rng w0))) (scattered s').
Proof.
  intros [Hseed Hall] Hatt.
  inversion Hatt as [Hs | td Hs Hv | td Hs Hv Hi | td o Hs Hv Hi]; subst s' w';
    cbn [scattered]; (split; [exact Hseed|]); try exact Hall.
  apply Forall_app. split; [exact Hall|]. constructor; [|constructor].
  destruct (is_valid_placement_sampled self asset_info _ _ _ Hs) as (valid & Hv' & Hiff).
  rewrite Hv in Hv'. injection Hv' as <-.
  destruct (import_and_place_spec self (file_path asset_info) (candidate_x self w)
              (candidate_y self w) td asset_info (after_position w))
    as [Hnone|(imported & others & height & normal & _ & Hh & _ & Hrun)];
    rewrite Hi in *; [discriminate|].
  injection Hrun as ->.
  exists w, td, height. split; [exact Hseed|]. split; [exact Hs|].
  split; [apply Hiff; reflexivity|]. split; [exact Hh | reflexivity].
Qed.

(** C2, as stated, fails: on a 4x4 map the map reaches from -2 to 2 and
    the bounds shrunk by the margin, from 3 to -3, are empty; the first
    candidate of seed 0 has [x = 3], passes the three rules, and the object
    is emitted there, outside the map. *)
Lemma small_map_candidate_is_outside :
  exists o w' x y height,
    _scatter_single_asset_type (H := Example.host)
        (Example.generator 0 (4, 4)%Z [Example.bush]) Example.bush 1 (Example.world 0)
      = Return ([o], w') /\
    location o = (Fin x, Fin y, height) /\
    x = candidate_x (H := Example.host)
          (Example.generator 0 (4, 4)%Z [Example.bush]) (Example.world 0) /\
    (x == 3)%Q /\
    ~ (- inject_Z 4 / 2 <= x <= inject_Z 4 / 2)%Q /\
    ~ (margin_lo 4 <= x <= margin_hi 4)%Q.
Proof.
  eexists _, _, _, _, _. split; [vm_compute; reflexivity|].
  split; [reflexivity|]. split; [vm_compute; reflexivity|].
  split; [reflexivity|].
  split; intros [_ Hhi]; vm_compute in Hhi; apply Hhi; reflexivity.
Qed.

(** C2, amended: on the dictionary of a terrain query [_is_valid_placement]
    answers [True] exactly when the height lies in the height range, the
    slope is at most [slope_max] and [distance_to_nearest] is at most 5.0;
    every attempt draws its candidate as [uniform(-size/2 + 5, size/2 - 5)]
    in each direction, which lies inside the map bounds shrunk by the 5-unit
    margin when the map is at least 10 units wide in that direction; and
    every object emitted for an asset stands at such a candidate, at the
    sampled height, with a sample that satisfies the three rules. *)
Theorem emitted_placements_satisfy_rules `{Host} (self : VolcanicTerrainGenerator)
    (asset_info : AssetInfo) (count : Z) (w : World) :
  invertible_terrain self ->
  (forall x y terrain_data,
      _sample_terrain_properties self x y = Return (Some terrain_data) ->
      exists valid : bool,
        _is_valid_placement terrain_data asset_info = Return valid /\
        (valid = true <-> placement_rules terrain_data asset_info)) /\
  (forall wa,
      draw_position self wa
        = Return ((candidate_x self wa, candidate_y self wa), after_position wa) /\
      ((0 <= mt_random (seed (rng wa)) (consumed (rng wa)) <= 1)%Q ->
       (10 <= fst (map_size (config self)))%Z ->
       (margin_lo (fst (map_size (config self))) <= candidate_x self wa
        <= margin_hi (fst (map_size (config self))))%Q) /\
      ((0 <= mt_random (seed (rng wa)) (S (consumed (rng wa))) <= 1)%Q ->
       (10 <= snd (map_size (config self)))%Z ->
       (margin_lo (snd (map_size (config self))) <= candidate_y self wa
        <= margin_hi (snd (map_size (config self))))%Q)) /\
  exists objects w',
    _scatter_single_asset_type self asset_info count w = Return (objects, w') /\
    Forall (placed_validly self asset_info (seed (rng w))) objects.
Proof.
  intros Hinv.
  split; [intros x y td Hs; eapply is_valid_placement_sampled; exact Hs|].
  split.
  { intros wa. split; [apply draw_position_eq|].
    split; intros Hu Hsize; exact (uniform_in_margin _ _ Hu Hsize). }
  unfold _scatter_single_asset_type.
  destruct (path_exists (file_path asset_info)); cbn [negb];
    [|exists [], w; split; [reflexivity | constructor]].
  destruct (while_loop_rule self asset_info count (count * 3)
              (fun s w1 => seed (rng w1) = seed (rng w) /\
                 Forall (placed_validly self asset_info (seed (rng w))) (scattered s))
              Hinv
              (fun s w1 s' w1' HP _ Ha => placed_validly_step self asset_info w s w1 s' w1' HP Ha)
              (Z.to_nat (count * 3)) (mkLoop [] 0 0) w)
    as (s & w' & Hrun & [_ Hall] & _).
  { simpl. lia. }
  { split; [reflexivity | constructor]. }
  change (scatter_loop self asset_info count w = Return (s, w')) in Hrun.
  exists (scattered s), w'. unfold bind. rewrite Hrun. split; [reflexivity | exact Hall].
Qed.

Lemma emitted_placements_satisfy_rules_witness :
  exists objects w',
    _scatter_single_asset_type (H := Example.host)
        (Example.generator 42 (100, 100)%Z [Example.bush]) Example.bush 12
        (after_draw DrawVariation (Example.world 42))
      = Return (objects, w') /\
    length objects = 6%nat /\
    Forall (placed_validly (H := Example.host)
              (Example.generator 42 (100, 100)%Z [Example.bush]) Example.bush 42)
           objects.
Proof.
  destruct (emitted_placements_satisfy_rules (H := Example.host)
              (Example.generator 42 (100, 100)%Z [Example.bush]) Example.bush 12
              (after_draw DrawVariation (Example.world 42)))
    as (_ & _ & objects & w' & Hrun & Hall).
  { intros t Ht. injection Ht as <-. discriminate. }
  exists objects, w'. split; [exact Hrun|]. split; [|exact Hall].
  vm_compute in Hrun. injection Hrun as <- _. reflexivity.
Defined.

(** ** Order of the draws *)

Lemma attempts_order_app (la lb : list Draw) :
  attempts_order la -> attempts_order lb -> attempts_order (la ++ lb).
Proof.
  induction 1; intros Hb; simpl;
    [exact Hb | apply order_rejected | apply order_placed]; auto.
Qed.

Lemma log_inv_after_draw (purpose : Draw) (w : World) :
  log_inv w -> log_inv (after_draw purpose w).
Proof.
  unfold log_inv, after_draw. cbn [draw_log rng consumed]. intros Hw.
  rewrite map_app, Hw, seq_S. reflexivity.
Qed.

Lemma log_inv_after_import (w : World) : log_inv w -> log_inv (after_import w).
Proof. exact (fun Hw => Hw). Qed.

(** What an attempt adds to the log. *)
Lemma attempt_log `{Host} (self : VolcanicTerrainGenerator) (asset_info : AssetInfo)
    (s : LoopState) (w : World) (s' : LoopState) (w' : World) :
  attempt self asset_info s w s' w' ->
  seed (rng w') = seed (rng w) /\
  (log_inv w -> log_inv w') /\
  exists la, map fst (draw_log w') = map fst (draw_log w) ++ la /\ attempts_order la.
Proof.
  intros Hatt.
  inversion Hatt as [Hs | td Hs Hv | td Hs Hv Hi | td o Hs Hv Hi]; subst s' w';
    (split; [reflexivity|]); split;
    try (intros Hw; unfold after_position;
         repeat first [apply log_inv_after_draw | apply log_inv_after_import]; exact Hw).
  1-3: exists [DrawX; DrawY]; split;
         [simpl; rewrite !map_app, <- !app_assoc; reflexivity
         | apply order_rejected, order_done].
  exists [DrawX; DrawY; DrawYaw; DrawScale]. split;
    [simpl; rewrite !map_app, <- !app_assoc; reflexivity
    | apply order_placed, order_done].
Qed.

Lemma attempt_log_step `{Host} (self : VolcanicTerrainGenerator) (asset_info : AssetInfo)
    (w0 : World) (s : LoopState) (w : World) (s' : LoopState) (w' : World) :
  (seed (rng w) = seed (rng w0) /\ (log_inv w0 -> log_inv w) /\
   exists la, map fst (draw_log w) = map fst (draw_log w0) ++ la /\ attempts_order la) ->
  attempt self asset_info s w s' w' ->
  (seed (rng w') = seed (rng w0) /\ (log_inv w0 -> log_inv w') /\
   exists la, map fst (draw_log w') = map fst (draw_log w0) ++ la /\ attempts_order la).
Proof.
  intros (Hseed & Hlog & la & Hla & Hord) Hatt.
  destruct (attempt_log self asset_info s w s' w' Hatt) as (Hseed' & Hlog' & lb & Hlb & Hordb).
  split; [congruence|]. split; [auto|].
  exists (la ++ lb). split; [rewrite Hlb, Hla, app_assoc; reflexivity|].
  apply attempts_order_app; assumption.
Qed.

(** Scattering one asset type always returns, and logs attempts only. *)
Lemma scatter_single_log `{Host} (self : VolcanicTerrainGenerator)
    (asset_info : AssetInfo) (count : Z) (w : World) :
  invertible_terrain self ->
  exists objects w',
    _scatter_single_asset_type self asset_info count w = Return (objects, w') /\
    seed (rng w') = seed (rng w) /\
    (log_inv w -> log_inv w') /\
    (exists la, map fst (draw_log w') = map fst (draw_log w) ++ la /\ attempts_order la) /\
    (path_exists (file_path asset_info) = false -> objects = [] /\ w' = w).
Proof.
  intros Hinv. unfold _scatter_single_asset_type.
  destruct (path_exists (file_path asset_info)); cbn [negb].
  - destruct (while_loop_rule self asset_info count (count * 3) _ Hinv
                (fun s w1 s' w1' HP _ Ha => attempt_log_step self asset_info w s w1 s' w1' HP Ha)
                (Z.to_nat (count * 3)) (mkLoop [] 0 0) w)
      as (s & w' & Hrun & (Hseed & Hlog & Hord) & _).
    { simpl. lia. }
    { split; [reflexivity|]. split; [auto|].
      exists []. split; [rewrite app_nil_r; reflexivity | constructor]. }
    change (scatter_loop self asset_info count w = Return (s, w')) in Hrun.
    exists (scattered s), w'. unfold bind. rewrite Hrun.
    split; [reflexivity|]. split; [exact Hseed|]. split; [exact Hlog|].
    split; [exact Hord | discriminate].
  - exists [], w. split; [reflexivity|]. split; [reflexivity|]. split; [auto|].
    split; [|auto].
    exists []. split; [rewrite app_nil_r; reflexivity | constructor].
Qed.

Lemma calculate_asset_count_eq `{Host} (self : VolcanicTerrainGenerator)
    (asset_info : AssetInfo) (w : World) :
  exists count,
    _calculate_asset_count self asset_info w
      = Return (count, after_draw DrawVariation w) /\ (1 <= count)%Z.
Proof. eexists. split; [reflexivity | lia]. Qed.

Lemma scatter_catalog_log `{Host} (self : VolcanicTerrainGenerator)
    (catalog : list AssetInfo) :
  invertible_terrain self ->
  forall (acc : list BpyObject) (w : World),
  exists objects w',
    scatter_catalog self catalog acc w = Return (objects, w') /\
    seed (rng w') = seed (rng w) /\
    (log_inv w -> log_inv w') /\
    exists l, map fst (draw_log w') = map fst (draw_log w) ++ l /\ catalog_order catalog l.
Proof.
  intros Hinv. induction catalog as [|asset_info catalog IH]; intros acc w; simpl.
  - exists acc, w. split; [reflexivity|]. split; [reflexivity|]. split; [auto|].
    exists []. split; [rewrite app_nil_r; reflexivity | constructor].
  - destruct (calculate_asset_count_eq self asset_info w) as (count & Hcount & _).
    unfold bind at 1. rewrite Hcount.
    destruct (scatter_single_log self asset_info count (after_draw DrawVariation w) Hinv)
      as (objs & w1 & Hsingle & Hseed1 & Hlog1 & (la & Hla & Hord) & _).
    unfold bind. rewrite Hsingle.
    destruct (IH (acc ++ objs) w1) as (objects & w' & Hrest & Hseed & Hlog & l & Hl & Hcat).
    exists objects, w'. split; [exact Hrest|].
    split; [rewrite Hseed, Hseed1; reflexivity|].
    split; [intros Hw; apply Hlog, Hlog1, log_inv_after_draw, Hw|].
    exists (DrawVariation :: la ++ l). split; [|constructor; assumption].
    rewrite Hl, Hla. simpl. rewrite map_app, <- !app_assoc. reflexivity.
Qed.

(** ** Unresolved assets (C8) *)

Lemma scatter_assets_returns `{Host} (self : VolcanicTerrainGenerator) (w : World) :
  invertible_terrain self ->
  exists objects self' w',
    scatter_assets self w = Return ((objects, self'), w').
Proof.
  intros Hinv. unfold scatter_assets. destruct (terrain_object self) as [t|].
  - destruct (scatter_catalog_log self (asset_catalog (config self)) Hinv [] w)
      as (objects & w' & Hrun & _).
    unfold bind. rewrite Hrun. eexists _, _, _. reflexivity.
  - eexists _, _, _. reflexivity.
Qed.

Lemma import_failure_step `{Host} (self : VolcanicTerrainGenerator)
    (asset_info : AssetInfo) (s : LoopState) (w : World) (s' : LoopState) (w' : World) :
  (forall n, import_scene_gltf n (file_path asset_info) = None \/
             import_scene_gltf n (file_path asset_info) = Some []) ->
  scattered s = [] ->
  attempt self asset_info s w s' w' ->
  scattered s' = [].
Proof.
  intros Hfail Hs Hatt.
  inversion Hatt as [Hq | td Hq Hv | td Hq Hv Hi | td o Hq Hv Hi]; subst s' w';
    cbn [scattered]; try exact Hs.
  unfold _import_and_place_asset in Hi.
  destruct (Hfail (imports (after_position w))) as [Hn|Hn]; rewrite Hn in Hi;
    discriminate.
Qed.

(** C8: an asset whose file does not exist is skipped: it yields no
    placement and changes nothing but the one draw of its count, the assets
    before and after it in the catalog are scattered as usual, and scattering
    as a whole returns normally: neither the skipped asset nor any rejected
    attempt raises an error.  An asset whose file exists but which the
    importer never turns into an object yields no placement either. *)
Theorem unresolved_asset_is_skipped `{Host} (self : VolcanicTerrainGenerator)
    (asset_info : AssetInfo) (before after : list AssetInfo) :
  invertible_terrain self ->
  path_exists (file_path asset_info) = false ->
  (forall count w,
      _scatter_single_asset_type self asset_info count w = Return ([], w)) /\
  (forall acc w,
      scatter_catalog self (before ++ asset_info :: after) acc w
      = (let* objects := scatter_catalog self before acc in
         let* count := _calculate_asset_count self asset_info in
         scatter_catalog self after objects) w) /\
  (forall w, exists objects self' w',
      scatter_assets self w = Return ((objects, self'), w')) /\
  (forall other count w,
      (forall n, import_scene_gltf n (file_path other) = None \/
                 import_scene_gltf n (file_path other) = Some []) ->
      exists w', _scatter_single_asset_type self other count w = Return ([], w')).
Proof.
  intros Hinv Hmissing.
  assert (Hskip : forall count w,
             _scatter_single_asset_type self asset_info count w = Return ([], w)).
  { intros count w. unfold _scatter_single_asset_type. rewrite Hmissing. reflexivity. }
  split; [exact Hskip|].
  split; [|split; [intros w; apply scatter_assets_returns, Hinv|]].
  - induction before as [|b before IH]; intros acc w.
    + cbn [scatter_catalog app]. unfold bind, ret.
      destruct (_calculate_asset_count self asset_info w) as [[count w1]| |];
        try reflexivity.
      rewrite Hskip, app_nil_r. reflexivity.
    + cbn [scatter_catalog app]. unfold bind in IH |- *.
      destruct (_calculate_asset_count self b w) as [[count w1]| |]; try reflexivity.
      destruct (_scatter_single_asset_type self b count w1) as [[objs w2]| |];
        try reflexivity.
      apply IH.
  - intros other count w Hfail. unfold _scatter_single_asset_type.
    destruct (path_exists (file_path other)); cbn [negb]; [|exists w; reflexivity].
    destruct (while_loop_rule self other count (count * 3)
                (fun s _ => scattered s = []) Hinv
                (fun s w1 s' w1' HP _ Ha =>
                   import_failure_step self other s w1 s' w1' Hfail HP Ha)
                (Z.to_nat (count * 3)) (mkLoop [] 0 0) w)
      as (s & w' & Hrun & Hnone & _).
    { simpl. lia. }
    { reflexivity. }
    change (scatter_loop self other count w = Return (s, w')) in Hrun.
    exists w'. unfold bind. rewrite Hrun, <- Hnone. reflexivity.
Qed.

Lemma unresolved_asset_is_skipped_witness :
  (forall count w,
      _scatter_single_asset_type (H := Example.host)
        (Example.generator 42 (100, 100)%Z [Example.bush; Example.missing; Example.stump])
        Example.missing count w = Return ([], w)) /\
  exists objects w',
    run (H := Example.host)
      (Example.cfg 42 (100, 100)%Z [Example.bush; Example.missing; Example.stump])
      Example.terrain = Return (objects, w') /\
    map name objects
      = repeat "vegetation_000" 9 ++ repeat "rock_formation_000" 6.
Proof.
  split.
  - apply (unresolved_asset_is_skipped (H := Example.host) _ Example.missing
             [Example.bush] [Example.stump]); [|reflexivity].
    intros t Ht. injection Ht as <-. discriminate.
  - eexists _, _. split; vm_compute; reflexivity.
Defined.

(** ** Determinism (C1) *)

Lemma calculate_asset_count_ext `{Host} (self1 self2 : VolcanicTerrainGenerator)
    (asset_info : AssetInfo) (w : World) :
  same_inputs self1 self2 ->
  _calculate_asset_count self1 asset_info w = _calculate_asset_count self2 asset_info w.
Proof.
  intros (Hd & Hm & _). unfold _calculate_asset_count, map_area. rewrite Hd, Hm.
  reflexivity.
Qed.

Lemma loop_body_ext `{Host} (self1 self2 : VolcanicTerrainGenerator)
    (asset_info : AssetInfo) (s : LoopState) (w : World) :
  same_inputs self1 self2 ->
  loop_body self1 asset_info s w = loop_body self2 asset_info s w.
Proof.
  intros (_ & Hm & Ht & Hs).
  unfold loop_body, draw_position, _sample_terrain_properties,
    _import_and_place_asset.
  rewrite Hm, Ht, Hs. reflexivity.
Qed.

Lemma while_loop_ext `{Host} (self1 self2 : VolcanicTerrainGenerator)
    (asset_info : AssetInfo) (count max_attempts : Z) (fuel : nat) :
  same_inputs self1 self2 ->
  forall s w,
    while_loop fuel self1 asset_info count max_attempts s w
    = while_loop fuel self2 asset_info count max_attempts s w.
Proof.
  intros Hsame. induction fuel as [|fuel IH]; intros s w; simpl;
    destruct (loop_cond count max_attempts s); try reflexivity.
  unfold bind. rewrite (loop_body_ext self1 self2 asset_info s w Hsame).
  destruct (loop_body self2 asset_info s w) as [[s1 w1]| |]; try reflexivity.
  apply IH.
Qed.

Lemma scatter_catalog_ext `{Host} (self1 self2 : VolcanicTerrainGenerator)
    (catalog : list AssetInfo) :
  same_inputs self1 self2 ->
  forall acc w,
    scatter_catalog self1 catalog acc w = scatter_catalog self2 catalog acc w.
Proof.
  intros Hsame. induction catalog as [|asset_info catalog IH]; intros acc w;
    cbn [scatter_catalog]; [reflexivity|].
  unfold bind. rewrite (calculate_asset_count_ext self1 self2 asset_info w Hsame).
  destruct (_calculate_asset_count self2 asset_info w) as [[count w1]| |];
    try reflexivity.
  unfold _scatter_single_asset_type, scatter_loop, bind.
  destruct (negb (path_exists (file_path asset_info))); [apply IH|].
  rewrite (while_loop_ext self1 self2 asset_info count (count * 3) _ Hsame).
  destruct (while_loop (Z.to_nat (count * 3)) self2 asset_info count (count * 3)
              (mkLoop [] 0 0) w1) as [[s2 w2]| |]; try reflexivity.
  apply IH.
Qed.

(** C1: two complete runs whose configurations agree on the seed, the map
    size, the density preset and the asset catalog (on the same terrain and
    host) return the same placements in the same order and end in the same
    state of the generator; all randomness is taken from the one generator
    seeded with [RNG_SEED] at construction, value after value from the first,
    and in the order: per asset of the catalog the count-variation draw, then
    per attempt the x and y draws, followed for a placed attempt by the yaw
    and the scale draws. *)
Theorem scattering_is_deterministic `{Host} (cfg1 cfg2 : TerrainConfig)
    (terrain : TerrainObject) :
  ~ (determinant (matrix_world terrain) == 0)%Q ->
  RNG_SEED cfg1 = RNG_SEED cfg2 ->
  map_size cfg1 = map_size cfg2 ->
  DENSITY_PRESET cfg1 = DENSITY_PRESET cfg2 ->
  asset_catalog cfg1 = asset_catalog cfg2 ->
  exists objects w,
    run cfg1 terrain = Return (objects, w) /\
    run cfg2 terrain = Return (objects, w) /\
    seed (rng w) = RNG_SEED cfg1 /\
    map snd (draw_log w) = seq 0 (consumed (rng w)) /\
    catalog_order (asset_catalog cfg1) (map fst (draw_log w)).
Proof.
  intros Hdet Hseed Hsize Hpreset Hcatalog.
  set (self1 := mkGenerator cfg1 (Some terrain) []).
  set (self2 := mkGenerator cfg2 (Some terrain) []).
  set (w0 := mkWorld (random_seed (RNG_SEED cfg1)) 0 []).
  assert (Hsame : same_inputs self1 self2) by (repeat split; assumption).
  assert (Hinv : invertible_terrain self1).
  { intros t Ht. injection Ht as <-. exact Hdet. }
  destruct (scatter_catalog_log self1 (asset_catalog cfg1) Hinv [] w0)
    as (objects & w & Hrun & Hs & Hlog & l & Hl & Hord).
  exists objects, w.
  assert (Hrun1 : run cfg1 terrain = Return (objects, w)).
  { unfold run, init, scatter_assets. cbn [terrain_object config scattered_objects].
    unfold bind. fold self1 w0. rewrite Hrun. reflexivity. }
  split; [exact Hrun1|]. split.
  - rewrite <- Hrun1. unfold run, init, scatter_assets.
    cbn [terrain_object config scattered_objects]. unfold bind.
    fold self1 self2. rewrite <- Hseed, <- Hcatalog.
    rewrite (scatter_catalog_ext self1 self2 (asset_catalog cfg1) Hsame).
    destruct (scatter_catalog self2 (asset_catalog cfg1) [] _) as [[o1 w1]| |];
      reflexivity.
  - split; [exact Hs|]. split; [apply Hlog; reflexivity|].
    rewrite Hl. exact Hord.
Qed.

Lemma scattering_is_deterministic_witness :
  exists objects w,
    run (H := Example.host)
      (Example.cfg 42 (100, 100)%Z [Example.bush; Example.missing; Example.stump])
      Example.terrain = Return (objects, w) /\
    run (H := Example.host)
      (mkConfig "Another_Project" "elsewhere" 42 "Cycles" "Med" (100, 100)%Z
                [Example.bush; Example.missing; Example.stump])
      Example.terrain = Return (objects, w).
Proof.
  destruct (scattering_is_deterministic (H := Example.host)
              (Example.cfg 42 (100, 100)%Z [Example.bush; Example.missing; Example.stump])
              (mkConfig "Another_Project" "elsewhere" 42 "Cycles" "Med" (100, 100)%Z
                        [Example.bush; Example.missing; Example.stump])
              Example.terrain)
    as (objects & w & H1 & H2 & _); try reflexivity; [discriminate|].
  exists objects, w. split; assumption.
Defined.

(** * Further properties of the code *)

(** ** Counts and terrain parameters *)

Lemma int_of_float_lt (x : Q) (n : Z) :
  (0 < n)%Z -> (x < inject_Z n)%Q -> (int_of_float x < n)%Z.
Proof.
  intros Hn Hx. destruct (Qlt_le_dec x 0) as [Hneg|Hpos].
  - destruct x as [a d]. unfold Qlt in Hneg. unfold int_of_float. simpl in *.
    assert (Ha : (a < 0)%Z) by lia.
    assert (Hq : (Z.quot a (Zpos d) <= 0)%Z).
    { rewrite <- (Z.opp_involutive a), Z.quot_opp_l by lia.
      pose proof (Z.quot_pos (- a) (Zpos d)). lia. }
    lia.
  - rewrite int_of_float_floor by exact Hpos.
    assert (Hf : (inject_Z (Qfloor x) < inject_Z n)%Q).
    { eapply Qle_lt_trans; [apply Qfloor_le | exact Hx]. }
    rewrite <- Zlt_Qlt in Hf. exact Hf.
Qed.

Lemma density_multiplier_nonneg (preset : string) :
  (0 <= density_multiplier preset)%Q.
Proof.
  unfold density_multiplier, density_presets.
  destruct (decide (preset = "Low")) as [->|H1]; [discriminate|].
  destruct (decide (preset = "Med")) as [->|H2]; [discriminate|].
  destruct (decide (preset = "High")) as [->|H3]; [discriminate|].
  rewrite !lookup_insert_ne, lookup_empty by congruence. discriminate.
Qed.

Lemma one_times_variation :
  (float (float (inject_Z 1) * float 1.2) < inject_Z 2)%Q /\ (0 <= float (inject_Z 1))%Q.
Proof. split; [reflexivity | apply Qle_bool_iff; vm_compute; reflexivity]. Qed.

(** X1: the target count is never below 1; and when the weighted density
    [15 * density * area_factor * density_weight], as Python's floats
    evaluate it, is below 2 (as it is for a weight of 0 or a negative one on
    a map of non-negative area), every draw gives the count 1 exactly: a
    weight of 0 does not switch an asset off. *)
Theorem small_density_still_places_one `{Host} (self : VolcanicTerrainGenerator)
    (asset_info : AssetInfo) (w : World) :
  (0 <= mt_random (seed (rng w)) (consumed (rng w)) <= 1)%Q ->
  let weighted_density :=
    float (float (float (float (inject_Z 15)
                         * density_multiplier (DENSITY_PRESET (config self)))
                  * float (inject_Z (map_area (config self)) / inject_Z 10000))
           * density_weight asset_info) in
  (exists count, _calculate_asset_count self asset_info w
                   = Return (count, after_draw DrawVariation w) /\ (1 <= count)%Z) /\
  ((weighted_density < 2)%Q ->
   _calculate_asset_count self asset_info w = Return (1%Z, after_draw DrawVariation w)) /\
  ((0 <= map_area (config self))%Z -> (density_weight asset_info <= 0)%Q ->
   (weighted_density <= 0)%Q).
Proof.
  intros Hu weighted_density.
  split; [eexists; split; [reflexivity | lia]|]. split.
  - intros Hsmall. unfold _calculate_asset_count, random_uniform_rounded, bind, random_random.
    unfold ret. f_equal. f_equal.
    pose proof (int_of_float_lt _ 2 eq_refl Hsmall) as Hb.
    unfold weighted_density in Hb.
    unfold float_mul, float_of_int, int_true_div, float_add, float_sub.
    match goal with
    | |- context [inject_Z (Z.max 1 ?b)] => replace (Z.max 1 b) with 1%Z by lia
    end.
    destruct (variation_range _ Hu) as [_ Hv].
    destruct one_times_variation as [Hlt H1].
    match goal with
    | |- (Z.max 1 (int_of_float ?x) = 1)%Z =>
        assert (Hx : (x < inject_Z 2)%Q)
    end.
    { eapply Qle_lt_trans; [|exact Hlt].
      apply float_le, Qmult_le_compat_l_nonneg; assumption. }
    pose proof (int_of_float_lt _ 2 eq_refl Hx). lia.
  - intros Harea Hweight. unfold weighted_density. apply float_nonpos.
    assert (Hf : (0 <= float (float (float (inject_Z 15)
                     * density_multiplier (DENSITY_PRESET (config self)))
                     * float (inject_Z (map_area (config self)) / inject_Z 10000)))%Q).
    { apply float_nonneg. apply Qmult_le_0_compat.
      - apply float_nonneg. apply Qmult_le_0_compat;
          [apply float_nonneg; discriminate | apply density_multiplier_nonneg].
      - apply float_nonneg. apply Qle_shift_div_l; [reflexivity|].
        rewrite Qmult_0_l. change 0%Q with (inject_Z 0). rewrite <- Zle_Qle. exact Harea. }
    set (x := float (float (float (inject_Z 15) * _) * _)) in *.
    assert (Hm : (0 <= x * - density_weight asset_info)%Q)
      by (apply Qmult_le_0_compat; lra).
    lra.
Qed.

Lemma small_density_still_places_one_witness :
  _calculate_asset_count (H := Example.host)
      (Example.generator 42 (100, 100)%Z [])
      (mkAsset "latt-bush.glb" "vegetation" (0.8, 1.2)%Q 0%Q None None)
      (Example.world 42)
    = Return (1%Z, after_draw DrawVariation (Example.world 42)).
Proof.
  destruct (small_density_still_places_one (H := Example.host)
              (Example.generator 42 (100, 100)%Z [])
              (mkAsset "latt-bush.glb" "vegetation" (0.8, 1.2)%Q 0%Q None None)
              (Example.world 42)) as (_ & Hone & Hzero).
  { split; discriminate. }
  apply Hone. eapply Qle_lt_trans; [apply Hzero; [discriminate | apply Qle_refl]|].
  reflexivity.
Defined.

(** X2: the height scale is never below 10 and the crater count never
    below 1, whatever the map size (also zero or negative) and the preset;
    the height scale is exactly 10 while [area * 0.00005 * multiplier] does
    not exceed 10, and there is one crater while
    [area * 0.000008 * multiplier] is below 2. *)
Theorem terrain_parameter_floors (cfg : TerrainConfig) :
  (10 <= height_scale cfg)%Q /\
  (1 <= crater_count cfg)%Z /\
  ((inject_Z (map_area cfg) * 0.00005 * density_multiplier (DENSITY_PRESET cfg) <= 10)%Q ->
   height_scale cfg = 10%Q) /\
  ((inject_Z (map_area cfg) * 0.000008 * density_multiplier (DENSITY_PRESET cfg) < 2)%Q ->
   crater_count cfg = 1%Z).
Proof.
  unfold height_scale, crater_count, py_max.
  set (h := (inject_Z (map_area cfg) * 0.00005 * density_multiplier (DENSITY_PRESET cfg))%Q).
  set (c := (inject_Z (map_area cfg) * 0.000008 * density_multiplier (DENSITY_PRESET cfg))%Q).
  split; [|split; [lia|split]].
  - destruct (Qltb 10 h) eqn:E; [apply Qltb_lt in E; lra | lra].
  - intros Hh. destruct (Qltb 10 h) eqn:E; [apply Qltb_lt in E; lra | reflexivity].
  - intros Hc. pose proof (int_of_float_lt c 2 eq_refl Hc). lia.
Qed.

Lemma terrain_parameter_floors_witness :
  height_scale (Example.cfg 42 (100, 100)%Z []) = 10%Q /\
  crater_count (Example.cfg 42 (100, 100)%Z []) = 1%Z.
Proof.
  destruct (terrain_parameter_floors (Example.cfg 42 (100, 100)%Z []))
    as (_ & _ & Hh & Hc).
  split; [apply Hh | apply Hc]; vm_compute; congruence.
Defined.

(** ** Writing the terrain parameters *)

Lemma set_if_present_lookup (k k' : string) (v : Q) (m : gmap string Q) :
  set_if_present k v m !! k'
  = if decide (k' = k) then (fun _ => v) <$> m !! k else m !! k'.
Proof.
  unfold set_if_present. destruct (decide (k' = k)) as [->|Hne].
  - destruct (m !! k) eqn:E; [rewrite lookup_insert_eq | rewrite E]; reflexivity.
  - destruct (m !! k); [rewrite lookup_insert_ne by congruence|]; reflexivity.
Qed.

Lemma configure_lookup (cfg : TerrainConfig) (m : gmap string Q) (k : string) :
  _configure_terrain_parameters cfg m !! k
  = match m !! k with
    | Some old => Some (default old (configured_value cfg k))
    | None => None
    end.
Proof.
  unfold _configure_terrain_parameters, configured_value.
  rewrite !set_if_present_lookup.
  repeat case_decide; subst; try discriminate; try congruence;
    destruct (m !! _); reflexivity.
Qed.

(** X3: [_configure_terrain_parameters] only overwrites inputs the modifier
    already has: it adds no key (a modifier without the five inputs is
    returned unchanged), leaves every other key alone, and applying it twice
    is the same as applying it once. *)
Theorem configure_only_overwrites (cfg : TerrainConfig) (m : gmap string Q) :
  dom (_configure_terrain_parameters cfg m) = dom m /\
  (forall k, configured_value cfg k = None ->
             _configure_terrain_parameters cfg m !! k = m !! k) /\
  (forall k, m !! k = None -> _configure_terrain_parameters cfg m !! k = None) /\
  _configure_terrain_parameters cfg (_configure_terrain_parameters cfg m)
    = _configure_terrain_parameters cfg m.
Proof.
  split; [|split; [|split]].
  - apply set_eq. intros k. rewrite !elem_of_dom, configure_lookup.
    destruct (m !! k); split; intros [x Hx]; eauto; discriminate.
  - intros k Hk. rewrite configure_lookup, Hk. destruct (m !! k); reflexivity.
  - intros k Hk. rewrite configure_lookup, Hk. reflexivity.
  - apply map_eq. intros k. rewrite !configure_lookup.
    destruct (m !! k) as [old|]; [|reflexivity].
    destruct (configured_value cfg k); reflexivity.
Qed.

Lemma configure_only_overwrites_witness :
  _configure_terrain_parameters (Example.cfg 42 (100, 100)%Z [])
      (<["Socket_2" := 1%Q]> ∅) !! "Socket_2" = Some 1%Q /\
  _configure_terrain_parameters (Example.cfg 42 (100, 100)%Z [])
      (<["Socket_2" := 1%Q]> ∅) !! "Height" = None.
Proof.
  destruct (configure_only_overwrites (Example.cfg 42 (100, 100)%Z [])
              (<["Socket_2" := 1%Q]> ∅)) as (_ & Hother & Hnone & _).
  split; [rewrite Hother | apply Hnone]; reflexivity.
Defined.

(** ** Map size specifications with several separators *)

(** X4: a map-size specification with two or more ['x'] (as in
    ["10x20x30"]) is always rejected with the [ValueError] for a malformed
    specification, whatever stands between the separators. *)
Theorem several_separators_are_rejected (size_str : string) :
  (2 <= count_char "x" size_str)%nat ->
  _validate_map_size size_str = Raise (invalid_map_size size_str).
Proof.
  intros Hcount. unfold _validate_map_size.
  pose proof (split_char_length "x" size_str) as Hlen.
  destruct (contains_char "x" size_str) eqn:Hx.
  - rewrite <- (length_fmap int_of_str) in Hlen.
    destruct (int_of_str <$> split_char "x" size_str)
      as [|[x|] [|[y|] [|z l]]]; simpl in Hlen; try reflexivity; lia.
  - rewrite (count_char_absent _ _ Hx) in Hcount. lia.
Qed.

Lemma several_separators_are_rejected_witness :
  _validate_map_size "10x20x30" = Raise (invalid_map_size "10x20x30").
Proof. apply several_separators_are_rejected. simpl. lia. Defined.

(** ** The placement check on arbitrary dictionaries *)

Lemma num_le_trans (a b c : num) : num_le a b -> num_le b c -> num_le a c.
Proof.
  destruct a, b, c; simpl; try tauto. apply Qle_trans.
Qed.

Lemma is_valid_placement_true (terrain_data : gmap string pyval)
    (asset_info : AssetInfo) :
  _is_valid_placement terrain_data asset_info = Return true ->
  placement_rules terrain_data asset_info.
Proof.
  intros Hv. unfold _is_valid_placement, getitem in Hv.
  destruct (terrain_data !! "height") as [[height|?]|] eqn:Hh;
    destruct (terrain_data !! "slope") as [[slope|?]|] eqn:Hs;
    try discriminate.
  - destruct (terrain_data !! "distance_to_nearest") as [[distance|?]|] eqn:Hd.
    + destruct (is_valid_placement_spec terrain_data asset_info _ _ _ Hh Hs Hd)
        as (valid & Hv' & Hiff).
      unfold _is_valid_placement, getitem in Hv'. rewrite Hh, Hs, Hd in Hv'.
      rewrite Hv' in Hv. injection Hv as ->. apply Hiff. reflexivity.
    + cbn [obind as_float] in Hv.
      repeat (destruct (num_lt _ _) in Hv; cbn [orb] in Hv; try discriminate).
      destruct (num_gt _ _) in Hv; cbn [orb] in Hv; try discriminate.
      destruct (num_gt _ _) in Hv; discriminate.
    + cbn [obind as_float] in Hv.
      repeat (destruct (num_lt _ _) in Hv; cbn [orb] in Hv; try discriminate).
      destruct (num_gt _ _) in Hv; cbn [orb] in Hv; try discriminate.
      destruct (num_gt _ _) in Hv; discriminate.
  - cbn [obind as_float] in Hv.
    repeat (destruct (num_lt _ _) in Hv; cbn [orb] in Hv; try discriminate).
    destruct (num_gt _ _) in Hv; cbn [orb] in Hv; discriminate.
Qed.

(** X5: [_is_valid_placement] reads its keys in a fixed order and lazily: a
    dictionary without [height] raises [KeyError('height')]; one with
    [height] but without [slope] raises [KeyError('slope')] even when the
    height is out of range; a height out of range or a slope above the
    maximum gives [False] without [distance_to_nearest] being looked at; and
    only a sample that passes both needs [distance_to_nearest], whose absence
    then raises [KeyError]. *)
Theorem placement_check_reads_keys_lazily (terrain_data : gmap string pyval)
    (asset_info : AssetInfo) :
  (terrain_data !! "height" = None ->
   _is_valid_placement terrain_data asset_info = Raise (KeyError "height")) /\
  (is_Some (terrain_data !! "height") -> terrain_data !! "slope" = None ->
   _is_valid_placement terrain_data asset_info = Raise (KeyError "slope")) /\
  (forall height slope,
      terrain_data !! "height" = Some (PFloat height) ->
      terrain_data !! "slope" = Some (PFloat slope) ->
      let range := default (0, 1000)%Q (height_range asset_info) in
      let max_slope := default 45%Q (slope_max asset_info) in
      (~ (num_le (Fin (fst range)) height /\ num_le height (Fin (snd range)) /\
          num_le slope (Fin max_slope)) ->
       _is_valid_placement terrain_data asset_info = Return false) /\
      (num_le (Fin (fst range)) height -> num_le height (Fin (snd range)) ->
       num_le slope (Fin max_slope) ->
       terrain_data !! "distance_to_nearest" = None ->
       _is_valid_placement terrain_data asset_info
         = Raise (KeyError "distance_to_nearest"))).
Proof.
  unfold _is_valid_placement, getitem, num_gt. split; [|split].
  - intros ->. reflexivity.
  - intros [h ->] ->. reflexivity.
  - intros height slope -> ->. cbn [obind as_float].
    set (range := default (0, 1000)%Q (height_range asset_info)).
    set (max_slope := default 45%Q (slope_max asset_info)).
    destruct (num_lt height (Fin (fst range))) eqn:E1; cbn [orb].
    { split; [reflexivity|]. intros Hle. exfalso. exact (num_lt_true _ _ E1 Hle). }
    destruct (num_lt (Fin (snd range)) height) eqn:E2.
    { split; [reflexivity|]. intros _ Hle. exfalso. exact (num_lt_true _ _ E2 Hle). }
    destruct (num_lt (Fin max_slope) slope) eqn:E3.
    { split; [reflexivity|]. intros _ _ Hle. exfalso. exact (num_lt_true _ _ E3 Hle). }
    apply num_lt_false in E1, E2, E3. split; [tauto|].
    intros _ _ _ ->. reflexivity.
Qed.

(** X6: the placement check is monotone in the rules: a sample accepted for
    an asset is accepted for every asset whose height range contains the
    first one's and whose maximal slope is at least as large (absent ranges
    counting as [0, 1000] and 45). *)
Theorem wider_rules_accept_more (terrain_data : gmap string pyval)
    (narrow wide : AssetInfo) :
  wider_rules narrow wide ->
  _is_valid_placement terrain_data narrow = Return true ->
  _is_valid_placement terrain_data wide = Return true.
Proof.
  intros (Hlo & Hhi & Hslope) Hv.
  destruct (is_valid_placement_true _ _ Hv)
    as (height & slope & distance & Hh & Hs & Hd & H1 & H2 & H3 & H4).
  destruct (is_valid_placement_spec terrain_data wide _ _ _ Hh Hs Hd)
    as (valid & Hv' & Hiff).
  rewrite Hv'. f_equal. apply Hiff.
  exists height, slope, distance. do 3 (split; [assumption|]).
  split; [eapply num_le_trans; [|exact H1]; exact Hlo|].
  split; [eapply num_le_trans; [exact H2|]; exact Hhi|].
  split; [eapply num_le_trans; [exact H3|]; exact Hslope | exact H4].
Qed.

Lemma wider_rules_accept_more_witness :
  _is_valid_placement (sample_vertices (H := Example.host) Example.terrain 0 0)
                      Example.stump = Return true.
Proof.
  apply (wider_rules_accept_more _ Example.bush Example.stump).
  - repeat split; discriminate.
  - reflexivity.
Defined.

(** ** More on terrain sampling *)

Lemma clamp_range (z : Q) :
  (-1 <= py_max (-1) (py_min 1 z) <= 1)%Q /\
  ((-1 <= z <= 1)%Q -> (py_max (-1) (py_min 1 z) == z)%Q) /\
  ((1 < z)%Q -> (py_max (-1) (py_min 1 z) == 1)%Q) /\
  ((z < -1)%Q -> (py_max (-1) (py_min 1 z) == -1)%Q).
Proof.
  unfold py_max, py_min.
  destruct (Qltb z 1) eqn:E1; [apply Qltb_lt in E1 | apply Qltb_ge in E1].
  - destruct (Qltb (-1) z) eqn:E2; [apply Qltb_lt in E2 | apply Qltb_ge in E2];
      repeat split; intros; lra.
  - destruct (Qltb (-1) 1) eqn:E2; [|discriminate].
    repeat split; intros; lra.
Qed.

(** X7: the slope of a terrain sample is [degrees(acos(c))] for a cosine
    [c] that always lies in [-1, 1]: the [z] of the nearest vertex's world
    normal when that is in range, 1 when it is above 1 and -1 when it is
    below -1, so a normal stretched by the world matrix never takes
    [math.acos] out of its domain. *)
Theorem slope_cosine_is_clamped `{Host} (self : VolcanicTerrainGenerator)
    (x y : Q) (terrain_data : gmap string pyval) :
  _sample_terrain_properties self x y = Return (Some terrain_data) ->
  exists t cosine,
    terrain_object self = Some t /\
    terrain_data !! "slope" = Some (PFloat (Fin (math_degrees (math_acos cosine)))) /\
    terrain_data !! "normal" = Some (PVector (closest_normal (find_closest t x y))) /\
    (-1 <= cosine <= 1)%Q /\
    ((-1 <= vz (closest_normal (find_closest t x y)) <= 1)%Q ->
     (cosine == vz (closest_normal (find_closest t x y)))%Q) /\
    ((1 < vz (closest_normal (find_closest t x y)))%Q -> (cosine == 1)%Q) /\
    ((vz (closest_normal (find_closest t x y)) < -1)%Q -> (cosine == -1)%Q).
Proof.
  intros Hs.
  destruct (sample_terrain_properties_inv self x y terrain_data Hs) as (t & Ht & ->).
  exists t, (py_max (-1) (py_min 1 (vz (closest_normal (find_closest t x y))))).
  split; [exact Ht|]. split; [reflexivity|]. split; [reflexivity|]. apply clamp_range.
Qed.

Lemma slope_cosine_is_clamped_witness :
  exists cosine,
    sample_vertices (H := Example.host)
      (mkTerrain identity_matrix [mkVertex (mkVector 0 0 1) (mkVector 0 0 3)]) 0 0
      !! "slope"
    = Some (PFloat (Fin (math_degrees (H := Example.host)
                                      (@math_acos Example.host cosine)))) /\
    (cosine == 1)%Q.
Proof.
  destruct (slope_cosine_is_clamped (H := Example.host)
              (mkGenerator (Example.cfg 42 (100, 100)%Z [])
                 (Some (mkTerrain identity_matrix
                          [mkVertex (mkVector 0 0 1) (mkVector 0 0 3)])) [])
              0 0 _ eq_refl)
    as (t & cosine & Ht & Hslope & _ & _ & _ & Habove & _).
  injection Ht as <-.
  exists cosine. split; [exact Hslope | apply Habove; reflexivity].
Defined.

Lemma closest_first_step `{Host} (t : TerrainObject) (x y : Q)
    (seen : list MeshVertex) (c : Closest) (vert : MeshVertex) :
  closest_first_inv t x y seen c ->
  closest_first_inv t x y (seen ++ [vert]) (closest_step t x y c vert).
Proof.
  intros Hinv. right. unfold closest_step.
  destruct (num_lt (Fin (vertex_distance t x y vert)) (closest_distance c)) eqn:Hlt.
  - exists (length seen), vert.
    split; [apply list_lookup_middle; reflexivity|]. split; [reflexivity|].
    assert (Hearlier : forall j vert', seen !! j = Some vert' ->
              (vertex_distance t x y vert < vertex_distance t x y vert')%Q).
    { intros j vert' Hj.
      destruct Hinv as [[-> _]|(i & v0 & _ & Hc & Hmin & _)]; [discriminate|].
      unfold chosen in Hc. subst c. simpl in Hlt. apply Qltb_lt in Hlt.
      eapply Qlt_le_trans; [exact Hlt | exact (Hmin j vert' Hj)]. }
    split.
    + intros j vert' Hj. apply lookup_snoc_Some in Hj as [[_ Hj]|[_ <-]].
      * apply Qlt_le_weak. exact (Hearlier j vert' Hj).
      * apply Qle_refl.
    + intros j vert' Hlt' Hj. apply lookup_snoc_Some in Hj as [[_ Hj]|[-> _]]; [|lia].
      exact (Hearlier j vert' Hj).
  - destruct Hinv as [[_ ->]|(i & v0 & Hi & Hc & Hmin & Hfirst)]; [discriminate|].
    unfold chosen in Hc. subst c. simpl in Hlt. apply Qltb_ge in Hlt.
    exists i, v0. split; [apply lookup_app_l_Some; exact Hi|]. split; [reflexivity|].
    split.
    + intros j vert' Hj. apply lookup_snoc_Some in Hj as [[_ Hj]|[_ <-]];
        [exact (Hmin j vert' Hj) | exact Hlt].
    + intros j vert' Hlt' Hj. apply lookup_snoc_Some in Hj as [[_ Hj]|[-> _]].
      * exact (Hfirst j vert' Hlt' Hj).
      * apply lookup_lt_Some in Hi. lia.
Qed.

Lemma find_closest_first `{Host} (t : TerrainObject) (x y : Q) :
  closest_first_inv t x y (vertices t) (find_closest t x y).
Proof.
  unfold find_closest.
  assert (Hgen : forall l seen c,
             closest_first_inv t x y seen c ->
             closest_first_inv t x y (seen ++ l) (fold_left (closest_step t x y) l c)).
  { induction l as [|vert l IH]; intros seen c Hinv; simpl.
    - rewrite app_nil_r. exact Hinv.
    - replace (seen ++ vert :: l) with ((seen ++ [vert]) ++ l)
        by (rewrite <- app_assoc; reflexivity).
      apply IH, closest_first_step, Hinv. }
  apply (Hgen (vertices t) [] closest_init). left. split; reflexivity.
Qed.

(** X8: among several vertices at the same smallest horizontal distance the
    query reports the first one in mesh order: the vertex whose height and
    normal are returned is strictly nearer than every vertex before it and
    at least as near as every vertex after it. *)
Theorem nearest_vertex_ties_go_to_the_first `{Host} (self : VolcanicTerrainGenerator)
    (t : TerrainObject) (x y : Q) (terrain_data : gmap string pyval) :
  terrain_object self = Some t ->
  vertices t <> [] ->
  _sample_terrain_properties self x y = Return (Some terrain_data) ->
  exists (i : nat) (vert : MeshVertex),
    vertices t !! i = Some vert /\
    terrain_data !! "height"
      = Some (PFloat (Fin (vz (mat_mul_vec (matrix_world t) (co vert))))) /\
    terrain_data !! "normal"
      = Some (PVector (mat3_mul_vec (matrix_world t) (normal vert))) /\
    (forall j vert', (j < i)%nat -> vertices t !! j = Some vert' ->
       (vertex_distance t x y vert < vertex_distance t x y vert')%Q) /\
    (forall j vert', vertices t !! j = Some vert' ->
       (vertex_distance t x y vert <= vertex_distance t x y vert')%Q).
Proof.
  intros Ht Hne Hs.
  destruct (sample_terrain_properties_inv self x y terrain_data Hs) as (t' & Ht' & ->).
  rewrite Ht in Ht'. injection Ht' as <-.
  destruct (sample_vertices_entries t x y) as (slope & Hh & _ & Hn & _).
  destruct (find_closest_first t x y)
    as [[Hnil _]|(i & vert & Hi & Hc & Hmin & Hfirst)]; [contradiction|].
  exists i, vert. split; [exact Hi|].
  unfold chosen in Hc. rewrite Hc in Hh, Hn. simpl in Hh, Hn.
  split; [exact Hh|]. split; [exact Hn|]. split; assumption.
Qed.

Lemma nearest_vertex_ties_go_to_the_first_witness :
  exists (i : nat) (vert : MeshVertex),
    [Example.flat (-10) 0 3; Example.flat 10 0 8] !! i = Some vert /\
    sample_vertices (H := Example.host)
      (mkTerrain identity_matrix [Example.flat (-10) 0 3; Example.flat 10 0 8]) 0 0
      !! "height" = Some (PFloat (Fin (vz (mat_mul_vec identity_matrix (co vert))))) /\
    sample_vertices (H := Example.host)
      (mkTerrain identity_matrix [Example.flat (-10) 0 3; Example.flat 10 0 8]) 0 0
      !! "height" = Some (PFloat (Fin 3)).
Proof.
  destruct (nearest_vertex_ties_go_to_the_first (H := Example.host)
              (mkGenerator (Example.cfg 42 (100, 100)%Z [])
                 (Some (mkTerrain identity_matrix
                          [Example.flat (-10) 0 3; Example.flat 10 0 8])) [])
              _ 0 0 _ eq_refl ltac:(discriminate) eq_refl)
    as (i & vert & Hi & Hh & _).
  exists i, vert. split; [exact Hi|]. split; [exact Hh | reflexivity].
Defined.

(** ** Terrains on which nothing can be placed *)

Lemma never_valid_step `{Host} (self : VolcanicTerrainGenerator)
    (asset_info : AssetInfo) (count : Z) (w0 : World)
    (s : LoopState) (w : World) (s' : LoopState) (w' : World) :
  never_valid self asset_info ->
  budget_inv self asset_info count w0 s w /\ scattered s = [] ->
  loop_cond count (count * 3) s = true ->
  attempt self asset_info s w s' w' ->
  budget_inv self asset_info count w0 s' w' /\ scattered s' = [].
Proof.
  intros Hnever [Hb Hs] Hcond Hatt.
  split; [eapply budget_inv_step; eassumption|].
  inversion Hatt as [Hq | td Hq Hv | td Hq Hv Hi | td o Hq Hv Hi]; subst s' w';
    cbn [scattered]; try exact Hs;
    rewrite (Hnever _ _ _ Hq) in Hv; discriminate.
Qed.

Lemma never_valid_uses_whole_budget `{Host} (self : VolcanicTerrainGenerator)
    (asset_info : AssetInfo) (count : Z) (w : World) :
  invertible_terrain self ->
  never_valid self asset_info ->
  path_exists (file_path asset_info) = true ->
  exists w',
    _scatter_single_asset_type self asset_info count w = Return ([], w') /\
    (Z.of_nat (consumed (rng w'))
     = Z.of_nat (consumed (rng w)) + 6 * Z.max 0 count)%Z.
Proof.
  intros Hinv Hnever Hex.
  destruct (while_loop_rule self asset_info count (count * 3)
              (fun s w1 => budget_inv self asset_info count w s w1 /\ scattered s = [])
              Hinv
              (fun s w1 s' w1' HP Hc Ha =>
                 never_valid_step self asset_info count w s w1 s' w1' Hnever HP Hc Ha)
              (Z.to_nat (count * 3)) (mkLoop [] 0 0) w)
    as (s & w' & Hrun & [(Hp & Ha & Hc & Hlen & Hdraws & _) Hs] & Hexit).
  { simpl. lia. }
  { split; [|reflexivity]. unfold budget_inv. simpl. repeat split; try lia. }
  change (scatter_loop self asset_info count w = Return (s, w')) in Hrun.
  exists w'. unfold _scatter_single_asset_type, bind. rewrite Hex. cbn [negb].
  rewrite Hrun, Hs. split; [reflexivity|].
  rewrite Hs in Hlen. simpl in Hlen.
  unfold loop_cond in Hexit. apply andb_false_iff in Hexit.
  rewrite !Z.ltb_ge in Hexit. lia.
Qed.

(** X9: on a terrain mesh without vertices nothing is ever placed: every
    query reports the distance [inf], every candidate is rejected, and an
    asset type whose file exists uses its whole budget of [3 * count]
    attempts (six draws per unit of the count) and returns no object. *)
Theorem empty_mesh_places_nothing `{Host} (self : VolcanicTerrainGenerator)
    (t : TerrainObject) (asset_info : AssetInfo) (count : Z) (w : World) :
  terrain_object self = Some t ->
  vertices t = [] ->
  ~ (determinant (matrix_world t) == 0)%Q ->
  path_exists (file_path asset_info) = true ->
  (forall x y, exists terrain_data,
      _sample_terrain_properties self x y = Return (Some terrain_data) /\
      terrain_data !! "distance_to_nearest" = Some (PFloat Inf) /\
      _is_valid_placement terrain_data asset_info = Return false) /\
  exists w',
    _scatter_single_asset_type self asset_info count w = Return ([], w') /\
    (Z.of_nat (consumed (rng w'))
     = Z.of_nat (consumed (rng w)) + 6 * Z.max 0 count)%Z.
Proof.
  intros Ht Hnil Hdet Hex.
  assert (Hsample : forall x y,
             _sample_terrain_properties self x y = Return (Some (sample_vertices t x y)) /\
             sample_vertices t x y !! "distance_to_nearest" = Some (PFloat Inf) /\
             _is_valid_placement (sample_vertices t x y) asset_info = Return false).
  { intros x y.
    pose proof (sample_terrain_properties_eq self t x y Ht Hdet) as Hs.
    assert (Hd : sample_vertices t x y !! "distance_to_nearest" = Some (PFloat Inf)).
    { unfold sample_vertices, find_closest. rewrite Hnil. reflexivity. }
    split; [exact Hs|]. split; [exact Hd|].
    destruct (is_valid_placement_sampled self asset_info x y _ Hs) as (valid & Hv & Hiff).
    rewrite Hv. destruct valid; [|reflexivity]. exfalso.
    destruct (proj1 Hiff eq_refl) as (h & sl & d & _ & _ & Hd' & _ & _ & _ & Hle).
    rewrite Hd in Hd'. injection Hd' as <-. exact Hle. }
  split; [intros x y; eexists; apply Hsample|].
  apply never_valid_uses_whole_budget; [|intros x y td Hs|exact Hex].
  - intros t' Ht'. rewrite Ht in Ht'. injection Ht' as <-. exact Hdet.
  - destruct (Hsample x y) as (Hs' & _ & Hv). rewrite Hs in Hs'.
    injection Hs' as ->. exact Hv.
Qed.

Lemma empty_mesh_places_nothing_witness :
  exists w',
    _scatter_single_asset_type (H := Example.host)
        (mkGenerator (Example.cfg 42 (100, 100)%Z [Example.stump])
                     (Some (mkTerrain identity_matrix [])) [])
        Example.stump 4 (Example.world 42) = Return ([], w') /\
    consumed (rng w') = 24%nat.
Proof.
  destruct (empty_mesh_places_nothing (H := Example.host)
              (mkGenerator (Example.cfg 42 (100, 100)%Z [Example.stump])
                           (Some (mkTerrain identity_matrix [])) [])
              (mkTerrain identity_matrix []) Example.stump 4 (Example.world 42)
              eq_refl eq_refl ltac:(discriminate) eq_refl)
    as (_ & w' & Hrun & Hdraws).
  exists w'. split; [exact Hrun|]. simpl in Hdraws. lia.
Defined.

(** X10: an asset whose height range is inverted ([min > max]) is never
    placed: every candidate is rejected, and the asset type uses its whole
    budget of [3 * count] attempts and returns no object, without an
    error. *)
Theorem inverted_height_range_places_nothing `{Host} (self : VolcanicTerrainGenerator)
    (asset_info : AssetInfo) (lo hi : Q) (count : Z) (w : World) :
  invertible_terrain self ->
  height_range asset_info = Some (lo, hi) ->
  (hi < lo)%Q ->
  path_exists (file_path asset_info) = true ->
  never_valid self asset_info /\
  exists w',
    _scatter_single_asset_type self asset_info count w = Return ([], w') /\
    (Z.of_nat (consumed (rng w'))
     = Z.of_nat (consumed (rng w)) + 6 * Z.max 0 count)%Z.
Proof.
  intros Hinv Hrange Hlt Hex.
  assert (Hnever : never_valid self asset_info).
  { intros x y td Hs.
    destruct (is_valid_placement_sampled self asset_info x y td Hs) as (valid & Hv & Hiff).
    rewrite Hv. destruct valid; [|reflexivity]. exfalso.
    destruct (proj1 Hiff eq_refl) as (h & sl & d & _ & _ & _ & H1 & H2 & _).
    rewrite Hrange in H1, H2. simpl in H1, H2.
    destruct h as [q|]; simpl in H1, H2; [lra | exact H2]. }
  split; [exact Hnever|]. apply never_valid_uses_whole_budget; assumption.
Qed.

Lemma inverted_height_range_places_nothing_witness :
  exists w',
    _scatter_single_asset_type (H := Example.host)
        (Example.generator 42 (100, 100)%Z [])
        (mkAsset "latt-bush.glb" "vegetation" (0.8, 1.2)%Q 1.0%Q (Some (12, 2)%Q) None)
        4 (Example.world 42) = Return ([], w') /\
    consumed (rng w') = 24%nat.
Proof.
  destruct (inverted_height_range_places_nothing (H := Example.host)
              (Example.generator 42 (100, 100)%Z [])
              (mkAsset "latt-bush.glb" "vegetation" (0.8, 1.2)%Q 1.0%Q (Some (12, 2)%Q) None)
              12 2 4 (Example.world 42))
    as (_ & w' & Hrun & Hdraws); try reflexivity.
  { intros t Ht. injection Ht as <-. discriminate. }
  exists w'. split; [exact Hrun|]. simpl in Hdraws. lia.
Defined.

(** ** A terrain whose world matrix has no inverse *)

(** X11: when the world matrix of the terrain object is singular, the first
    attempt of the first asset whose file exists raises the [ValueError] of
    [matrix_world.inverted()]; nothing catches it, so scattering the catalog
    fails as a whole. *)
Theorem singular_world_matrix_aborts `{Host} (self : VolcanicTerrainGenerator)
    (t : TerrainObject) (asset_info : AssetInfo) (catalog : list AssetInfo)
    (acc : list BpyObject) (w : World) :
  terrain_object self = Some t ->
  (determinant (matrix_world t) == 0)%Q ->
  path_exists (file_path asset_info) = true ->
  (forall count w1, (0 < count)%Z ->
     _scatter_single_asset_type self asset_info count w1
     = Raise (ValueError "Matrix.invert(ed): matrix does not have an inverse")) /\
  scatter_catalog self (asset_info :: catalog) acc w
    = Raise (ValueError "Matrix.invert(ed): matrix does not have an inverse").
Proof.
  intros Ht Hdet Hex.
  assert (Hsingle : forall count w1, (0 < count)%Z ->
            _scatter_single_asset_type self asset_info count w1
            = Raise (ValueError "Matrix.invert(ed): matrix does not have an inverse")).
  { intros count w1 Hcount.
    unfold _scatter_single_asset_type, bind, scatter_loop. rewrite Hex. cbn [negb].
    destruct (Z.to_nat (count * 3)) as [|fuel] eqn:Hfuel; [lia|].
    cbn [while_loop]. unfold loop_cond. cbn [placed attempts].
    replace (0 <? count)%Z with true by (symmetry; apply Z.ltb_lt; lia).
    replace (0 <? count * 3)%Z with true by (symmetry; apply Z.ltb_lt; lia).
    cbn [andb]. unfold bind, loop_body, bind. rewrite draw_position_eq.
    unfold lift, _sample_terrain_properties, inverted. rewrite Ht.
    apply Qeq_bool_iff in Hdet. rewrite Hdet. reflexivity. }
  split; [exact Hsingle|].
  cbn [scatter_catalog]. unfold bind.
  destruct (calculate_asset_count_eq self asset_info w) as (count & Hcount & Hpos).
  rewrite Hcount, Hsingle by lia. reflexivity.
Qed.

Lemma singular_world_matrix_aborts_witness :
  scatter_catalog (H := Example.host)
      (mkGenerator (Example.cfg 42 (100, 100)%Z [Example.bush])
         (Some (mkTerrain (mkMatrix (0, 0, 0, 0)%Q (0, 1, 0, 0)%Q (0, 0, 1, 0)%Q
                                    (0, 0, 0, 1)%Q) [Example.flat 0 0 5])) [])
      [Example.bush] [] (Example.world 42)
    = Raise (ValueError "Matrix.invert(ed): matrix does not have an inverse").
Proof.
  eapply (singular_world_matrix_aborts (H := Example.host)); reflexivity.
Defined.

(** ** What the emitted objects look like *)

Lemma built_for_step `{Host} (self : VolcanicTerrainGenerator)
    (asset_info : AssetInfo) (w0 : World)
    (s : LoopState) (w : World) (s' : LoopState) (w' : World) :
  seed (rng w) = seed (rng w0) /\
    Forall (built_for self asset_info w0) (scattered s) ->
  attempt self asset_info s w s' w' ->
  seed (rng w') = seed (rng w0) /\
    Forall (built_for self asset_info w0) (scattered s').
Proof.
  intros [Hseed Hall] Hatt.
  inversion Hatt as [Hs | td Hs Hv | td Hs Hv Hi | td o Hs Hv Hi]; subst s' w';
    cbn [scattered]; (split; [exact Hseed|]); try exact Hall.
  apply Forall_app. split; [exact Hall|]. constructor; [|constructor].
  destruct (import_and_place_spec self (file_path asset_info) (candidate_x self w)
              (candidate_y self w) td asset_info (after_position w))
    as [Hnone|(imported & others & height & normal & _ & _ & _ & Hrun)];
    rewrite Hi in *; [discriminate|].
  injection Hrun as ->.
  exists (candidate_x self w), (candidate_y self w), height, normal, imported,
         (after_import (after_position w)).
  split; [exact Hseed | reflexivity].
Qed.

Lemma scatter_single_built `{Host} (self : VolcanicTerrainGenerator)
    (asset_info : AssetInfo) (count : Z) (w : World) :
  invertible_terrain self ->
  exists objects w',
    _scatter_single_asset_type self asset_info count w = Return (objects, w') /\
    seed (rng w') = seed (rng w) /\
    Forall (built_for self asset_info w) objects.
Proof.
  intros Hinv. unfold _scatter_single_asset_type.
  destruct (path_exists (file_path asset_info)); cbn [negb];
    [|exists [], w; split; [reflexivity|]; split; [reflexivity | constructor]].
  destruct (while_loop_rule self asset_info count (count * 3)
              (fun s w1 => seed (rng w1) = seed (rng w) /\
                 Forall (built_for self asset_info w) (scattered s))
              Hinv
              (fun s w1 s' w1' HP _ Ha => built_for_step self asset_info w s w1 s' w1' HP Ha)
              (Z.to_nat (count * 3)) (mkLoop [] 0 0) w)
    as (s & w' & Hrun & [Hseed Hall] & _).
  { simpl. lia. }
  { split; [reflexivity | constructor]. }
  change (scatter_loop self asset_info count w = Return (s, w')) in Hrun.
  exists (scattered s), w'. unfold bind. rewrite Hrun.
  split; [reflexivity|]. split; assumption.
Qed.

Lemma scatter_catalog_built `{Host} (self : VolcanicTerrainGenerator)
    (P : BpyObject -> Prop) (w0 : World) (catalog : list AssetInfo) :
  invertible_terrain self ->
  (forall asset_info o, asset_info ∈ catalog ->
     (exists w1, seed (rng w1) = seed (rng w0) /\ built_for self asset_info w1 o) -> P o) ->
  forall (acc : list BpyObject) (w : World),
    seed (rng w) = seed (rng w0) ->
    Forall P acc ->
    exists objects w',
      scatter_catalog self catalog acc w = Return (objects, w') /\
      Forall P objects.
Proof.
  intros Hinv. induction catalog as [|asset_info catalog IH]; intros HP acc w Hseed Hacc.
  - exists acc, w. split; [reflexivity | exact Hacc].
  - cbn [scatter_catalog]. unfold bind.
    destruct (calculate_asset_count_eq self asset_info w) as (count & Hcount & _).
    rewrite Hcount.
    destruct (scatter_single_built self asset_info count (after_draw DrawVariation w) Hinv)
      as (objs & w1 & Hsingle & Hseed1 & Hbuilt).
    rewrite Hsingle.
    apply IH.
    + intros a o Ha. apply HP. apply list_elem_of_further, Ha.
    + rewrite Hseed1. exact Hseed.
    + apply Forall_app. split; [exact Hacc|].
      eapply Forall_impl; [exact Hbuilt|]. intros o Ho.
      apply (HP asset_info); [apply list_elem_of_here|].
      exists (after_draw DrawVariation w). split; [exact Hseed | exact Ho].
Qed.

Lemma uniform_in_range (lo hi u : Q) :
  (lo <= hi)%Q -> (0 <= u <= 1)%Q -> (lo <= lo + (hi - lo) * u <= hi)%Q.
Proof.
  intros Hrange [Hu0 Hu1].
  assert (Hw : (0 <= (hi - lo) * u)%Q) by (apply Qmult_le_0_compat; lra).
  assert (Hw' : (0 <= (hi - lo) * (1 - u))%Q) by (apply Qmult_le_0_compat; lra).
  split; lra.
Qed.

(** X13: every object placed for an asset is scaled by the same factor on
    its three axes, and when the generator's values lie in [0, 1] and the
    scale range is ordered, that factor lies within the scale range. *)
Theorem placed_objects_are_scaled_uniformly `{Host} (self : VolcanicTerrainGenerator)
    (asset_info : AssetInfo) (count : Z) (w : World) :
  invertible_terrain self ->
  (forall n, (0 <= mt_random (seed (rng w)) n <= 1)%Q) ->
  (fst (scale_range asset_info) <= snd (scale_range asset_info))%Q ->
  exists objects w',
    _scatter_single_asset_type self asset_info count w = Return (objects, w') /\
    Forall (fun o => exists factor,
              scale o = mkVector factor factor factor /\
              (fst (scale_range asset_info) <= factor <= snd (scale_range asset_info))%Q)
           objects.
Proof.
  intros Hinv Hrandom Hrange.
  destruct (scatter_single_built self asset_info count w Hinv)
    as (objects & w' & Hrun & _ & Hall).
  exists objects, w'. split; [exact Hrun|].
  eapply Forall_impl; [exact Hall|].
  intros o (x & y & height & normal & imported & w1 & Hseed & ->).
  eexists. split; [reflexivity|]. rewrite Hseed.
  apply uniform_in_range; [exact Hrange | apply Hrandom].
Qed.

Lemma placed_objects_are_scaled_uniformly_witness :
  exists objects w',
    _scatter_single_asset_type (H := Example.host)
        (Example.generator 42 (100, 100)%Z [Example.bush]) Example.bush 12
        (after_draw DrawVariation (Example.world 42))
      = Return (objects, w') /\
    Forall (fun o => exists factor,
              scale o = mkVector factor factor factor /\ (0.8 <= factor <= 1.2)%Q)
           objects.
Proof.
  apply (placed_objects_are_scaled_uniformly (H := Example.host)
           (Example.generator 42 (100, 100)%Z [Example.bush]) Example.bush 12
           (after_draw DrawVariation (Example.world 42))).
  - intros t Ht. injection Ht as <-. discriminate.
  - intros n. apply example_random_range.
  - discriminate.
Defined.

(** ** How scattering composes over the catalog *)

Lemma scatter_catalog_appends `{Host} (self : VolcanicTerrainGenerator)
    (catalog : list AssetInfo) :
  forall acc w,
    scatter_catalog self catalog acc w
    = (let* objects := scatter_catalog self catalog [] in ret (acc ++ objects)) w.
Proof.
  induction catalog as [|asset_info catalog IH]; intros acc w.
  - cbn [scatter_catalog]. unfold bind, ret. rewrite app_nil_r. reflexivity.
  - cbn [scatter_catalog]. unfold bind.
    destruct (_calculate_asset_count self asset_info w) as [[count w1]| |];
      try reflexivity.
    destruct (_scatter_single_asset_type self asset_info count w1) as [[objs w2]| |];
      try reflexivity.
    rewrite (IH (acc ++ objs) w2), (IH ([] ++ objs) w2). unfold bind, ret.
    destruct (scatter_catalog self catalog [] w2) as [[rest w3]| |]; try reflexivity.
    rewrite app_assoc. reflexivity.
Qed.

(** X14: scattering a catalog only appends: the objects already collected
    come first and unchanged, followed by what the catalog yields from the
    same state; and scattering [first ++ second] is scattering [first] and
    then [second] in the state the first left, so the output is in catalog
    order. *)
Theorem scattering_composes_in_catalog_order `{Host} (self : VolcanicTerrainGenerator)
    (first second : list AssetInfo) (acc : list BpyObject) (w : World) :
  scatter_catalog self first acc w
    = (let* objects := scatter_catalog self first [] in ret (acc ++ objects)) w /\
  scatter_catalog self (first ++ second) acc w
    = (let* objects := scatter_catalog self first acc in
       scatter_catalog self second objects) w.
Proof.
  split; [apply scatter_catalog_appends|].
  revert acc w. induction first as [|asset_info first IH]; intros acc w.
  - reflexivity.
  - cbn [scatter_catalog app]. unfold bind in IH |- *.
    destruct (_calculate_asset_count self asset_info w) as [[count w1]| |];
      try reflexivity.
    destruct (_scatter_single_asset_type self asset_info count w1) as [[objs w2]| |];
      try reflexivity.
    apply IH.
Qed.

(** ** Layout of the material nodes *)

Lemma place_node_type (i : nat) (node : ShaderNode) :
  node_type (place_node i node) = node_type node.
Proof. unfold place_node. destruct (is_output node); reflexivity. Qed.

Lemma move_first_output_keeps `{!Inhabited ShaderNode} (nodes : list ShaderNode) :
  forall i n,
    move_first_output nodes !! i = Some n -> is_output n = false ->
    nodes !! i = Some n.
Proof.
  induction nodes as [|node rest IH]; intros i n Hi Hn; simpl in *; [exact Hi|].
  destruct (is_output node) eqn:Hout.
  - destruct i as [|i]; simpl in *; [|exact Hi].
    injection Hi as <-. unfold is_output in *. simpl in Hn. congruence.
  - destruct i as [|i]; simpl in *; [exact Hi | apply IH; assumption].
Qed.

Lemma positioned_in_grid (nodes : list ShaderNode) (i : nat) (n : ShaderNode) :
  _position_material_nodes nodes !! i = Some n -> is_output n = false ->
  node_location n = grid_location i.
Proof.
  intros Hi Hn. unfold _position_material_nodes in Hi.
  apply (move_first_output_keeps (Inhabited0 := populate n)) in Hi; [|exact Hn].
  apply list_lookup_imap_Some in Hi as (n0 & _ & ->).
  unfold place_node in *. destruct (is_output n0) eqn:Hout; [congruence | reflexivity].
Qed.

Lemma grid_location_inj (i j : nat) : grid_location i = grid_location j -> i = j.
Proof.
  unfold grid_location, x_start, y_current, x_step, y_step. intros Heq.
  injection Heq as Hx Hy.
  pose proof (Z.div_mod (Z.of_nat i) 5). pose proof (Z.div_mod (Z.of_nat j) 5). lia.
Qed.

(** X15: the layout puts no two nodes other than output nodes on the same
    spot: after [_position_material_nodes], non-output nodes at different
    positions of the node list have different locations, each one the grid
    cell of its index (five per row, 200 apart, rows 300 apart). *)
Theorem material_nodes_do_not_overlap (nodes : list ShaderNode) (i j : nat)
    (n m : ShaderNode) :
  i <> j ->
  _position_material_nodes nodes !! i = Some n ->
  _position_material_nodes nodes !! j = Some m ->
  is_output n = false ->
  is_output m = false ->
  node_location n = grid_location i /\
  node_location m = grid_location j /\
  node_location n <> node_location m.
Proof.
  intros Hij Hi Hj Hn Hm.
  pose proof (positioned_in_grid nodes i n Hi Hn) as Hli.
  pose proof (positioned_in_grid nodes j m Hj Hm) as Hlj.
  split; [exact Hli|]. split; [exact Hlj|].
  rewrite Hli, Hlj. intros Heq. apply Hij, grid_location_inj, Heq.
Qed.

Lemma material_nodes_do_not_overlap_witness :
  node_location (mkNode "TEX_NOISE" (-1000, 0)%Z)
  <> node_location (mkNode "BSDF_PRINCIPLED" (-800, -300)%Z).
Proof.
  apply (material_nodes_do_not_overlap
           [mkNode "TEX_NOISE" (0, 0)%Z; mkNode "OUTPUT_MATERIAL" (0, 0)%Z;
            mkNode "VALTORGB" (0, 0)%Z; mkNode "MIX_RGB" (0, 0)%Z;
            mkNode "MIX_RGB" (0, 0)%Z; mkNode "MIX_RGB" (0, 0)%Z;
            mkNode "BSDF_PRINCIPLED" (0, 0)%Z] 0 6); try reflexivity. lia.
Defined.

Lemma move_first_output_app (before after : list ShaderNode) (out : ShaderNode) :
  Forall (fun n => is_output n = false) before ->
  is_output out = true ->
  move_first_output (before ++ out :: after)
  = before ++ mkNode (node_type out) (x_start + 6 * x_step, 0)%Z :: after.
Proof.
  intros Hbefore Hout. induction Hbefore as [|n before Hn _ IH]; simpl.
  - rewrite Hout. reflexivity.
  - rewrite Hn, IH. reflexivity.
Qed.

(** X16: the first output node of the list is moved to (200, 0), to the
    right of every grid cell (whose [x] runs from -1000 to -200 and whose [y]
    is at most 0); any further output node keeps the location it had. *)
Theorem first_output_node_goes_right (before after : list ShaderNode)
    (out : ShaderNode) :
  Forall (fun n => is_output n = false) before ->
  is_output out = true ->
  _position_material_nodes (before ++ out :: after) !! length before
    = Some (mkNode (node_type out) (200, 0)%Z) /\
  (forall j n, after !! j = Some n -> is_output n = true ->
     _position_material_nodes (before ++ out :: after) !! (length before + S j)%nat
     = Some n) /\
  (forall i n, _position_material_nodes (before ++ out :: after) !! i = Some n ->
     is_output n = false ->
     (-1000 <= fst (node_location n) <= -200)%Z /\ (snd (node_location n) <= 0)%Z).
Proof.
  intros Hbefore Hout.
  assert (Hshape : _position_material_nodes (before ++ out :: after)
            = imap place_node before
              ++ mkNode (node_type out) (200, 0)%Z
              :: imap (place_node ∘ Nat.add (length before) ∘ S) after).
  { unfold _position_material_nodes. rewrite imap_app. cbn [imap].
    rewrite Nat.add_0_r.
    unfold place_node at 2. rewrite Hout.
    rewrite move_first_output_app; [reflexivity| |exact Hout].
    apply Forall_forall. intros n Hn.
    apply list_elem_of_lookup in Hn as [i Hi].
    apply list_lookup_imap_Some in Hi as (n0 & Hi & ->).
    unfold is_output. rewrite place_node_type.
    rewrite Forall_forall in Hbefore. apply Hbefore.
    apply list_elem_of_lookup. eauto. }
  split; [|split].
  - rewrite Hshape. apply list_lookup_middle. rewrite length_imap. reflexivity.
  - intros j n Hj Hn. rewrite Hshape.
    rewrite lookup_app_r by (rewrite length_imap; lia).
    rewrite length_imap.
    replace (length before + S j - length before)%nat with (S j) by lia.
    match goal with
    | |- (?x :: ?l) !! S j = _ => change ((x :: l) !! S j) with (l !! j)
    end.
    rewrite list_lookup_imap, Hj. cbn.
    unfold place_node. rewrite Hn. reflexivity.
  - intros i n Hi Hn. rewrite (positioned_in_grid _ i n Hi Hn).
    unfold grid_location, x_start, y_current, x_step, y_step. simpl fst. simpl snd.
    pose proof (Z.mod_pos_bound (Z.of_nat i) 5 eq_refl).
    pose proof (Z.div_pos (Z.of_nat i) 5). lia.
Qed.

Lemma first_output_node_goes_right_witness :
  _position_material_nodes
    [mkNode "TEX_NOISE" (0, 0)%Z; mkNode "OUTPUT_MATERIAL" (5, 5)%Z;
     mkNode "OUTPUT_MATERIAL" (7, 7)%Z] !! 1%nat
  = Some (mkNode "OUTPUT_MATERIAL" (200, 0)%Z) /\
  _position_material_nodes
    [mkNode "TEX_NOISE" (0, 0)%Z; mkNode "OUTPUT_MATERIAL" (5, 5)%Z;
     mkNode "OUTPUT_MATERIAL" (7, 7)%Z] !! 2%nat
  = Some (mkNode "OUTPUT_MATERIAL" (7, 7)%Z).
Proof.
  destruct (first_output_node_goes_right [mkNode "TEX_NOISE" (0, 0)%Z]
              [mkNode "OUTPUT_MATERIAL" (7, 7)%Z] (mkNode "OUTPUT_MATERIAL" (5, 5)%Z))
    as (Hfirst & Hrest & _); [repeat constructor | reflexivity |].
  split; [exact Hfirst|]. apply (Hrest 0%nat); reflexivity.
Defined.

(** ** Exporting *)

Lemma export_loop_app `{Exporter} (output_dir project_name : string)
    (first second : list string) :
  forall files calls,
    export_loop output_dir project_name (first ++ second) files calls
    = match export_loop output_dir project_name first files calls with
      | (Some files', calls') => export_loop output_dir project_name second files' calls'
      | (None, calls') => (None, calls')
      end.
Proof.
  induction first as [|format_type first IH]; intros files calls; simpl;
    [reflexivity|].
  destruct (recognise format_type) as [f|]; [|apply IH].
  destruct (export_op f _); [apply IH | reflexivity].
Qed.

Lemma export_loop_success `{Exporter} (output_dir project_name : string)
    (export_formats : list string) :
  (forall f path, (f, path) ∈ recognised_paths output_dir project_name export_formats ->
                  export_op f path = true) ->
  forall files calls,
    export_loop output_dir project_name export_formats files calls
    = (Some (files ++ (snd <$> recognised_paths output_dir project_name export_formats)),
       calls ++ recognised_paths output_dir project_name export_formats).
Proof.
  unfold recognised_paths.
  induction export_formats as [|format_type rest IH]; intros Hok files calls; simpl.
  - rewrite !app_nil_r. reflexivity.
  - cbn [omap list_omap] in Hok |- *.
    destruct (recognise format_type) as [f|] eqn:Hf; cbn [fmap list_fmap] in Hok |- *.
    + rewrite (Hok f _ (list_elem_of_here _ _)).
      rewrite IH by (intros f' path Hin; apply Hok, list_elem_of_further, Hin).
      simpl. rewrite <- !app_assoc. reflexivity.
    + apply IH, Hok.
Qed.

Lemma export_loop_upper `{Exporter} (output_dir project_name : string)
    (export_formats : list string) :
  forall other files calls,
    str_upper <$> other = str_upper <$> export_formats ->
    export_loop output_dir project_name other files calls
    = export_loop output_dir project_name export_formats files calls.
Proof.
  induction export_formats as [|format_type rest IH];
    intros [|o other] files calls Hsame; try discriminate; [reflexivity|].
  injection Hsame as Ho Hrest. simpl. unfold recognise. rewrite Ho.
  fold (recognise format_type).
  destruct (recognise format_type) as [f|]; [|apply IH, Hrest].
  destruct (export_op f _); [apply IH, Hrest | reflexivity].
Qed.

(** X17: when no export operator raises, [export_scene] exports exactly the
    entries of [EXPORT_FORMATS] that read GLB, FBX or OBJ in any mix of upper
    and lower case, in the order given and once per occurrence, each to
    [output_dir / (project_name + extension)]; every other entry is skipped
    without an error. *)
Theorem export_scene_exports_recognised_formats `{Exporter}
    (output_dir project_name : string) (export_formats : list string) :
  (forall f path, (f, path) ∈ recognised_paths output_dir project_name export_formats ->
                  export_op f path = true) ->
  export_scene output_dir project_name export_formats
    = (Some (snd <$> recognised_paths output_dir project_name export_formats),
       recognised_paths output_dir project_name export_formats) /\
  (forall other,
      str_upper <$> other = str_upper <$> export_formats ->
      export_scene output_dir project_name other
      = export_scene output_dir project_name export_formats).
Proof.
  intros Hok. split.
  - unfold export_scene. rewrite (export_loop_success _ _ _ Hok). reflexivity.
  - intros other Hsame. apply export_loop_upper, Hsame.
Qed.

Lemma export_scene_exports_recognised_formats_witness :
  export_scene (H := mkExporter (fun d n => d +:+ "/" +:+ n) (fun _ _ => true))
      "out" "Firagle" ["glb"; "usd"; "Fbx"; "GLB"]
    = (Some ["out/Firagle.glb"; "out/Firagle.fbx"; "out/Firagle.glb"],
       [(GLB, "out/Firagle.glb"); (FBX, "out/Firagle.fbx"); (GLB, "out/Firagle.glb")]).
Proof.
  apply (export_scene_exports_recognised_formats
           (H := mkExporter (fun d n => d +:+ "/" +:+ n) (fun _ _ => true))).
  reflexivity.
Defined.

(** X18: an export operator that raises ends [export_scene] at once: the
    entries after the failing one are never exported, and the list of files
    exported so far is lost with the exception. *)
Theorem failed_export_stops_the_loop `{Exporter} (output_dir project_name : string)
    (before after : list string) (format_type : string) (f : ExportFormat) :
  (forall e path, (e, path) ∈ recognised_paths output_dir project_name before ->
                  export_op e path = true) ->
  recognise format_type = Some f ->
  export_op f (path_join output_dir (project_name +:+ extension f)) = false ->
  export_scene output_dir project_name (before ++ format_type :: after)
    = (None, recognised_paths output_dir project_name before
             ++ [(f, path_join output_dir (project_name +:+ extension f))]).
Proof.
  intros Hok Hf Hfail. unfold export_scene.
  rewrite export_loop_app, (export_loop_success _ _ _ Hok).
  simpl. rewrite Hf, Hfail. reflexivity.
Qed.

Lemma failed_export_stops_the_loop_witness :
  export_scene (H := mkExporter (fun d n => d +:+ "/" +:+ n)
                        (fun f _ => match f with FBX => false | _ => true end))
      "out" "Firagle" (["GLB"] ++ "FBX" :: ["OBJ"])
    = (None, [(GLB, "out/Firagle.glb"); (FBX, "out/Firagle.fbx")]).
Proof.
  apply (failed_export_stops_the_loop
           (H := mkExporter (fun d n => d +:+ "/" +:+ n)
                   (fun f _ => match f with FBX => false | _ => true end))
           "out" "Firagle" ["GLB"] ["OBJ"] "FBX" FBX); try reflexivity.
  intros e path Hin. apply list_elem_of_singleton in Hin. injection Hin as -> ->.
  reflexivity.
Defined.

Lemma recognise_character (a : ascii) : recognise (String a EmptyString) = None.
Proof.
  unfold recognise. cbn [str_upper String.eqb].
  repeat (destruct (Ascii.eqb (upper_ascii a) _); cbn [andb]); reflexivity.
Qed.

(** X19: when [EXPORT_FORMATS] is a string such as ["GLB"] and not a list,
    the loop runs over its characters, none of which names a format: nothing
    is exported, no operator is called, and the empty list is returned
    without an error. *)
Theorem string_of_formats_exports_nothing `{Exporter}
    (output_dir project_name export_formats : string) :
  export_scene output_dir project_name (characters export_formats) = (Some [], []).
Proof.
  unfold export_scene. generalize (@nil string). generalize (@nil (ExportFormat * string)).
  induction export_formats as [|a rest IH]; intros calls files;
    cbn [characters export_loop]; [reflexivity|].
  rewrite recognise_character. apply IH.
Qed.

(** ** Validation of the configuration *)

Lemma rbind_no_exit {A B} (c : pyresult A) (k : A -> pyresult B) :
  no_exit c -> (forall a, no_exit (k a)) -> no_exit (rbind c k).
Proof.
  intros Hc Hk. destruct c as [a|e]; simpl; [apply Hk|].
  intros code Heq. apply (Hc code). congruence.
Qed.

Lemma py_getitem_no_exit (o : pyobj) (key : string) : no_exit (py_getitem o key).
Proof.
  destruct o; simpl; try discriminate. destruct (d !! key); discriminate.
Qed.

Lemma py_in_no_exit (needle : string) (o : pyobj) : no_exit (py_in needle o).
Proof. destruct o; simpl; discriminate. Qed.

Lemma check_fields_no_exit (i : nat) (asset : pyobj) (fields : list string) :
  no_exit (check_fields i asset fields).
Proof.
  induction fields as [|field rest IH]; simpl; [discriminate|].
  apply rbind_no_exit; [apply py_in_no_exit|].
  intros [|]; [exact IH | discriminate].
Qed.

Lemma check_assets_no_exit (catalog : list pyobj) :
  forall i, no_exit (check_assets i catalog).
Proof.
  induction catalog as [|asset rest IH]; intros i; cbn [check_assets]; [discriminate|].
  apply rbind_no_exit; [apply check_fields_no_exit | intros _; apply IH].
Qed.

Lemma validate_map_size_no_exit `{Runtime} (v : pyobj) : no_exit (validate_map_size v).
Proof.
  destruct v; simpl; try discriminate.
  - destruct (_validate_map_size s); discriminate.
  - destruct (existsb _ _); discriminate.
  - destruct (bool_decide _); discriminate.
Qed.

Lemma validate_asset_catalog_no_exit `{Runtime} (config : gmap string pyobj) :
  no_exit (_validate_asset_catalog config).
Proof.
  unfold _validate_asset_catalog.
  apply rbind_no_exit; [apply py_getitem_no_exit|]. intros catalog.
  apply rbind_no_exit.
  - destruct catalog; try discriminate. destruct (json_load_file s); discriminate.
  - intros [| | | | |l|]; try discriminate.
    apply rbind_no_exit; [apply check_assets_no_exit | discriminate].
Qed.

Lemma validate_style_profile_no_exit (config : gmap string pyobj) :
  no_exit (_validate_style_profile config).
Proof.
  unfold _validate_style_profile.
  apply rbind_no_exit; [apply py_getitem_no_exit|]. intros profile.
  destruct profile; try discriminate.
  unfold _get_style_preset. destruct (presets !! s); discriminate.
Qed.

Lemma validate_paths_no_exit `{Runtime} (config : gmap string pyobj) :
  no_exit (_validate_paths config).
Proof.
  unfold _validate_paths.
  apply rbind_no_exit; [apply py_getitem_no_exit|]. intros dir.
  destruct dir; try discriminate. destruct (mkdir_parents s); discriminate.
Qed.

(** X20: constructing a [TerrainConfig] ends in [sys.exit(1)] exactly when
    one of the eleven required inputs is absent or [None]; this is decided
    before anything else is validated (a malformed map size or catalog does
    not matter then), and no other failure of the construction is a
    [sys.exit]. *)
Theorem missing_inputs_exit_first `{Runtime} (config : gmap string pyobj) :
  (validate_inputs config = Err (SystemExit 1) <->
   exists input_name,
     input_name ∈ required_inputs /\
     (config !! input_name = None \/ config !! input_name = Some ONone)) /\
  (forall code, validate_inputs config = Err (SystemExit code) -> code = 1%Z).
Proof.
  assert (Hrest : missing_inputs config = [] -> no_exit (validate_inputs config)).
  { intros Hnone. unfold validate_inputs. rewrite Hnone.
    apply rbind_no_exit; [apply py_getitem_no_exit|]. intros size_str.
    apply rbind_no_exit; [apply validate_map_size_no_exit|]. intros map_size.
    apply rbind_no_exit; [apply validate_asset_catalog_no_exit|]. intros catalog.
    apply rbind_no_exit; [apply validate_style_profile_no_exit|]. intros profile.
    apply rbind_no_exit; [apply validate_paths_no_exit|]. intros dir. discriminate. }
  split; [split|].
  - intros Hexit. destruct (missing_inputs config) as [|input_name rest] eqn:Hm.
    { exfalso. exact (Hrest eq_refl _ Hexit). }
    assert (Hin : In input_name (missing_inputs config)) by (rewrite Hm; left; reflexivity).
    apply List.filter_In in Hin as [Hreq Hmiss].
    exists input_name. split; [apply list_elem_of_In, Hreq|].
    unfold is_missing in Hmiss.
    destruct (config !! input_name) as [[]|]; try discriminate; auto.
  - intros (input_name & Hreq & Hmiss).
    assert (Hin : In input_name (missing_inputs config)).
    { apply List.filter_In. split; [apply list_elem_of_In, Hreq|].
      unfold is_missing. destruct Hmiss as [-> | ->]; reflexivity. }
    unfold validate_inputs. destruct (missing_inputs config); [destruct Hin | reflexivity].
  - intros code Hexit. destruct (missing_inputs config) eqn:Hm.
    + exfalso. exact (Hrest eq_refl _ Hexit).
    + unfold validate_inputs in Hexit. rewrite Hm in Hexit. congruence.
Qed.

Lemma check_fields_complete (i : nat) (d : gmap string pyobj) (fields : list string) :
  (forall field, field ∈ fields -> is_Some (d !! field)) ->
  check_fields i (ODict d) fields = Ok tt.
Proof.
  induction fields as [|field rest IH]; intros Hall; simpl; [reflexivity|].
  rewrite bool_decide_eq_true_2 by (apply Hall, list_elem_of_here).
  apply IH. intros f Hf. apply Hall, list_elem_of_further, Hf.
Qed.

Lemma check_fields_missing (i : nat) (d : gmap string pyobj)
    (present : list string) (field : string) (later : list string) :
  (forall f, f ∈ present -> is_Some (d !! f)) ->
  d !! field = None ->
  check_fields i (ODict d) (present ++ field :: later) = Err (missing_field i field).
Proof.
  induction present as [|f present IH]; intros Hall Hnone; simpl.
  - rewrite bool_decide_eq_false_2; [reflexivity|].
    rewrite Hnone. intros [? ?]. discriminate.
  - rewrite bool_decide_eq_true_2 by (apply Hall, list_elem_of_here).
    apply IH; [|exact Hnone]. intros g Hg. apply Hall, list_elem_of_further, Hg.
Qed.

Lemma check_assets_complete (good : list (gmap string pyobj)) (rest : list pyobj) :
  Forall complete_asset good ->
  forall i, check_assets i ((ODict <$> good) ++ rest) = check_assets (i + length good) rest.
Proof.
  induction 1 as [|d good Hd _ IH]; intros i; cbn [fmap list_fmap app length check_assets].
  - rewrite Nat.add_0_r. reflexivity.
  - rewrite (check_fields_complete i d required_fields Hd). cbn [rbind].
    rewrite IH. f_equal. lia.
Qed.

(** X21: [_validate_asset_catalog] checks the presence of the four required
    fields and nothing else: a list of dictionaries that all have them is
    accepted as it is, whatever the values are; otherwise the [ValueError]
    names the first dictionary that lacks a field, by its index, and the
    first field it lacks in the order file_path, type, scale_range,
    density_weight. *)
Theorem asset_catalog_checks_presence_only `{Runtime} (config : gmap string pyobj)
    (good : list (gmap string pyobj)) :
  Forall complete_asset good ->
  _validate_asset_catalog (<["ASSET_CATALOG" := OList (ODict <$> good)]> config)
    = Ok (ODict <$> good) /\
  (forall bad rest present field later,
      required_fields = present ++ field :: later ->
      (forall f, f ∈ present -> is_Some (bad !! f)) ->
      bad !! field = None ->
      _validate_asset_catalog
        (<["ASSET_CATALOG" := OList ((ODict <$> good) ++ ODict bad :: rest)]> config)
      = Err (Uncaught (ValueError
               ("Asset " +:+ pretty (length good)
                +:+ " missing required field: " +:+ field)))).
Proof.
  intros Hgood. unfold _validate_asset_catalog, py_getitem. split.
  - rewrite lookup_insert_eq. cbn [rbind].
    pose proof (check_assets_complete good [] Hgood 0) as Hc.
    rewrite app_nil_r in Hc. rewrite Hc. reflexivity.
  - intros bad rest present field later Hfields Hpresent Hnone.
    rewrite lookup_insert_eq. cbn [rbind].
    rewrite (check_assets_complete good _ Hgood 0). cbn [check_assets].
    rewrite Hfields, (check_fields_missing _ _ _ _ _ Hpresent Hnone). reflexivity.
Qed.

Lemma asset_catalog_checks_presence_only_witness :
  _validate_asset_catalog
      (H := mkRuntime (fun _ => "") (fun _ => CannotOpen) (fun _ => true))
      (<["ASSET_CATALOG" :=
           OList ((ODict <$> [list_to_map [("file_path", ONone); ("type", OInt 3);
                                           ("scale_range", OList []);
                                           ("density_weight", OFloat (-1))]])
                  ++ ODict (list_to_map [("file_path", OStr "a.glb");
                                         ("density_weight", OFloat 1.0)]) :: [])]> ∅)
    = Err (Uncaught (ValueError "Asset 1 missing required field: type")).
Proof.
  eapply (asset_catalog_checks_presence_only
            (H := mkRuntime (fun _ => "") (fun _ => CannotOpen) (fun _ => true)) ∅
            [list_to_map [("file_path", ONone); ("type", OInt 3);
                          ("scale_range", OList []); ("density_weight", OFloat (-1))]]).
  - repeat constructor. intros field Hfield.
    repeat (apply elem_of_cons in Hfield as [->|Hfield]; [vm_compute; eauto|]).
    apply elem_of_nil in Hfield. destruct Hfield.
  - instantiate (1 := ["scale_range"; "density_weight"]).
    instantiate (1 := ["file_path"]). reflexivity.
  - intros f Hf. apply list_elem_of_singleton in Hf as ->. vm_compute. eauto.
  - reflexivity.
Defined.

(** X22: once the required inputs are there, the map size is validated
    before the catalog, the style and the output directory: its failure is
    the failure of the construction whatever those hold.  A map size given
    as a number instead of a string (400 for '400') fails with the
    [TypeError] of ['x' in size_str], which the [except ValueError] clause
    does not catch. *)
Theorem map_size_is_validated_first `{Runtime} (config : gmap string pyobj)
    (size : pyobj) :
  missing_inputs config = [] ->
  config !! "MAP_SIZE_M" = Some size ->
  (forall e, validate_map_size size = Err e -> validate_inputs config = Err e) /\
  ((exists n, size = OInt n) \/ (exists q, size = OFloat q) \/ (exists b, size = OBool b) ->
   validate_inputs config = Err (Uncaught TypeError)).
Proof.
  intros Hnone Hsize.
  assert (Hfirst : forall e, validate_map_size size = Err e -> validate_inputs config = Err e).
  { intros e He. unfold validate_inputs, py_getitem. rewrite Hnone, Hsize.
    cbn [rbind]. rewrite He. reflexivity. }
  split; [exact Hfirst|].
  intros [[n ->] | [[q ->] | [b ->]]]; apply Hfirst; reflexivity.
Qed.

(** X23: a style given as a string is accepted exactly when it is one of
    the two preset names, and is then replaced by the preset's dictionary;
    a style given as anything else (a dictionary of the caller's own, say)
    is passed through as it is, without any check of its keys. *)
Theorem style_profile_presets_or_passthrough (config : gmap string pyobj)
    (profile : pyobj) :
  config !! "STYLE_PROFILE" = Some profile ->
  (forall preset_name, profile = OStr preset_name ->
     (preset_name = "volcanic_ashfall" /\
        _validate_style_profile config = Ok volcanic_ashfall) \/
     (preset_name = "realistic_volcanic" /\
        _validate_style_profile config = Ok realistic_volcanic) \/
     (preset_name <> "volcanic_ashfall" /\ preset_name <> "realistic_volcanic" /\
        exists msg, _validate_style_profile config = Err (Uncaught (ValueError msg)))) /\
  ((forall preset_name, profile <> OStr preset_name) ->
     _validate_style_profile config = Ok profile).
Proof.
  intros Hprofile. unfold _validate_style_profile, py_getitem. rewrite Hprofile.
  cbn [rbind]. split.
  - intros preset_name ->. unfold _get_style_preset, presets.
    destruct (decide (preset_name = "volcanic_ashfall")) as [->|Hne1]; [left; split; reflexivity|].
    destruct (decide (preset_name = "realistic_volcanic")) as [->|Hne2];
      [right; left; split; reflexivity|].
    right; right. split; [exact Hne1|]. split; [exact Hne2|].
    cbn [list_to_map foldr uncurry fst snd].
    rewrite lookup_insert_ne by congruence.
    rewrite lookup_insert_ne by congruence.
    rewrite lookup_empty. eauto.
  - intros Hother. destruct profile; try reflexivity. exfalso. exact (Hother s eq_refl).
Qed.

Lemma style_profile_presets_or_passthrough_witness :
  _validate_style_profile (<["STYLE_PROFILE" := ODict ∅]> ∅) = Ok (ODict ∅).
Proof.
  apply (style_profile_presets_or_passthrough
           (<["STYLE_PROFILE" := ODict ∅]> ∅) (ODict ∅)).
  - reflexivity.
  - intros preset_name. discriminate.
Defined.

Lemma map_size_is_validated_first_witness :
  validate_inputs (H := example_runtime)
    (example_config (OInt 400) (OStr "volcanic_ashfall")) = Err (Uncaught TypeError).
Proof.
  apply (map_size_is_validated_first (H := example_runtime)
           (example_config (OInt 400) (OStr "volcanic_ashfall")) (OInt 400)).
  - reflexivity.
  - reflexivity.
  - left. exists 400%Z. reflexivity.
Defined.

Lemma rbind_ok {A B} (c : pyresult A) (k : A -> pyresult B) (b : B) :
  rbind c k = Ok b -> exists a, c = Ok a /\ k a = Ok b.
Proof. destruct c as [a|e]; simpl; [eauto | discriminate]. Qed.

Lemma validate_inputs_ok `{Runtime} (config : gmap string pyobj) (cfg : ConfigObject) :
  validate_inputs config = Ok cfg ->
  missing_inputs config = [] /\
  (exists size, config !! "MAP_SIZE_M" = Some size /\
                validate_map_size size = Ok (validated_map_size cfg)) /\
  _validate_asset_catalog config = Ok (validated_catalog cfg) /\
  _validate_style_profile config = Ok (style_profile cfg) /\
  _validate_paths config = Ok (output_dir cfg) /\
  config_dict cfg = config.
Proof.
  unfold validate_inputs. destruct (missing_inputs config); [|discriminate].
  intros Hok.
  apply rbind_ok in Hok as (size & Hsize & Hok).
  apply rbind_ok in Hok as (map_size & Hmap & Hok).
  apply rbind_ok in Hok as (catalog & Hcat & Hok).
  apply rbind_ok in Hok as (profile & Hprofile & Hok).
  apply rbind_ok in Hok as (dir & Hdir & Hok).
  injection Hok as <-. cbn.
  split; [reflexivity|]. split.
  { exists size. split; [|exact Hmap].
    unfold py_getitem in Hsize. destruct (config !! "MAP_SIZE_M"); congruence. }
  auto.
Qed.

(** X24: the built-in preset 'realistic_volcanic' passes the validation of
    the configuration, but its [base_colors] have no 'lava_rock' entry:
    with it, [_create_volcanic_materials] raises [KeyError('lava_rock')] at
    the first colour stop, whatever the rest of the configuration is and
    whatever Blender accepts. *)
Theorem realistic_preset_has_no_lava_rock `{Runtime} `{Blender}
    (config : gmap string pyobj) (cfg : ConfigObject) :
  config !! "STYLE_PROFILE" = Some (OStr "realistic_volcanic") ->
  validate_inputs config = Ok cfg ->
  _create_volcanic_materials (style_profile cfg) = Err (Uncaught (KeyError "lava_rock")).
Proof.
  intros Hstyle Hok. apply validate_inputs_ok in Hok as (_ & _ & _ & Hprofile & _).
  unfold _validate_style_profile, py_getitem in Hprofile. rewrite Hstyle in Hprofile.
  cbn [rbind] in Hprofile.
  assert (Hpreset : _get_style_preset "realistic_volcanic" = Ok realistic_volcanic)
    by reflexivity.
  rewrite Hpreset in Hprofile. injection Hprofile as <-. reflexivity.
Qed.

Lemma realistic_preset_has_no_lava_rock_witness :
  exists cfg,
    validate_inputs (H := example_runtime)
      (example_config (OStr "100x100") (OStr "realistic_volcanic")) = Ok cfg /\
    _create_volcanic_materials (H := example_blender) (style_profile cfg)
      = Err (Uncaught (KeyError "lava_rock")).
Proof.
  eexists. split.
  - vm_compute. reflexivity.
  - apply (realistic_preset_has_no_lava_rock (H := example_runtime) (H0 := example_blender)
             (example_config (OStr "100x100") (OStr "realistic_volcanic"))).
    + reflexivity.
    + vm_compute. reflexivity.
Defined.

(** X25: what a configuration needs to be accepted: the eleven required
    inputs, a map size string that [_validate_map_size] parses, a catalog
    that is a list of dictionaries with the four required fields, the name
    of a preset, and an output directory that can be created.  The object
    then carries the parsed dimensions, the catalog as given, the preset's
    dictionary and the directory; the other inputs are not inspected. *)
Theorem well_formed_configuration_is_accepted `{Runtime}
    (config : gmap string pyobj) (size_str : string) (width height : Z)
    (assets : list (gmap string pyobj)) (preset_name : string) (preset : pyobj)
    (dir : string) :
  missing_inputs config = [] ->
  config !! "MAP_SIZE_M" = Some (OStr size_str) ->
  _validate_map_size size_str = Return (width, height) ->
  config !! "ASSET_CATALOG" = Some (OList (ODict <$> assets)) ->
  Forall complete_asset assets ->
  config !! "STYLE_PROFILE" = Some (OStr preset_name) ->
  presets !! preset_name = Some preset ->
  config !! "OUTPUT_DIR" = Some (OStr dir) ->
  mkdir_parents dir = true ->
  validate_inputs config
    = Ok (mkConfigObject config (width, height) (ODict <$> assets) preset dir).
Proof.
  intros Hnone Hsize Hparse Hcat Hassets Hstyle Hpreset Hdir Hmk.
  unfold validate_inputs. rewrite Hnone.
  unfold py_getitem at 1. rewrite Hsize. cbn [rbind validate_map_size].
  rewrite Hparse. cbn [of_outcome rbind].
  unfold _validate_asset_catalog, py_getitem. rewrite Hcat. cbn [rbind].
  pose proof (check_assets_complete assets [] Hassets 0) as Hc.
  rewrite app_nil_r in Hc. rewrite Hc. cbn [check_assets rbind].
  unfold _validate_style_profile, py_getitem. rewrite Hstyle. cbn [rbind].
  unfold _get_style_preset. rewrite Hpreset. cbn [rbind].
  unfold _validate_paths, py_getitem. rewrite Hdir. cbn [rbind].
  rewrite Hmk. reflexivity.
Qed.

Lemma well_formed_configuration_is_accepted_witness :
  exists cfg,
    validate_inputs (H := example_runtime)
      (example_config (OStr "100x100") (OStr "volcanic_ashfall")) = Ok cfg /\
    validated_map_size cfg = (100, 100)%Z /\
    style_profile cfg = volcanic_ashfall /\
    output_dir cfg = "out".
Proof.
  eexists. split.
  - apply (well_formed_configuration_is_accepted (H := example_runtime)
             (example_config (OStr "100x100") (OStr "volcanic_ashfall"))
             "100x100" 100 100
             [list_to_map [("file_path", OStr "latt-tree-stump.glb");
                           ("type", OStr "rock_formation");
                           ("scale_range", OList [OFloat 0.7; OFloat 1.3]);
                           ("density_weight", OFloat 0.8);
                           ("height_range", OList [OInt 0; OInt 20]);
                           ("slope_max", OInt 45)]]
             "volcanic_ashfall" volcanic_ashfall "out").
    + reflexivity.
    + reflexivity.
    + vm_compute. reflexivity.
    + reflexivity.
    + repeat constructor. intros field Hfield.
      repeat (apply elem_of_cons in Hfield as [->|Hfield]; [vm_compute; eauto|]).
      apply elem_of_nil in Hfield. destruct Hfield.
    + reflexivity.
    + reflexivity.
    + reflexivity.
    + reflexivity.
  - cbn. repeat split.
Defined.
